(** * arco-era5: [update_config_files.py]

    A shallow embedding of [src/arco_era5/update_config_files.py] and the
    properties of its rolling date window, of its credential blocks and
    of the way it rewrites configuration files.

    The module works on four kinds of data, each kept as the code has it:
    - [datetime.date] values, a record of year, month and day, with the
      proleptic Gregorian ordinal of CPython's [datetime] module;
    - Python [str] values, as [string], one character for each code point:
      the characters 0 to 255 of [string] stand for the code points
      U+0000 to U+00FF, so the strings are the Latin-1 texts; slicing,
      [split], [strip], [replace], [lower] and [in] are written out
      below;
    - [configparser.ConfigParser] objects, as insertion-ordered
      association lists of sections and options;
    - the values [json.loads] makes of the payload of a secret, as far as
      the module looks at them: an object with its members, or a value
      that is no object.

    Exceptions are values of [exn]; code that may raise returns a
    [result]; code that also reads or writes files runs in the state and
    error monad [M] over the file store.

    What the module takes from outside is an argument of the embedding:
    the current date and the environment are arguments of the functions
    that read them; the values of the [ExecTypes] enumeration, the reader
    of [configparser], [glob.glob], [os.listdir] and the secret manager
    are the variables of [Section Program].  [Module Sample] gives one
    instance of each, used in the worked examples. *)

From Stdlib Require Import ZArith Lia List Bool Arith.
From Stdlib Require Import Ascii String.
Import ListNotations.
Open Scope string_scope.

(* ================================================================== *)
(** * Python strings *)
(* ================================================================== *)

Module Str.

(** [sub in s] *)
Fixpoint contains (sub s : string) : bool :=
  prefix sub s ||
  match s with
  | EmptyString => false
  | String _ s' => contains sub s'
  end.

(** The scanning loop of [s.split(sep)] for a non-empty [sep]: [skip] counts
    the characters of a separator just matched that are still to be passed
    over.  The result is the piece being read and the pieces after it. *)
Fixpoint split_go (sep : string) (skip : nat) (s : string) : string * list string :=
  match s with
  | EmptyString => (EmptyString, [])
  | String c s' =>
      match skip with
      | S k => split_go sep k s'
      | O =>
          if prefix sep s
          then let r := split_go sep (length sep - 1) s' in
               (EmptyString, fst r :: snd r)
          else let r := split_go sep 0 s' in
               (String c (fst r), snd r)
      end
  end.

(** [s.split(sep)], for the non-empty separators the module uses. *)
Definition split (sep s : string) : list string :=
  let r := split_go sep 0 s in fst r :: snd r.

(** [sep.join(l)] *)
Fixpoint join (sep : string) (l : list string) : string :=
  match l with
  | [] => EmptyString
  | [x] => x
  | x :: l' => x ++ sep ++ join sep l'
  end.

(** [s.replace(old, new)] for a non-empty [old]: every occurrence, found
    from the left and not overlapping. *)
Definition replace (old new s : string) : string :=
  join new (split old s).

(** The code points below 256 for which [str.isspace] holds: the ASCII
    ones, U+0085 (next line) and U+00A0 (no-break space). *)
Definition is_space (c : ascii) : bool :=
  let n := nat_of_ascii c in
  ((9 <=? n)%nat && (n <=? 13)%nat) || ((28 <=? n)%nat && (n <=? 32)%nat)
  || (n =? 133)%nat || (n =? 160)%nat.

Fixpoint lstrip (s : string) : string :=
  match s with
  | EmptyString => EmptyString
  | String c s' => if is_space c then lstrip s' else s
  end.

Fixpoint rstrip (s : string) : string :=
  match s with
  | EmptyString => EmptyString
  | String c s' =>
      match rstrip s' with
      | EmptyString => if is_space c then EmptyString else String c EmptyString
      | r => String c r
      end
  end.

(** [s.strip()] *)
Definition strip (s : string) : string := rstrip (lstrip s).

(** The lower case of a code point below 256: of [A] to [Z], and of the
    capital letters U+00C0 to U+00DE (U+00D7, the multiplication sign, is
    none). *)
Definition lower_char (c : ascii) : ascii :=
  let n := nat_of_ascii c in
  if ((65 <=? n)%nat && (n <=? 90)%nat)
     || ((192 <=? n)%nat && (n <=? 222)%nat && negb (n =? 215)%nat)
  then ascii_of_nat (n + 32) else c.

(** [s.lower()] *)
Fixpoint lower (s : string) : string :=
  match s with
  | EmptyString => EmptyString
  | String c s' => String (lower_char c) (lower s')
  end.

(** [s[a:b]] for [0 <= a <= b]; as in Python the slice is cut at the end of
    the string. *)
Definition slice (a b : nat) (s : string) : string := substring a (b - a) s.

Fixpoint count_char (c : ascii) (s : string) : nat :=
  match s with
  | EmptyString => 0
  | String d s' => (if Ascii.eqb c d then 1 else 0) + count_char c s'
  end.

Fixpoint all_chars (p : ascii -> bool) (s : string) : bool :=
  match s with
  | EmptyString => true
  | String c s' => p c && all_chars p s'
  end.

Fixpoint repeat_char (c : ascii) (n : nat) : string :=
  match n with
  | O => EmptyString
  | S n' => String c (repeat_char c n')
  end.

Definition digit_char (d : Z) : ascii := ascii_of_nat (48 + Z.to_nat d).

(** The decimal digits of a non-negative integer, most significant first;
    [fuel] bounds the number of digits. *)
Fixpoint digits_go (fuel : nat) (n : Z) (acc : string) : string :=
  match fuel with
  | O => acc
  | S fuel' =>
      let acc' := String (digit_char (n mod 10)) acc in
      if (n / 10 =? 0)%Z then acc' else digits_go fuel' (n / 10) acc'
  end.

Definition digits (n : Z) : string :=
  digits_go (S (Z.to_nat (Z.log2 n))) n EmptyString.

(** [str(n)] for an [int] *)
Definition of_int (n : Z) : string :=
  if (n <? 0)%Z then String "-" (digits (- n)) else digits n.

(** ["%0<width>d" % n] for a non-negative [n] *)
Definition zero_pad (width : nat) (n : Z) : string :=
  let s := of_int n in repeat_char "0" (width - length s) ++ s.

(** The value a string of decimal digits denotes. *)
Fixpoint digits_value (acc : Z) (s : string) : Z :=
  match s with
  | EmptyString => acc
  | String c s' => digits_value (10 * acc + (Z.of_nat (nat_of_ascii c) - 48)) s'
  end.

(** The [w] low decimal digits of [n], most significant first. *)
Fixpoint fixed_digits (w : nat) (n : Z) : string :=
  match w with
  | O => EmptyString
  | S w' => fixed_digits w' (n / 10) ++ String (digit_char (n mod 10)) EmptyString
  end.

(** [s.endswith(suffix)] *)
Definition endswith (suffix s : string) : bool :=
  (length suffix <=? length s)%nat
  && String.eqb (substring (length s - length suffix) (length suffix) s) suffix.

End Str.

Definition NL : string := String (ascii_of_nat 10) EmptyString.

(* ================================================================== *)
(** * Exceptions *)
(* ================================================================== *)

Inductive exn : Type :=
| OverflowError
| ValueError
| TypeError
| IndexError
| KeyError (key : string)
| NoSectionError (section : string)
| NoOptionError (option section : string)
| DuplicateSectionError (section : string)
| DuplicateOptionError (section option : string)
| MissingSectionHeaderError
| ParsingError
| SecretError (reference : string).

Inductive result (A : Type) : Type :=
| Ok (a : A)
| Raise (e : exn).
Arguments Ok {A} a.
Arguments Raise {A} e.

Definition rbind {A B} (r : result A) (k : A -> result B) : result B :=
  match r with
  | Ok a => k a
  | Raise e => Raise e
  end.

Declare Scope result_scope.
Delimit Scope result_scope with result.
Notation "x <- r ;; k" := (rbind r (fun x => k))
  (at level 61, r at next level, right associativity) : result_scope.

(* ================================================================== *)
(** * [datetime.date] *)
(* ================================================================== *)

Open Scope Z_scope.

Record date : Type := mkdate { year : Z; month : Z; day : Z }.

Module Datetime.

Definition MINYEAR : Z := 1.
Definition MAXYEAR : Z := 9999.

Definition _DAYS_IN_MONTH : list Z :=
  [-1; 31; 28; 31; 30; 31; 30; 31; 31; 30; 31; 30; 31].

Definition _DAYS_BEFORE_MONTH : list Z :=
  [-1; 0; 31; 59; 90; 120; 151; 181; 212; 243; 273; 304; 334].

Definition index (l : list Z) (i : Z) : Z := nth (Z.to_nat i) l 0.

Definition _is_leap (y : Z) : bool :=
  (y mod 4 =? 0) && (negb (y mod 100 =? 0) || (y mod 400 =? 0)).

Definition _days_before_year (y : Z) : Z :=
  let y := y - 1 in y * 365 + y / 4 - y / 100 + y / 400.

Definition _days_in_month (y m : Z) : Z :=
  if (m =? 2) && _is_leap y then 29 else index _DAYS_IN_MONTH m.

Definition _days_before_month (y m : Z) : Z :=
  index _DAYS_BEFORE_MONTH m + (if (2 <? m) && _is_leap y then 1 else 0).

Definition _ymd2ord (y m d : Z) : Z :=
  _days_before_year y + _days_before_month y m + d.

Definition _DI400Y : Z := Eval cbv in _days_before_year 401.
Definition _DI100Y : Z := Eval cbv in _days_before_year 101.
Definition _DI4Y : Z := Eval cbv in _days_before_year 5.
Definition _MAXORDINAL : Z := 3652059.

Definition _ord2ymd (n : Z) : date :=
  let n := n - 1 in
  let n400 := n / _DI400Y in
  let n := n mod _DI400Y in
  let y := n400 * 400 + 1 in
  let n100 := n / _DI100Y in
  let n := n mod _DI100Y in
  let n4 := n / _DI4Y in
  let n := n mod _DI4Y in
  let n1 := n / 365 in
  let n := n mod 365 in
  let y := y + n100 * 100 + n4 * 4 + n1 in
  if (n1 =? 4) || (n100 =? 4) then mkdate (y - 1) 12 31
  else
    let leapyear := (n1 =? 3) && (negb (n4 =? 24) || (n100 =? 3)) in
    let m := Z.shiftr (n + 50) 5 in
    let preceding :=
      index _DAYS_BEFORE_MONTH m + (if (2 <? m) && leapyear then 1 else 0) in
    if n <? preceding
    then
      let m := m - 1 in
      let preceding :=
        preceding
        - (index _DAYS_IN_MONTH m + (if (m =? 2) && leapyear then 1 else 0)) in
      mkdate y m (n - preceding + 1)
    else mkdate y m (n - preceding + 1).

(** The dates a [datetime.date] object can hold. *)
Definition valid_date (d : date) : Prop :=
  MINYEAR <= year d <= MAXYEAR /\
  1 <= month d <= 12 /\
  1 <= day d <= _days_in_month (year d) (month d).

Definition valid_dateb (d : date) : bool :=
  (MINYEAR <=? year d) && (year d <=? MAXYEAR) &&
  (1 <=? month d) && (month d <=? 12) &&
  (1 <=? day d) && (day d <=? _days_in_month (year d) (month d)).

Definition toordinal (d : date) : Z := _ymd2ord (year d) (month d) (day d).

Definition fromordinal (n : Z) : date := _ord2ymd n.

(** [d + timedelta(days)]: [date.__add__] *)
Definition add_days (d : date) (days : Z) : result date :=
  let o := toordinal d + days in
  if (0 <? o) && (o <=? _MAXORDINAL) then Ok (fromordinal o)
  else Raise OverflowError.

(** [d - timedelta(days)]: [date.__sub__] adds the negated delta. *)
Definition sub_days (d : date) (days : Z) : result date := add_days d (- days).

(** [d.replace(day=n)] for a day every month has. *)
Definition replace_day (d : date) (n : Z) : date := mkdate (year d) (month d) n.

(** [str(d)], that is [d.isoformat()]: ["%04d-%02d-%02d"]. *)
Definition isoformat (d : date) : string :=
  (Str.zero_pad 4 (year d) ++ "-" ++ Str.zero_pad 2 (month d) ++ "-"
   ++ Str.zero_pad 2 (day d))%string.

End Datetime.

Close Scope Z_scope.

(* ================================================================== *)
(** * Insertion-ordered dictionaries *)
(* ================================================================== *)

(** A Python [dict] with [str] keys, as the list of its items in insertion
    order. *)
Module Dict.

Section Ops.
Context {V : Type}.

Fixpoint get (k : string) (l : list (string * V)) : option V :=
  match l with
  | [] => None
  | (k', v) :: l' => if String.eqb k k' then Some v else get k l'
  end.

Definition keys (l : list (string * V)) : list string := map fst l.

Definition mem (k : string) (l : list (string * V)) : bool :=
  existsb (String.eqb k) (keys l).

(** [d[k] = v]: a key already there keeps its place, a new one goes last. *)
Fixpoint set (k : string) (v : V) (l : list (string * V)) : list (string * V) :=
  match l with
  | [] => [(k, v)]
  | (k', v') :: l' =>
      if String.eqb k k' then (k, v) :: l' else (k', v') :: set k v l'
  end.

(** [del d[k]] *)
Definition del (k : string) (l : list (string * V)) : list (string * V) :=
  filter (fun kv => negb (String.eqb k (fst kv))) l.

(** A dictionary display [{k1: v1, k2: v2, ...}]. *)
Definition of_items (items : list (string * V)) : list (string * V) :=
  fold_left (fun d kv => set (fst kv) (snd kv) d) items [].

End Ops.
End Dict.

(* ================================================================== *)
(** * [configparser.ConfigParser] *)
(* ================================================================== *)

Definition options : Type := list (string * string).

Record ConfigParser : Type := mkConfig {
  _defaults : options;
  _sections : list (string * options)
}.

Module Configparser.

Definition DEFAULTSECT : string := "DEFAULT".

Definition empty : ConfigParser := mkConfig [] [].

Definition optionxform (option : string) : string := Str.lower option.

Definition has_section (config : ConfigParser) (section : string) : bool :=
  Dict.mem section (_sections config).

Definition sections (config : ConfigParser) : list string :=
  Dict.keys (_sections config).

Definition add_section (config : ConfigParser) (section : string)
  : result ConfigParser :=
  if String.eqb section DEFAULTSECT then Raise ValueError
  else if has_section config section then Raise (DuplicateSectionError section)
  else Ok (mkConfig (_defaults config) (_sections config ++ [(section, [])])).

Definition set (config : ConfigParser) (section option value : string)
  : result ConfigParser :=
  if String.eqb section "" || String.eqb section DEFAULTSECT
  then Ok (mkConfig (Dict.set (optionxform option) value (_defaults config))
                    (_sections config))
  else
    match Dict.get section (_sections config) with
    | None => Raise (NoSectionError section)
    | Some sectdict =>
        Ok (mkConfig (_defaults config)
              (Dict.set section (Dict.set (optionxform option) value sectdict)
                 (_sections config)))
    end.

(** [config.get(section, option)] without interpolation: the section's own
    value, else the default. *)
Definition get (config : ConfigParser) (section option : string)
  : result string :=
  let lookup (sectdict : options) :=
    match Dict.get (optionxform option) sectdict with
    | Some v => Ok v
    | None =>
        match Dict.get (optionxform option) (_defaults config) with
        | Some v => Ok v
        | None => Raise (NoOptionError (optionxform option) section)
        end
    end in
  match Dict.get section (_sections config) with
  | Some sectdict => lookup sectdict
  | None =>
      if String.eqb section DEFAULTSECT then lookup []
      else Raise (NoSectionError section)
  end.

Definition remove_section (config : ConfigParser) (section : string)
  : ConfigParser :=
  mkConfig (_defaults config) (Dict.del section (_sections config)).

Definition _write_item (delimiter : string) (kv : string * string) : string :=
  fst kv ++ delimiter ++ Str.replace NL (NL ++ String (ascii_of_nat 9) "") (snd kv)
  ++ NL.

Definition _write_section (section_name : string) (items : options)
  (delimiter : string) : string :=
  "[" ++ section_name ++ "]" ++ NL
  ++ String.concat "" (map (_write_item delimiter) items) ++ NL.

(** [config.write(file, space_around_delimiters=False)]: the text written. *)
Definition write (config : ConfigParser) : string :=
  (match _defaults config with
   | [] => ""
   | items => _write_section DEFAULTSECT items "="
   end)
  ++ String.concat ""
       (map (fun s => _write_section (fst s) (snd s) "=") (_sections config)).

End Configparser.

(* ================================================================== *)
(** * The file store and the monad of file operations *)
(* ================================================================== *)

(** The regular files by path, each with its text.  Directories are not
    kept: opening a path for writing is taken to go through, as it does
    for a file that is there and may be written, and for a new name in a
    directory that is there. *)
Definition FS : Type := list (string * string).

Definition M (A : Type) : Type := FS -> result A * FS.

Definition ret {A} (a : A) : M A := fun fs => (Ok a, fs).

Definition bind {A B} (m : M A) (k : A -> M B) : M B :=
  fun fs =>
    match m fs with
    | (Ok a, fs') => k a fs'
    | (Raise e, fs') => (Raise e, fs')
    end.

Definition lift {A} (r : result A) : M A := fun fs => (r, fs).

Definition get_fs : M FS := fun fs => (Ok fs, fs).

(** [with open(path, "w") as file: file.write(text)] *)
Definition write_file (path text : string) : M unit :=
  fun fs => (Ok tt, Dict.set path text fs).

Declare Scope M_scope.
Delimit Scope M_scope with M.
Notation "x <- m ;; k" := (bind m (fun x => k))
  (at level 61, m at next level, right associativity) : M_scope.

(** [for x in xs: body(x)] *)
Fixpoint for_each {A} (xs : list A) (body : A -> M unit) : M unit :=
  match xs with
  | [] => ret tt
  | x :: xs' => (_ <- body x ;; for_each xs' body)%M
  end.

(** A loop that updates one local variable and may raise. *)
Fixpoint fold_result {A S} (body : S -> A -> result S) (xs : list A) (s : S)
  : result S :=
  match xs with
  | [] => Ok s
  | x :: xs' => (s' <- body s x ;; fold_result body xs' s')%result
  end.

(* ================================================================== *)
(** * [update_config_files.py] *)
(* ================================================================== *)

Module ConfigArgs.
Record t : Type := mk {
  year_wise_date : bool;
  first_day : date;
  last_day : date;
  sl_year : string;
  sl_month : string
}.
End ConfigArgs.

Module MonthDates.
Record t : Type := mk {
  first_day : date;
  last_day : date;
  sl_year : string;
  sl_month : string
}.
End MonthDates.

(** What [get_secret] returns, the value [json.loads] makes of the
    payload, as far as [generate_additional_content] looks at it.  A JSON
    object is a [dict]: each member is kept with the text that formatting
    its value in an f-string gives, which for a string value is the string
    itself.  Every other JSON value (an array, a string, a number, [true],
    [false], [null]) is a Python value that a [str] cannot subscript. *)
Inductive json : Type :=
| JObject (members : list (string * string))
| JNotObject.

(** [secret_key_value[key]], formatted *)
Definition getitem (secret_key_value : json) (key : string) : result string :=
  match secret_key_value with
  | JObject members =>
      match Dict.get key members with
      | Some value => Ok value
      | None => Raise (KeyError key)
      end
  | JNotObject => Raise TypeError
  end.

(** The two texts a credential block is made of. *)
Record Secret : Type := mkSecret { api_url : string; api_key : string }.

(** [\d]: a decimal digit.  Below U+0100 the decimal digits (category Nd)
    are [0] to [9]. *)
Definition is_digit (c : ascii) : bool :=
  let n := nat_of_ascii c in (48 <=? n)%nat && (n <=? 57)%nat.

(** One or more digits up to the end of the name; [$] also matches before a
    final line break. *)
Fixpoint digits_to_end (seen : bool) (s : string) : bool :=
  match s with
  | EmptyString => seen
  | String c s' =>
      if is_digit c then digits_to_end true s'
      else seen && Ascii.eqb c (ascii_of_nat 10) && String.eqb s' ""
  end.

(** [API_KEY_PATTERN.match(env_var)] for [^API_KEY_\d+$]. *)
Definition API_KEY_PATTERN_match (env_var : string) : bool :=
  prefix "API_KEY_" env_var && digits_to_end false (substring 8 (length env_var) env_var).

(** [get_api_keys]: [environ] lists the items of [os.environ] in its
    iteration order. *)
Definition get_api_keys (environ : list (string * string)) : list string :=
  map snd (filter (fun kv => API_KEY_PATTERN_match (fst kv)) environ).

(** The text one turn of the loop of [generate_additional_content] adds.
    The line continuation inside the literal keeps the twelve blanks that
    start its second source line. *)
Definition credential_block (count : nat) (secret_key_value : Secret) : string :=
  "parameters.api" ++ Str.of_int (Z.of_nat count) ++ NL
  ++ "            api_url=" ++ api_url secret_key_value ++ NL
  ++ "api_key=" ++ api_key secret_key_value ++ NL ++ NL.

(** [2*366/12] is the float [61.0], a whole number of days. *)
Definition ERA5_DELTA_DAYS : Z := (2 * 366 / 12)%Z.

(** [get_month_range] *)
Definition get_month_range (d : date) : result (date * date) :=
  (last_day <- Datetime.sub_days (Datetime.replace_day d 1) 1 ;;
   let first_day := Datetime.replace_day last_day 1 in
   Ok (first_day, last_day))%result.

(** One credential section: the body of the loop of [new_config_file]
    over [sections_list[:-1]]. *)
Definition add_credential_section (config : ConfigParser) (section : string)
  : result ConfigParser :=
  let sections := Str.split NL section in
  let new_section_name := Str.strip (nth 0 sections "") in
  (config <- Configparser.add_section config new_section_name ;;
   line1 <- match nth_error sections 1 with
            | Some l => Ok l
            | None => Raise IndexError
            end ;;
   match Str.split "=" line1 with
   | [api_url_name; api_url_value] =>
       config <- Configparser.set config new_section_name
                   (Str.strip api_url_name) (Str.strip api_url_value) ;;
       line2 <- match nth_error sections 2 with
                | Some l => Ok l
                | None => Raise IndexError
                end ;;
       match Str.split "=" line2 with
       | [api_key_name; api_key_value] =>
           Configparser.set config new_section_name
             (Str.strip api_key_name) (Str.strip api_key_value)
       | _ => Raise ValueError
       end
   | _ => Raise ValueError
   end)%result.

(** The loop of [new_config_file] that appends the credential sections. *)
Definition add_credential_sections (config : ConfigParser)
  (additional_content : string) : result ConfigParser :=
  let sections_list := Str.split (NL ++ NL) additional_content in
  fold_result add_credential_section (removelast sections_list) config.

(** The [if temp_path:] step of [new_config_file]. *)
Definition set_target_path (config : ConfigParser) (temp_path : option string)
  : result ConfigParser :=
  match temp_path with
  | Some (String c p) =>
      (target_path <- Configparser.get config "parameters" "target_path" ;;
       Configparser.set config "parameters" "target_path"
         (Str.replace "gs://gcp-public-data-arco-era5/raw" (String c p)
            target_path))%result
  | _ => Ok config
  end.

(** The [if year_wise_date: ... else: ...] step of [new_config_file]. *)
Definition set_selection (config : ConfigParser) (field_name : string)
  (config_args : ConfigArgs.t) : result ConfigParser :=
  if ConfigArgs.year_wise_date config_args then
    (config <- Configparser.set config "selection" "year"
                 (ConfigArgs.sl_year config_args) ;;
     config <- Configparser.set config "selection" "month"
                 (ConfigArgs.sl_month config_args) ;;
     Configparser.set config "selection" "day" "all")%result
  else
    Configparser.set config "selection" field_name
      (Datetime.isoformat (ConfigArgs.first_day config_args) ++ "/to/"
       ++ Datetime.isoformat (ConfigArgs.last_day config_args)).

(** The changes [new_config_file] makes to the configuration it has read,
    in the order of the source. *)
Definition mutate_config (config : ConfigParser) (field_name : string)
  (additional_content : string) (config_args : ConfigArgs.t)
  (temp_path : option string) : result ConfigParser :=
  (config <- set_target_path config temp_path ;;
   config <- set_selection config field_name config_args ;;
   add_credential_sections config additional_content)%result.

(** [remove_license_from_config_file]: the loop over [range(num_licenses)]. *)
Definition license_section_name (license_number : nat) : string :=
  "parameters.api" ++ Str.of_int (Z.of_nat license_number).

Definition remove_license_sections (config : ConfigParser) (num_licenses : nat)
  : ConfigParser :=
  fold_left (fun config license_number =>
               Configparser.remove_section config
                 (license_section_name license_number))
    (seq 0 num_licenses) config.

(** ** The credential text, block by block *)

(** A credential block without the blank line that ends it. *)
Definition block_body (count : nat) (secret_key_value : Secret) : string :=
  "parameters.api" ++ Str.of_int (Z.of_nat count) ++ NL
  ++ "            api_url=" ++ api_url secret_key_value ++ NL
  ++ "api_key=" ++ api_key secret_key_value.

(** The text [generate_additional_content] builds from the secrets it has
    resolved, the first of them numbered [count]. *)
Fixpoint blocks_text (count : nat) (secrets : list Secret) : string :=
  match secrets with
  | [] => ""
  | s :: rest => credential_block count s ++ blocks_text (S count) rest
  end.

(** The name [new_config_file] gives the section of a block: its first
    line, stripped. *)
Definition block_section_name (section : string) : string :=
  Str.strip (nth 0 (Str.split NL section) "").

(** The options [new_config_file] stores for a secret. *)
Definition credential_options (secret_key_value : Secret) : options :=
  [("api_url", Str.strip (api_url secret_key_value));
   ("api_key", Str.strip (api_key secret_key_value))].

Definition credential_section (entry : nat * Secret) : string * options :=
  (license_section_name (fst entry), credential_options (snd entry)).

(** The secrets with the numbers their blocks get, counted from [count]. *)
Definition entries_from (count : nat) (secrets : list Secret)
  : list (nat * Secret) :=
  combine (seq count (List.length secrets)) secrets.

Definition entry_body (entry : nat * Secret) : string :=
  block_body (fst entry) (snd entry).

Definition is_nl (c : ascii) : bool := Ascii.eqb c (ascii_of_nat 10).

(** A value with no line break and no [=]. *)
Definition plain (s : string) : bool :=
  Str.all_chars (fun c => negb (is_nl c) && negb (Ascii.eqb c "=")) s.

Definition plain_secret (s : Secret) : bool :=
  plain (api_url s) && plain (api_key s).

(** Every line break is followed by a character that is not one. *)
Fixpoint isolated_nl (s : string) : bool :=
  match s with
  | EmptyString => true
  | String c s' =>
      (if is_nl c
       then match s' with
            | EmptyString => false
            | String d _ => negb (is_nl d)
            end
       else true)
      && isolated_nl s'
  end.

(** [os.path.join(a, b)] of [posixpath]. *)
Definition os_path_join (a b : string) : string :=
  if prefix "/" b then b
  else if String.eqb a "" || Str.endswith "/" a then a ++ b
  else a ++ "/" ++ b.

Section Program.

(** The values of the [ExecTypes] enumeration of [arco_era5.utils]. *)
Variables ExecTypes_ERA5 ExecTypes_ERA5T_DAILY ExecTypes_ERA5T_MONTHLY : string.

(** What [config.read] makes of the text of a file. *)
Variable parse_config : string -> result ConfigParser.

(** [glob.glob(pattern)] on a file store. *)
Variable glob : FS -> string -> list string.

(** [get_secret]: the lookup in the secret manager and the decoding of
    its payload. *)
Variable get_secret : string -> result json.

Definition FILES_TO_UPDATE : list (string * list string) :=
  Dict.of_items
    [(ExecTypes_ERA5,
      ["dve"; "o3q"; "qrqs"; "tw"; "pl"; "sl"; "lnsp"; "zs"; "sfc"]);
     (ExecTypes_ERA5T_DAILY, ["dve"; "o3q"; "qrqs"; "tw"; "pl"; "sl"]);
     (ExecTypes_ERA5T_MONTHLY, ["lnsp"; "zs"; "sfc"])].

(** [config.read(config_file)] on a new parser: a file that is not there is
    passed over. *)
Definition read_config (config_file : string) : M ConfigParser :=
  fun fs =>
    match Dict.get config_file fs with
    | None => (Ok Configparser.empty, fs)
    | Some text => (parse_config text, fs)
    end.

(** [new_config_file] *)
Definition new_config_file (config_file field_name additional_content : string)
  (config_args : ConfigArgs.t) (temp_path : option string) : M unit :=
  (config <- read_config config_file ;;
   config <- lift (mutate_config config field_name additional_content
                     config_args temp_path) ;;
   write_file config_file (Configparser.write config))%M.

(** [get_previous_month_dates], with [datetime.date.today()] as [today]. *)
Definition get_previous_month_dates (mode : string) (today : date)
  : result MonthDates.t :=
  (range <-
     (if String.eqb mode ExecTypes_ERA5T_DAILY then
        third_prev_month <- Datetime.sub_days today 6 ;;
        Ok (third_prev_month, third_prev_month)
      else if String.eqb mode ExecTypes_ERA5T_MONTHLY then
        let third_prev_month := today in
        get_month_range third_prev_month
      else
        third_prev_month <- Datetime.sub_days today ERA5_DELTA_DAYS ;;
        get_month_range third_prev_month) ;;
   let first_day := fst range in
   let last_day := snd range in
   let sl_year := Str.slice 0 4 (Datetime.isoformat first_day) in
   let sl_month := Str.slice 5 7 (Datetime.isoformat first_day) in
   Ok (MonthDates.mk first_day last_day sl_year sl_month))%result.

(** The loop of [generate_additional_content]: the f-string subscripts
    [secret_key_value] twice, from left to right. *)
Fixpoint generate_loop (count : nat) (api_key_list : list string)
  (additional_content : string) : result string :=
  match api_key_list with
  | [] => Ok additional_content
  | secret_key :: rest =>
      (secret_key_value <- get_secret secret_key ;;
       api_url <- getitem secret_key_value "api_url" ;;
       api_key <- getitem secret_key_value "api_key" ;;
       generate_loop (S count) rest
         (additional_content
          ++ credential_block count (mkSecret api_url api_key)))%result
  end.

(** What one turn of that loop reads for a key: the value [get_secret]
    returns and its two members. *)
Definition get_secret_fields (secret_key : string) : result Secret :=
  (secret_key_value <- get_secret secret_key ;;
   api_url <- getitem secret_key_value "api_url" ;;
   api_key <- getitem secret_key_value "api_key" ;;
   Ok (mkSecret api_url api_key))%result.

(** [generate_additional_content] *)
Definition generate_additional_content (environ : list (string * string))
  : result string :=
  generate_loop 0 (get_api_keys environ) "".

(** The body of the loop of [update_config_file] over [all_files]. *)
Definition update_one_file (files_to_update : list string)
  (field_name additional_content : string) (config_args : ConfigArgs.t)
  (temp_path : option string) (filename : string) : M unit :=
  let config_args :=
    ConfigArgs.mk false (ConfigArgs.first_day config_args)
      (ConfigArgs.last_day config_args) (ConfigArgs.sl_year config_args)
      (ConfigArgs.sl_month config_args) in
  if existsb (fun chunk => Str.contains chunk filename) files_to_update then
    let config_args :=
      if Str.contains "lnsp" filename || Str.contains "zs" filename
         || Str.contains "sfc" filename
      then ConfigArgs.mk true (ConfigArgs.first_day config_args)
             (ConfigArgs.last_day config_args) (ConfigArgs.sl_year config_args)
             (ConfigArgs.sl_month config_args)
      else config_args in
    new_config_file filename field_name additional_content config_args temp_path
  else ret tt.

(** [update_config_file], with the current date and the environment as
    arguments. *)
Definition update_config_file (directory field_name mode : string)
  (temp_path : option string) (today : date)
  (environ : list (string * string)) : M unit :=
  (dates_data <- lift (get_previous_month_dates mode today) ;;
   let config_args :=
     ConfigArgs.mk false (MonthDates.first_day dates_data)
       (MonthDates.last_day dates_data) (MonthDates.sl_year dates_data)
       (MonthDates.sl_month dates_data) in
   files_to_update <- lift (match Dict.get mode FILES_TO_UPDATE with
                            | Some l => Ok l
                            | None => Raise (KeyError mode)
                            end) ;;
   fs <- get_fs ;;
   let all_files :=
     if String.eqb mode ExecTypes_ERA5
     then glob fs (directory ++ "/*/*.cfg")
     else glob fs (directory ++ "/" ++ mode ++ "/*.cfg") in
   additional_content <- lift (generate_additional_content environ) ;;
   for_each all_files
     (update_one_file files_to_update field_name additional_content
        config_args temp_path))%M.

(** [remove_license_from_config_file] *)
Definition remove_license_from_config_file (config_file_path : string)
  (num_licenses : nat) : M unit :=
  (config <- read_config config_file_path ;;
   let config := remove_license_sections config num_licenses in
   write_file config_file_path (Configparser.write config))%M.

(** [os.listdir(path)] on a file store. *)
Variable listdir : FS -> string -> result (list string).

(** The body of the loop of [remove_licenses_from_directory]. *)
Definition remove_licenses_from_file (directory_path : string)
  (num_licenses : nat) (filename : string) : M unit :=
  if Str.endswith ".cfg" filename then
    let config_file_path := os_path_join directory_path filename in
    remove_license_from_config_file config_file_path num_licenses
  else ret tt.

(** [remove_licenses_from_directory], with the environment as argument. *)
Definition remove_licenses_from_directory (directory_path : string)
  (environ : list (string * string)) : M unit :=
  let num_licenses := List.length (get_api_keys environ) in
  (fs <- get_fs ;;
   filenames <- lift (listdir fs directory_path) ;;
   for_each filenames (remove_licenses_from_file directory_path num_licenses))%M.

End Program.

(* ================================================================== *)
(** * Calendar months, as the specification speaks of them *)
(* ================================================================== *)

Module Calendar.
Open Scope Z_scope.

(** First and last day of the calendar month before the month of [d]. *)
Definition previous_month_first (d : date) : date :=
  if month d =? 1 then mkdate (year d - 1) 12 1
  else mkdate (year d) (month d - 1) 1.

Definition previous_month_last (d : date) : date :=
  if month d =? 1 then mkdate (year d - 1) 12 31
  else mkdate (year d) (month d - 1)
         (Datetime._days_in_month (year d) (month d - 1)).

(** First and last day of the calendar month [d] lies in. *)
Definition month_first (d : date) : date := mkdate (year d) (month d) 1.

Definition month_last (d : date) : date :=
  mkdate (year d) (month d) (Datetime._days_in_month (year d) (month d)).

(** The day after [d]. *)
Definition tomorrow (d : date) : date :=
  if day d <? Datetime._days_in_month (year d) (month d)
  then mkdate (year d) (month d) (day d + 1)
  else if month d <? 12 then mkdate (year d) (month d + 1) 1
  else mkdate (year d + 1) 1 1.

(** Month and day of the [n]-th day of a year, counted from 0: the last
    steps of [_ord2ymd]. *)
Definition month_day (leapyear : bool) (n : Z) : Z * Z :=
  let m := Z.shiftr (n + 50) 5 in
  let preceding :=
    Datetime.index Datetime._DAYS_BEFORE_MONTH m
    + (if (2 <? m) && leapyear then 1 else 0) in
  if n <? preceding
  then
    let m := m - 1 in
    let preceding :=
      preceding
      - (Datetime.index Datetime._DAYS_IN_MONTH m
         + (if (m =? 2) && leapyear then 1 else 0)) in
    (m, n - preceding + 1)
  else (m, n - preceding + 1).

Definition zrange (lo : Z) (n : nat) : list Z :=
  map (fun i => lo + Z.of_nat i) (seq 0 n).

(** The table check behind [month_day]: every month and day of a common
    and of a leap year. *)
Definition month_day_table : bool :=
  forallb (fun leap =>
    forallb (fun m =>
      forallb (fun d =>
        let dim := if (m =? 2) && leap then 29
                   else Datetime.index Datetime._DAYS_IN_MONTH m in
        let n := Datetime.index Datetime._DAYS_BEFORE_MONTH m
                 + (if (2 <? m) && leap then 1 else 0) + d - 1 in
        if d <=? dim
        then let r := month_day leap n in (fst r =? m) && (snd r =? d)
        else true)
        (zrange 1 31))
      (zrange 1 12))
    [true; false].

End Calendar.

(* ================================================================== *)
(** * A small installation, for the worked examples *)
(* ================================================================== *)

Module Sample.

Definition ERA5 : string := "era5".
Definition ERA5T_DAILY : string := "daily".
Definition ERA5T_MONTHLY : string := "monthly".

(** Cuts a line at its first [=] or [:]. *)
Fixpoint cut_at_delimiter (s : string) : option (string * string) :=
  match s with
  | EmptyString => None
  | String c s' =>
      if Ascii.eqb c "=" || Ascii.eqb c ":" then Some (EmptyString, s')
      else match cut_at_delimiter s' with
           | Some (k, v) => Some (String c k, v)
           | None => None
           end
  end.

(** The text of a file as a stream opened in text mode hands it over:
    [\r\n] and a lone [\r] are read as [\n]. *)
Fixpoint universal_newlines (s : string) : string :=
  match s with
  | EmptyString => EmptyString
  | String c s' =>
      if Ascii.eqb c (ascii_of_nat 13) then
        match s' with
        | EmptyString => NL
        | String d _ =>
            if Ascii.eqb d (ascii_of_nat 10) then universal_newlines s'
            else String (ascii_of_nat 10) (universal_newlines s')
        end
      else String c (universal_newlines s')
  end.

(** The place of the last [c] in [s]. *)
Fixpoint last_index (c : ascii) (s : string) : option nat :=
  match s with
  | EmptyString => None
  | String d s' =>
      match last_index c s' with
      | Some i => Some (S i)
      | None => if Ascii.eqb c d then Some 0%nat else None
      end
  end.

(** [SECTCRE.match(value)]: [\[(?P<header>.+)\]], the header running up
    to the last []] of the line. *)
Definition section_header (value : string) : option string :=
  match value with
  | String "["%char rest =>
      match last_index "]" rest with
      | Some (S i) => Some (substring 0 (S i) rest)
      | _ => None
      end
  | _ => None
  end.

(** The state of [RawConfigParser._read] between two lines: the section
    and the option that are open, the lines read for the value of that
    option, the indentation of its first line, and whether a line could
    not be parsed. *)
Record reader : Type := mkReader {
  parsed : ConfigParser;
  cursect : option string;
  optname : option string;
  value_lines : list string;
  indent_level : nat;
  parsing_error : bool
}.

(** The options a section has got so far. *)
Definition own_options (config : ConfigParser) (section : string) : options :=
  if String.eqb section Configparser.DEFAULTSECT then _defaults config
  else match Dict.get section (_sections config) with
       | Some sectdict => sectdict
       | None => []
       end.

(** One line of a configuration file, read as [configparser] does with
    its default settings: comment lines are passed over, a blank line is
    added to the value that is open, a line indented deeper than the option
    that is open continues its value, [[name]] opens a section and
    [key=value] or [key:value] sets an option.  A line that cannot be
    parsed is noted and raises [ParsingError] at the end of the file. *)
Definition read_line (st : reader) (line : string) : result reader :=
  let config := parsed st in
  let value := Str.strip line in
  match value with
  | EmptyString =>
      match cursect st, optname st with
      | Some _, Some _ =>
          Ok (mkReader config (cursect st) (optname st)
                (value_lines st ++ [""]) (indent_level st) (parsing_error st))
      | _, _ => Ok st
      end
  | String c _ =>
      if Ascii.eqb c "#" || Ascii.eqb c ";" then Ok st
      else
        let cur_indent_level := (length line - length (Str.lstrip line))%nat in
        match cursect st, optname st,
              (indent_level st <? cur_indent_level)%nat with
        | Some section, Some option, true =>
            let lines := (value_lines st ++ [value])%list in
            (config <- Configparser.set config section option
                         (Str.rstrip (Str.join NL lines)) ;;
             Ok (mkReader config (cursect st) (optname st) lines
                   (indent_level st) (parsing_error st)))%result
        | _, _, _ =>
            match section_header value with
            | Some sectname =>
                if Configparser.has_section config sectname
                then Raise (DuplicateSectionError sectname)
                else if String.eqb sectname Configparser.DEFAULTSECT
                then Ok (mkReader config (Some sectname) None []
                           cur_indent_level (parsing_error st))
                else
                  (config <- Configparser.add_section config sectname ;;
                   Ok (mkReader config (Some sectname) None []
                         cur_indent_level (parsing_error st)))%result
            | None =>
                match cursect st with
                | None => Raise MissingSectionHeaderError
                | Some section =>
                    match cut_at_delimiter value with
                    | Some (name, optval) =>
                        let option :=
                          Configparser.optionxform (Str.rstrip name) in
                        if Dict.mem option (own_options config section)
                        then Raise (DuplicateOptionError section option)
                        else
                          (config <- Configparser.set config section option
                                       (Str.strip optval) ;;
                           Ok (mkReader config (Some section)
                                 (if String.eqb option "" then None
                                  else Some option)
                                 [Str.strip optval] cur_indent_level
                                 (parsing_error st
                                  || String.eqb (Str.rstrip name) "")))%result
                    | None =>
                        Ok (mkReader config (cursect st) (optname st)
                              (value_lines st) cur_indent_level true)
                    end
                end
            end
        end
  end.

(** [config.read] on the text of a file, for a parser that is new. *)
Definition parse_config (text : string) : result ConfigParser :=
  (st <- fold_result read_line (Str.split NL (universal_newlines text))
           (mkReader Configparser.empty None None [] 0 false) ;;
   if parsing_error st then Raise ParsingError else Ok (parsed st))%result.

(** Pattern matching of file names: [*] stands for any run of characters
    other than [/]. *)
Fixpoint glob_match (pattern : string) : string -> bool :=
  match pattern with
  | EmptyString => fun s => String.eqb s ""
  | String c pattern' =>
      if Ascii.eqb c "*" then
        fix star (s : string) : bool :=
          glob_match pattern' s
          || match s with
             | EmptyString => false
             | String d s' => negb (Ascii.eqb d "/") && star s'
             end
      else
        fun s =>
          match s with
          | EmptyString => false
          | String d s' => Ascii.eqb c d && glob_match pattern' s'
          end
  end.

Definition glob (fs : FS) (pattern : string) : list string :=
  filter (glob_match pattern) (Dict.keys fs).

(** The names directly below a directory: the first component of every
    path under it. *)
Definition listdir (fs : FS) (path : string) : result (list string) :=
  let below :=
    filter (fun p => prefix (path ++ "/") p) (Dict.keys fs) in
  Ok (nodup string_dec
        (map (fun p =>
                nth 0 (Str.split "/"
                         (substring (length path + 1) (length p) p)) "")
           below)).

Definition secret0 : Secret :=
  mkSecret "https://cds.example/api/v2" "1001:0a1b2c3d".
Definition secret1 : Secret :=
  mkSecret "https://cds.example/api/v2" "1002:4e5f6a7b".

(** A key that ends in [=] signs, as base64 text does. *)
Definition padded_secret : Secret :=
  mkSecret "https://cds.example/api/v2" "1003:c2VjcmV0a2V5==".

(** A key with a line break after it, as the text of a file has. *)
Definition newline_secret : Secret :=
  mkSecret "https://cds.example/api/v2" ("1004:bGluZWJyZWFr" ++ NL).

(** A key with a carriage return inside. *)
Definition carriage_secret : Secret :=
  mkSecret "https://cds.example/api/v2"
    ("1005:Y2Fy" ++ String (ascii_of_nat 13) "cmlhZ2U").

(** The payload with the two members of a secret. *)
Definition payload (s : Secret) : json :=
  JObject [("api_url", api_url s); ("api_key", api_key s)].

Definition secrets : list (string * json) :=
  [("projects/p/secrets/cds0", payload secret0);
   ("projects/p/secrets/cds1", payload secret1);
   ("projects/p/secrets/padded", payload padded_secret);
   ("projects/p/secrets/newline", payload newline_secret);
   ("projects/p/secrets/carriage", payload carriage_secret);
   ("projects/p/secrets/no_key",
    JObject [("api_url", "https://cds.example/api/v2")]);
   ("projects/p/secrets/array", JNotObject)].

Definition get_secret (reference : string) : result json :=
  match Dict.get reference secrets with
  | Some secret_dict => Ok secret_dict
  | None => Raise (SecretError reference)
  end.

Definition environ : list (string * string) :=
  [("HOME", "/root");
   ("API_KEY_1", "projects/p/secrets/cds0");
   ("API_KEY_2", "projects/p/secrets/cds1");
   ("API_KEY_", "projects/p/secrets/none")].

Definition pl_cfg : string :=
  "[parameters]" ++ NL
  ++ "client=cds" ++ NL
  ++ "target_path=gs://gcp-public-data-arco-era5/raw/pl/{date}.nc" ++ NL
  ++ NL
  ++ "[selection]" ++ NL
  ++ "product_type=reanalysis" ++ NL
  ++ "date=2020-01-01/to/2020-01-31" ++ NL
  ++ NL.

Definition sfc_cfg : string :=
  "[parameters]" ++ NL
  ++ "client=cds" ++ NL
  ++ "target_path=gs://gcp-public-data-arco-era5/raw/sfc/{year}{month}.nc" ++ NL
  ++ NL
  ++ "[selection]" ++ NL
  ++ "year=2020" ++ NL
  ++ "month=01" ++ NL
  ++ "day=all" ++ NL
  ++ NL.

Definition readme : string := "# not a configuration" ++ NL.

Definition files : FS :=
  [("raw/era5/era5_pl_hourly.cfg", pl_cfg);
   ("raw/era5/era5_ml_sfc.cfg", sfc_cfg);
   ("raw/era5/notes.cfg", readme)].

Definition today : date := mkdate 2024 3 10.

(** A configuration file below a directory named [sl]. *)
Definition sl_files : FS := [("sl/era5/notes.cfg", pl_cfg)].

(** A pressure-level file below a directory named [zs]. *)
Definition zs_files : FS := [("zs/era5/era5_pl_hourly.cfg", pl_cfg)].

Definition padded_environ : list (string * string) :=
  [("API_KEY_7", "projects/p/secrets/padded")].

Definition newline_environ : list (string * string) :=
  [("API_KEY_1", "projects/p/secrets/newline")].

Definition carriage_environ : list (string * string) :=
  [("API_KEY_1", "projects/p/secrets/carriage")].

Definition pl_path : string := "raw/era5/era5_pl_hourly.cfg".
Definition sfc_path : string := "raw/era5/era5_ml_sfc.cfg".

Definition config_args : ConfigArgs.t :=
  ConfigArgs.mk false (mkdate 2023 12 1) (mkdate 2023 12 31) "2023" "12".

Definition credential_text : string := blocks_text 0 [secret0; secret1].

Definition padded_text : string := blocks_text 0 [padded_secret].

Definition newline_text : string := blocks_text 0 [newline_secret].

Definition carriage_text : string := blocks_text 0 [carriage_secret].

(** The files after one run of [new_config_file] on [pl_path]. *)
Definition injected_files : FS :=
  snd (new_config_file parse_config pl_path "date" credential_text config_args
         None files).

End Sample.

(* ================================================================== *)
(** * Facts about [datetime.date] *)
(* ================================================================== *)

Ltac divmod := Z.div_mod_to_equations; lia.

Ltac is_bool v := match v with true => idtac | false => idtac end.

(** Looks up the month tables at a known month and decides the tests on
    known numbers. *)
Ltac eval_index :=
  repeat match goal with
    | |- context [Datetime.index ?l ?k] =>
        let v := eval vm_compute in (Datetime.index l k) in change (Datetime.index l k) with v
    | H : context [Datetime.index ?l ?k] |- _ =>
        let v := eval vm_compute in (Datetime.index l k) in change (Datetime.index l k) with v in H
    | |- context [Z.eqb ?a ?b] =>
        let v := eval vm_compute in (Z.eqb a b) in
        is_bool v; change (Z.eqb a b) with v
    | H : context [Z.eqb ?a ?b] |- _ =>
        let v := eval vm_compute in (Z.eqb a b) in
        is_bool v; change (Z.eqb a b) with v in H
    | |- context [Z.ltb ?a ?b] =>
        let v := eval vm_compute in (Z.ltb a b) in
        is_bool v; change (Z.ltb a b) with v
    | H : context [Z.ltb ?a ?b] |- _ =>
        let v := eval vm_compute in (Z.ltb a b) in
        is_bool v; change (Z.ltb a b) with v in H
    end;
  cbn [andb orb negb] in *.

(** Case analysis on a month number, with the tables looked up. *)
Ltac each_month m Hm :=
  let Hc := fresh "Hc" in
  assert (Hc : (m = 1 \/ m = 2 \/ m = 3 \/ m = 4 \/ m = 5 \/ m = 6 \/ m = 7
               \/ m = 8 \/ m = 9 \/ m = 10 \/ m = 11 \/ m = 12)%Z) by lia;
  clear Hm;
  repeat (destruct Hc as [Hc | Hc]; [subst m; eval_index |]);
  [.. | subst m; eval_index].

Section DateFacts.
Import Datetime Calendar.
Open Scope Z_scope.


Lemma zrange_In lo n x : lo <= x < lo + Z.of_nat n -> In x (zrange lo n).
Proof.
  intros H. unfold zrange. apply in_map_iff.
  exists (Z.to_nat (x - lo)). split; [lia | apply in_seq; lia].
Qed.

Lemma month_day_table_ok : month_day_table = true.
Proof. vm_compute. reflexivity. Qed.

Lemma days_in_month_bounds y m : 1 <= m <= 12 -> 28 <= _days_in_month y m <= 31.
Proof.
  intros Hm. unfold _days_in_month.
  destruct (_is_leap y); each_month m Hm; lia.
Qed.

Lemma month_day_correct leap m d :
  1 <= m <= 12 ->
  1 <= d <= (if (m =? 2) && leap then 29 else index _DAYS_IN_MONTH m) ->
  month_day leap
    (index _DAYS_BEFORE_MONTH m + (if (2 <? m) && leap then 1 else 0) + d - 1)
  = (m, d).
Proof.
  intros Hm Hd.
  assert (Hd31 : d <= 31).
  { pose proof Hm as Hm'. destruct leap; each_month m Hm'; lia. }
  pose proof month_day_table_ok as T. unfold month_day_table in T.
  rewrite forallb_forall in T.
  assert (Hl : In leap [true; false]) by (destruct leap; simpl; auto).
  specialize (T leap Hl). rewrite forallb_forall in T.
  specialize (T m (zrange_In 1 12 m ltac:(lia))). rewrite forallb_forall in T.
  specialize (T d (zrange_In 1 31 d ltac:(lia))). cbv zeta in T.
  destruct (d <=? _) eqn:E in T; [| apply Z.leb_gt in E; lia].
  apply andb_true_iff in T. destruct T as [T1 T2].
  apply Z.eqb_eq in T1, T2.
  destruct (month_day leap _) as [m' d']. simpl in *. congruence.
Qed.

Lemma year_decompose Y : 0 <= Y ->
  exists a b c e,
    Y = 400 * a + 100 * b + 4 * c + e
    /\ 0 <= a /\ 0 <= b <= 3 /\ 0 <= c <= 24 /\ 0 <= e <= 3.
Proof.
  intros. exists (Y / 400), ((Y mod 400) / 100), ((Y mod 100) / 4), (Y mod 4).
  divmod.
Qed.

Lemma is_leap_decomposed a b c e :
  0 <= a -> 0 <= b <= 3 -> 0 <= c <= 24 -> 0 <= e <= 3 ->
  _is_leap (400 * a + 100 * b + 4 * c + e + 1)
  = (e =? 3) && (negb (c =? 24) || (b =? 3)).
Proof.
  intros. unfold _is_leap.
  set (y := 400 * a + 100 * b + 4 * c + e + 1).
  assert (H4 : y mod 4 = 0 <-> e = 3) by (subst y; divmod).
  assert (H100 : y mod 100 = 0 <-> (e = 3 /\ c = 24)) by (subst y; divmod).
  assert (H400 : y mod 400 = 0 <-> (e = 3 /\ c = 24 /\ b = 3)) by (subst y; divmod).
  destruct (y mod 4 =? 0) eqn:E4; destruct (y mod 100 =? 0) eqn:E100;
    destruct (y mod 400 =? 0) eqn:E400;
    destruct (e =? 3) eqn:E; destruct (c =? 24) eqn:C; destruct (b =? 3) eqn:B;
    rewrite ?Z.eqb_eq, ?Z.eqb_neq in *; simpl; try reflexivity; exfalso; lia.
Qed.

Lemma days_before_year_decomposed a b c e :
  0 <= a -> 0 <= b <= 3 -> 0 <= c <= 24 -> 0 <= e <= 3 ->
  _days_before_year (400 * a + 100 * b + 4 * c + e + 1)
  = 146097 * a + 36524 * b + 1461 * c + 365 * e.
Proof. intros. unfold _days_before_year. divmod. Qed.

(** The divisions of [_ord2ymd] on a day that is not the last of a leap
    year. *)
Lemma ord2ymd_split a b c e doy :
  0 <= a -> 0 <= b <= 3 -> 0 <= c <= 24 -> 0 <= e <= 3 -> 0 <= doy <= 364 ->
  let n := 146097 * a + 36524 * b + 1461 * c + 365 * e + doy in
  n / _DI400Y = a /\
  (n mod _DI400Y) / _DI100Y = b /\
  ((n mod _DI400Y) mod _DI100Y) / _DI4Y = c /\
  (((n mod _DI400Y) mod _DI100Y) mod _DI4Y) / 365 = e /\
  (((n mod _DI400Y) mod _DI100Y) mod _DI4Y) mod 365 = doy.
Proof.
  intros Ha Hb Hc He Hdoy n. unfold _DI400Y, _DI100Y, _DI4Y. subst n.
  assert (E1 : (146097 * a + 36524 * b + 1461 * c + 365 * e + doy) / 146097 = a).
  { symmetry. apply Z.div_unique with (r := 36524 * b + 1461 * c + 365 * e + doy); lia. }
  assert (M1 : (146097 * a + 36524 * b + 1461 * c + 365 * e + doy) mod 146097
               = 36524 * b + 1461 * c + 365 * e + doy).
  { symmetry. apply Z.mod_unique with (q := a); lia. }
  rewrite E1, M1.
  assert (E2 : (36524 * b + 1461 * c + 365 * e + doy) / 36524 = b).
  { symmetry. apply Z.div_unique with (r := 1461 * c + 365 * e + doy); lia. }
  assert (M2 : (36524 * b + 1461 * c + 365 * e + doy) mod 36524
               = 1461 * c + 365 * e + doy).
  { symmetry. apply Z.mod_unique with (q := b); lia. }
  rewrite E2, M2.
  assert (E3 : (1461 * c + 365 * e + doy) / 1461 = c).
  { symmetry. apply Z.div_unique with (r := 365 * e + doy); lia. }
  assert (M3 : (1461 * c + 365 * e + doy) mod 1461 = 365 * e + doy).
  { symmetry. apply Z.mod_unique with (q := c); lia. }
  rewrite E3, M3.
  assert (E4 : (365 * e + doy) / 365 = e).
  { symmetry. apply Z.div_unique with (r := doy); lia. }
  assert (M4 : (365 * e + doy) mod 365 = doy).
  { symmetry. apply Z.mod_unique with (q := e); lia. }
  rewrite E4, M4. repeat split; reflexivity.
Qed.

(** The same divisions on the last day of a leap year: one of the two
    quotients reaches 4. *)
Lemma ord2ymd_split_leap a b c :
  0 <= a -> 0 <= b <= 3 -> 0 <= c <= 24 -> (c <> 24 \/ b = 3) ->
  let n := 146097 * a + 36524 * b + 1461 * c + 365 * 3 + 365 in
  let n400 := n / _DI400Y in
  let n100 := (n mod _DI400Y) / _DI100Y in
  let n4 := ((n mod _DI400Y) mod _DI100Y) / _DI4Y in
  let n1 := (((n mod _DI400Y) mod _DI100Y) mod _DI4Y) / 365 in
  n400 * 400 + 1 + n100 * 100 + n4 * 4 + n1 - 1 = 400 * a + 100 * b + 4 * c + 3 + 1
  /\ (n1 = 4 \/ n100 = 4).
Proof.
  intros Ha Hb Hc Hl. cbv zeta. unfold _DI400Y, _DI100Y, _DI4Y. divmod.
Qed.

Lemma ord2ymd_month_day n :
  _ord2ymd n =
  let n0 := n - 1 in
  let n400 := n0 / _DI400Y in
  let n100 := (n0 mod _DI400Y) / _DI100Y in
  let n4 := ((n0 mod _DI400Y) mod _DI100Y) / _DI4Y in
  let n1 := (((n0 mod _DI400Y) mod _DI100Y) mod _DI4Y) / 365 in
  let r := (((n0 mod _DI400Y) mod _DI100Y) mod _DI4Y) mod 365 in
  let y := n400 * 400 + 1 + n100 * 100 + n4 * 4 + n1 in
  if (n1 =? 4) || (n100 =? 4) then mkdate (y - 1) 12 31
  else
    let md := month_day ((n1 =? 3) && (negb (n4 =? 24) || (n100 =? 3))) r in
    mkdate y (fst md) (snd md).
Proof.
  unfold _ord2ymd, month_day. cbv zeta.
  destruct (_ || _); [reflexivity |].
  destruct (_ <? _); reflexivity.
Qed.

Lemma day_of_year_bound y m d :
  1 <= m <= 12 -> 1 <= d <= _days_in_month y m ->
  0 <= _days_before_month y m + d - 1 < 365 + (if _is_leap y then 1 else 0)
  /\ (_days_before_month y m + d - 1 = 365 -> m = 12 /\ d = 31).
Proof.
  intros Hm. unfold _days_in_month, _days_before_month.
  destruct (_is_leap y); each_month m Hm; lia.
Qed.

(** [date.fromordinal(d.toordinal()) == d] *)
Lemma fromordinal_toordinal d : valid_date d -> fromordinal (toordinal d) = d.
Proof.
  destruct d as [y m d]. unfold valid_date, MINYEAR. simpl.
  intros (Hy & Hm & Hd).
  destruct (year_decompose (y - 1) ltac:(lia)) as (a & b & c & e & HY & Ha & Hb & Hc & He).
  assert (Ey : y = 400 * a + 100 * b + 4 * c + e + 1) by lia.
  unfold fromordinal, toordinal, _ymd2ord. simpl.
  rewrite ord2ymd_month_day. cbv zeta.
  pose proof (day_of_year_bound y m d Hm Hd) as (Hdoy & Hlast).
  set (doy := _days_before_month y m + d - 1) in *.
  assert (Hdby : _days_before_year y = 146097 * a + 36524 * b + 1461 * c + 365 * e)
    by (rewrite Ey; apply days_before_year_decomposed; lia).
  replace (_days_before_year y + _days_before_month y m + d - 1)
    with (146097 * a + 36524 * b + 1461 * c + 365 * e + doy)
    by (subst doy; lia).
  pose proof (is_leap_decomposed a b c e Ha Hb Hc He) as Hleap. rewrite <- Ey in Hleap.
  destruct (Z.eq_dec doy 365) as [E365 | N365].
  - destruct (Hlast E365) as [-> ->].
    rewrite E365 in Hdoy. destruct (_is_leap y) eqn:L; [| lia].
    symmetry in Hleap. apply andb_true_iff in Hleap. destruct Hleap as [He3 Hcb].
    apply Z.eqb_eq in He3. subst e.
    assert (c <> 24 \/ b = 3).
    { apply orb_true_iff in Hcb. destruct Hcb as [Hcb | Hcb].
      - left. apply negb_true_iff, Z.eqb_neq in Hcb. exact Hcb.
      - right. apply Z.eqb_eq in Hcb. exact Hcb. }
    rewrite E365.
    destruct (ord2ymd_split_leap a b c Ha Hb Hc H) as [Hyear Hq].
    cbv zeta in Hyear, Hq.
    replace (_ || _) with true.
    + f_equal. lia.
    + symmetry. apply orb_true_iff. destruct Hq as [Hq | Hq]; [left | right]; apply Z.eqb_eq; exact Hq.
  - assert (Hd364 : 0 <= doy <= 364) by (destruct (_is_leap y); lia).
    destruct (ord2ymd_split a b c e doy Ha Hb Hc He Hd364) as (E1 & E2 & E3 & E4 & E5).
    cbv zeta in E1, E2, E3, E4, E5. rewrite E1, E2, E3, E4, E5.
    replace ((e =? 4) || (b =? 4)) with false
      by (symmetry; apply orb_false_iff; split; apply Z.eqb_neq; lia).
    rewrite <- Hleap.
    subst doy. unfold _days_before_month.
    rewrite month_day_correct; [simpl; f_equal; lia | lia | exact Hd].
Qed.

Lemma days_before_year_succ y :
  1 <= y -> _days_before_year (y + 1)
            = _days_before_year y + 365 + (if _is_leap y then 1 else 0).
Proof.
  intros Hy. unfold _days_before_year, _is_leap.
  replace (y + 1 - 1) with y by lia.
  destruct (y mod 4 =? 0) eqn:E4; destruct (y mod 100 =? 0) eqn:E100;
    destruct (y mod 400 =? 0) eqn:E400; simpl;
    rewrite ?Z.eqb_eq, ?Z.eqb_neq in *; divmod.
Qed.

Lemma toordinal_bounds d : valid_date d -> 1 <= toordinal d <= _MAXORDINAL.
Proof.
  destruct d as [y m d]. unfold valid_date, MINYEAR, MAXYEAR, toordinal, _ymd2ord.
  simpl. intros (Hy & Hm & Hd).
  pose proof (day_of_year_bound y m d Hm Hd) as (Hdoy & _).
  pose proof (days_before_year_succ y ltac:(lia)) as Hs.
  assert (0 <= _days_before_year y) by (unfold _days_before_year; divmod).
  assert (_days_before_year (y + 1) <= _MAXORDINAL)
    by (unfold _days_before_year, _MAXORDINAL; divmod).
  destruct (_is_leap y); lia.
Qed.

Lemma days_before_month_succ y m :
  1 <= m <= 11 ->
  _days_before_month y (m + 1) = _days_before_month y m + _days_in_month y m.
Proof.
  intros Hm. unfold _days_before_month, _days_in_month.
  assert (Hm' : 1 <= m <= 12) by lia.
  destruct (_is_leap y); each_month m Hm'; lia.
Qed.

Lemma tomorrow_valid d :
  valid_date d -> toordinal d < _MAXORDINAL ->
  valid_date (tomorrow d) /\ toordinal (tomorrow d) = toordinal d + 1.
Proof.
  destruct d as [y m d]. unfold valid_date, MINYEAR, MAXYEAR, tomorrow, toordinal, _ymd2ord.
  simpl. intros (Hy & Hm & Hd) Hlt.
  destruct (d <? _days_in_month y m) eqn:E1; simpl.
  - apply Z.ltb_lt in E1. lia.
  - apply Z.ltb_ge in E1. assert (d = _days_in_month y m) by lia. subst d.
    destruct (m <? 12) eqn:E2; simpl.
    + apply Z.ltb_lt in E2.
      pose proof (days_in_month_bounds y (m + 1) ltac:(lia)).
      rewrite days_before_month_succ by lia. lia.
    + apply Z.ltb_ge in E2. assert (m = 12) by lia. subst m.
      pose proof (days_before_year_succ y ltac:(lia)) as Hs.
      unfold _days_before_month, _days_in_month in *. eval_index.
      assert (y <> 9999).
      { intros ->. vm_compute in Hlt. discriminate. }
      destruct (_is_leap y); lia.
Qed.

(** Every ordinal in range is the ordinal of a date. *)
Lemma ordinal_has_date n :
  1 <= n <= _MAXORDINAL -> exists d, valid_date d /\ toordinal d = n.
Proof.
  intros [H1 Hmax]. revert Hmax.
  pattern n. apply Zlt_lower_bound_ind with (z := 1); [| exact H1].
  clear n H1. intros n IH Hn Hmax.
  destruct (Z.eq_dec n 1) as [-> | Hne].
  - exists (mkdate 1 1 1). split; [| reflexivity].
    unfold valid_date. vm_compute. intuition discriminate.
  - destruct (IH (n - 1) ltac:(lia) ltac:(lia)) as (d & Hv & Ho).
    destruct (tomorrow_valid d Hv ltac:(lia)) as [Hv' Ho'].
    exists (tomorrow d). split; [exact Hv' | lia].
Qed.

(** [date.fromordinal(n)] is the date whose ordinal is [n]. *)
Lemma toordinal_fromordinal n :
  1 <= n <= _MAXORDINAL ->
  valid_date (fromordinal n) /\ toordinal (fromordinal n) = n.
Proof.
  intros Hn. destruct (ordinal_has_date n Hn) as (d & Hv & <-).
  rewrite fromordinal_toordinal by exact Hv. split; [exact Hv | reflexivity].
Qed.

Lemma toordinal_inj d1 d2 :
  valid_date d1 -> valid_date d2 -> toordinal d1 = toordinal d2 -> d1 = d2.
Proof.
  intros H1 H2 E. rewrite <- (fromordinal_toordinal d1 H1), E.
  apply fromordinal_toordinal; exact H2.
Qed.

(** [d + timedelta(days)] is the date [days] days after [d] when there is
    one, and raises [OverflowError] when there is none. *)
Lemma add_days_spec d days :
  valid_date d ->
  (0 < toordinal d + days <= _MAXORDINAL ->
   exists d', add_days d days = Ok d' /\ valid_date d'
              /\ toordinal d' = toordinal d + days)
  /\ (~ 0 < toordinal d + days <= _MAXORDINAL ->
      add_days d days = Raise OverflowError).
Proof.
  intros Hv. unfold add_days. split; intros H.
  - replace ((0 <? _) && _) with true
      by (symmetry; apply andb_true_iff; split; [apply Z.ltb_lt | apply Z.leb_le]; lia).
    exists (fromordinal (toordinal d + days)). split; [reflexivity |].
    apply toordinal_fromordinal. lia.
  - destruct ((0 <? _) && _) eqn:E; [| reflexivity].
    apply andb_true_iff in E. destruct E as [E1 E2].
    apply Z.ltb_lt in E1. apply Z.leb_le in E2. lia.
Qed.

Lemma previous_month_last_valid d :
  valid_date d -> ~ (year d = MINYEAR /\ month d = 1) ->
  valid_date (previous_month_last d)
  /\ toordinal (previous_month_last d) = toordinal (replace_day d 1) - 1.
Proof.
  destruct d as [y m d].
  unfold valid_date, MINYEAR, MAXYEAR, previous_month_last, replace_day, toordinal, _ymd2ord.
  simpl. intros (Hy & Hm & Hd) Hne.
  destruct (m =? 1) eqn:E; simpl.
  - apply Z.eqb_eq in E. subst m.
    pose proof (days_before_year_succ (y - 1) ltac:(lia)) as Hs.
    replace (y - 1 + 1) with y in Hs by lia.
    unfold _days_before_month, _days_in_month. eval_index.
    destruct (_is_leap (y - 1)); lia.
  - apply Z.eqb_neq in E.
    pose proof (days_in_month_bounds y (m - 1) ltac:(lia)).
    pose proof (days_before_month_succ y (m - 1) ltac:(lia)) as Hs.
    replace (m - 1 + 1) with m in Hs by lia. lia.
Qed.
End DateFacts.

(* ================================================================== *)
(** * Facts about strings *)
(* ================================================================== *)

Section StrFacts.
Import Str.

Lemma append_nil_r (s : string) : s ++ "" = s.
Proof. induction s; simpl; congruence. Qed.

Lemma append_assoc (a b c : string) : (a ++ b) ++ c = a ++ (b ++ c).
Proof. induction a; simpl; congruence. Qed.

Lemma length_append (a b : string) : length (a ++ b) = length a + length b.
Proof. induction a; simpl; congruence. Qed.

Lemma substring_prefix (a r : string) : substring 0 (length a) (a ++ r) = a.
Proof.
  induction a as [| c a IH]; simpl.
  - destruct r; reflexivity.
  - rewrite IH. reflexivity.
Qed.

Lemma substring_skip (a r : string) n m :
  substring (length a + n) m (a ++ r) = substring n m r.
Proof. induction a as [| c a IH]; simpl; [reflexivity | exact IH]. Qed.

Lemma repeat_char_snoc c n :
  repeat_char c n ++ String c "" = String c (repeat_char c n).
Proof. induction n; simpl; congruence. Qed.

Lemma length_repeat_char c n : length (repeat_char c n) = n.
Proof. induction n; simpl; congruence. Qed.

(** ** Decimal digits *)

Lemma length_fixed_digits w n : length (fixed_digits w n) = w.
Proof.
  revert n. induction w as [| w IH]; intros n; simpl; [reflexivity |].
  rewrite length_append, IH. simpl. lia.
Qed.

Lemma fixed_digits_zero w : fixed_digits w 0 = repeat_char "0" w.
Proof.
  induction w as [| w IH]; simpl; [reflexivity |].
  change (0 / 10)%Z with 0%Z. rewrite IH.
  change (digit_char (0 mod 10)) with "0"%char. apply repeat_char_snoc.
Qed.

(** Digits above the most significant one are zeros. *)
Lemma fixed_digits_pad k j n :
  (0 <= n < 10 ^ Z.of_nat k)%Z ->
  fixed_digits (j + k) n = repeat_char "0" j ++ fixed_digits k n.
Proof.
  revert n. induction k as [| k IH]; intros n Hn.
  - assert (n = 0%Z) by (simpl in Hn; lia). subst n.
    rewrite Nat.add_0_r, fixed_digits_zero. simpl. symmetry. apply append_nil_r.
  - rewrite Nat.add_succ_r. simpl. rewrite IH.
    + apply append_assoc.
    + rewrite Nat2Z.inj_succ, Z.pow_succ_r in Hn by lia.
      Z.div_mod_to_equations; lia.
Qed.

Lemma digits_go_S f n acc :
  digits_go (S f) n acc
  = if (n / 10 =? 0)%Z then String (digit_char (n mod 10)) acc
    else digits_go f (n / 10) (String (digit_char (n mod 10)) acc).
Proof. reflexivity. Qed.

Lemma fixed_digits_1 n :
  fixed_digits 1 n = String (digit_char (n mod 10)) "".
Proof. reflexivity. Qed.

(** [digits_go] writes the significant digits in front of [acc]. *)
Lemma digits_go_spec f n acc :
  (0 <= n < 2 ^ Z.of_nat (S f))%Z ->
  exists k, (1 <= k)%nat
    /\ digits_go (S f) n acc = fixed_digits k n ++ acc
    /\ (n < 10 ^ Z.of_nat k)%Z
    /\ (k = 1%nat \/ (10 ^ Z.of_nat (k - 1) <= n)%Z).
Proof.
  revert n acc. induction f as [| f IH]; intros n acc Hn; rewrite digits_go_S.
  - change (2 ^ Z.of_nat 1)%Z with 2%Z in Hn.
    replace (n / 10 =? 0)%Z with true
      by (symmetry; apply Z.eqb_eq; Z.div_mod_to_equations; lia).
    exists 1%nat. rewrite fixed_digits_1.
    repeat split; [lia | | left; reflexivity].
    change (10 ^ Z.of_nat 1)%Z with 10%Z. lia.
  - destruct (n / 10 =? 0)%Z eqn:E.
    + apply Z.eqb_eq in E. exists 1%nat. rewrite fixed_digits_1.
      repeat split; [lia | | left; reflexivity].
      change (10 ^ Z.of_nat 1)%Z with 10%Z. Z.div_mod_to_equations; lia.
    + apply Z.eqb_neq in E.
      assert (Hn' : (0 <= n / 10 < 2 ^ Z.of_nat (S f))%Z).
      { rewrite (Nat2Z.inj_succ (S f)), Z.pow_succ_r in Hn by lia.
        Z.div_mod_to_equations; lia. }
      destruct (IH (n / 10)%Z (String (digit_char (n mod 10)) acc) Hn')
        as (k & Hk & Hgo & Hlt & Hge).
      exists (S k). rewrite Hgo.
      change (fixed_digits (S k) n)
        with (fixed_digits k (n / 10) ++ String (digit_char (n mod 10)) "").
      rewrite append_assoc.
      repeat split; [lia | | right].
      * rewrite Nat2Z.inj_succ, Z.pow_succ_r by lia. Z.div_mod_to_equations; lia.
      * replace (S k - 1)%nat with k by lia.
        destruct Hge as [-> | Hge].
        -- change (10 ^ Z.of_nat 1)%Z with 10%Z. Z.div_mod_to_equations; lia.
        -- replace k with (S (k - 1)) at 1 by lia.
           rewrite Nat2Z.inj_succ, Z.pow_succ_r by lia.
           Z.div_mod_to_equations; lia.
Qed.

Lemma digits_spec n :
  (0 <= n)%Z ->
  exists k, (1 <= k)%nat /\ digits n = fixed_digits k n
            /\ (n < 10 ^ Z.of_nat k)%Z
            /\ (k = 1%nat \/ (10 ^ Z.of_nat (k - 1) <= n)%Z).
Proof.
  intros Hn. unfold digits.
  destruct (digits_go_spec (Z.to_nat (Z.log2 n)) n "") as (k & H1 & H2 & H3 & H4).
  - rewrite Nat2Z.inj_succ, Z2Nat.id by apply Z.log2_nonneg.
    destruct (Z.eq_dec n 0) as [-> | Hne]; [simpl; lia |].
    pose proof (Z.log2_spec n ltac:(lia)). lia.
  - exists k. rewrite H2, append_nil_r. auto.
Qed.

(** ["%0<w>d"] of a number of at most [w] digits is its [w] low digits. *)
Lemma zero_pad_fixed w n :
  (0 <= n < 10 ^ Z.of_nat w)%Z -> (1 <= w)%nat -> zero_pad w n = fixed_digits w n.
Proof.
  intros Hn Hw. unfold zero_pad, of_int.
  replace (n <? 0)%Z with false by (symmetry; apply Z.ltb_ge; lia).
  destruct (digits_spec n ltac:(lia)) as (k & Hk & Hd & Hlt & Hge).
  rewrite Hd, length_fixed_digits.
  assert (k <= w)%nat.
  { destruct Hge as [-> | Hge]; [lia |].
    destruct (Nat.le_gt_cases k w) as [Hle | Hgt]; [exact Hle | exfalso].
    assert (10 ^ Z.of_nat w <= 10 ^ Z.of_nat (k - 1))%Z
      by (apply Z.pow_le_mono_r; lia).
    lia. }
  replace w with ((w - k) + k)%nat at 2 by lia.
  symmetry. apply fixed_digits_pad. lia.
Qed.

Lemma digit_char_code d :
  (0 <= d <= 9)%Z -> nat_of_ascii (digit_char d) = 48 + Z.to_nat d.
Proof.
  intros Hd. unfold digit_char. apply nat_ascii_embedding. lia.
Qed.

Lemma digits_value_cons acc c s :
  digits_value acc (String c s)
  = digits_value (10 * acc + (Z.of_nat (nat_of_ascii c) - 48))%Z s.
Proof. reflexivity. Qed.

Lemma digits_value_fixed k n acc s :
  (0 <= n)%Z ->
  digits_value acc (fixed_digits k n ++ s)
  = digits_value (acc * 10 ^ Z.of_nat k + n mod 10 ^ Z.of_nat k)%Z s.
Proof.
  revert n s. induction k as [| k IH]; intros n s Hn.
  - change (fixed_digits 0 n ++ s) with s. f_equal.
    change (10 ^ Z.of_nat 0)%Z with 1%Z. rewrite Z.mod_1_r. lia.
  - change (fixed_digits (S k) n)
      with (fixed_digits k (n / 10) ++ String (digit_char (n mod 10)) "").
    rewrite append_assoc.
    change (String (digit_char (n mod 10)) "" ++ s)
      with (String (digit_char (n mod 10)) s).
    rewrite IH by (Z.div_mod_to_equations; lia).
    rewrite digits_value_cons. f_equal.
    rewrite digit_char_code by (Z.div_mod_to_equations; lia).
    rewrite Nat2Z.inj_succ, Z.pow_succ_r by lia.
    rewrite (Z.mul_comm 10 (10 ^ Z.of_nat k)).
    assert (Hp : (0 < 10 ^ Z.of_nat k)%Z) by (apply Z.pow_pos_nonneg; lia).
    rewrite (Z.mul_comm (10 ^ Z.of_nat k) 10).
    rewrite (Z.rem_mul_r n 10 (10 ^ Z.of_nat k)) by lia.
    assert (0 <= n mod 10 <= 9)%Z by (Z.div_mod_to_equations; lia).
    lia.
Qed.

(** [str] of a non-negative integer can be read back. *)
Lemma digits_value_of_int n : (0 <= n)%Z -> digits_value 0 (of_int n) = n.
Proof.
  intros Hn. unfold of_int.
  replace (n <? 0)%Z with false by (symmetry; apply Z.ltb_ge; lia).
  destruct (digits_spec n Hn) as (k & Hk & Hd & Hlt & _).
  rewrite Hd, <- (append_nil_r (fixed_digits k n)), digits_value_fixed by lia.
  change (digits_value (0 * 10 ^ Z.of_nat k + n mod 10 ^ Z.of_nat k)%Z "")
    with (0 * 10 ^ Z.of_nat k + n mod 10 ^ Z.of_nat k)%Z.
  rewrite Z.mod_small by lia. lia.
Qed.

Lemma of_int_inj (i j : nat) :
  of_int (Z.of_nat i) = of_int (Z.of_nat j) -> i = j.
Proof.
  intros E. apply Nat2Z.inj.
  rewrite <- (digits_value_of_int (Z.of_nat i)), <- (digits_value_of_int (Z.of_nat j)) by lia.
  rewrite E. reflexivity.
Qed.

Lemma all_chars_app p a b :
  all_chars p (a ++ b) = all_chars p a && all_chars p b.
Proof.
  induction a as [| c a IH]; simpl; [reflexivity |].
  rewrite IH. apply andb_assoc.
Qed.

Lemma all_chars_impl (p q : ascii -> bool) s :
  (forall c, p c = true -> q c = true) ->
  all_chars p s = true -> all_chars q s = true.
Proof.
  intros Hpq. induction s as [| c s IH]; simpl; [reflexivity |].
  intros H. apply andb_true_iff in H. destruct H as [H1 H2].
  rewrite (Hpq c H1), (IH H2). reflexivity.
Qed.

Lemma digit_char_is_digit d : (0 <= d <= 9)%Z -> is_digit (digit_char d) = true.
Proof.
  intros Hd. unfold is_digit. rewrite digit_char_code by exact Hd.
  apply andb_true_iff. split; apply Nat.leb_le; lia.
Qed.

Lemma fixed_digits_all_digits k n :
  (0 <= n)%Z -> all_chars is_digit (fixed_digits k n) = true.
Proof.
  revert n. induction k as [| k IH]; intros n Hn; [reflexivity |].
  change (fixed_digits (S k) n)
    with (fixed_digits k (n / 10) ++ String (digit_char (n mod 10)) "").
  rewrite all_chars_app, IH by (Z.div_mod_to_equations; lia).
  change (all_chars is_digit (String (digit_char (n mod 10)) ""))
    with (is_digit (digit_char (n mod 10)) && true).
  rewrite digit_char_is_digit by (Z.div_mod_to_equations; lia). reflexivity.
Qed.

Lemma of_int_all_digits (i : nat) : all_chars is_digit (of_int (Z.of_nat i)) = true.
Proof.
  unfold of_int.
  replace (Z.of_nat i <? 0)%Z with false by (symmetry; apply Z.ltb_ge; lia).
  destruct (digits_spec (Z.of_nat i) ltac:(lia)) as (k & _ & Hd & _).
  rewrite Hd. apply fixed_digits_all_digits. lia.
Qed.
End StrFacts.

(* ================================================================== *)
(** * The date window *)
(* ================================================================== *)

Section WindowFacts.
Import Datetime Calendar.
Open Scope Z_scope.

Lemma valid_dateb_true d : valid_dateb d = true -> valid_date d.
Proof.
  unfold valid_dateb, valid_date. rewrite !andb_true_iff, !Z.leb_le. tauto.
Qed.

Lemma replace_day_1_valid d : valid_date d -> valid_date (replace_day d 1).
Proof.
  destruct d as [y m d]. unfold valid_date, replace_day. simpl.
  intros (Hy & Hm & Hd). pose proof (days_in_month_bounds y m Hm). lia.
Qed.

Lemma previous_month_first_last d :
  replace_day (previous_month_last d) 1 = previous_month_first d.
Proof.
  unfold previous_month_last, previous_month_first, replace_day.
  destruct (month d =? 1); reflexivity.
Qed.

(** [get_month_range] returns the calendar month before the month of its
    argument. *)
Lemma get_month_range_spec d :
  valid_date d -> ~ (year d = MINYEAR /\ month d = 1) ->
  get_month_range d = Ok (previous_month_first d, previous_month_last d).
Proof.
  intros Hv Hne. unfold get_month_range, sub_days.
  destruct (previous_month_last_valid d Hv Hne) as [Hvl Hol].
  pose proof (toordinal_bounds _ Hvl) as Hb.
  destruct (add_days_spec (replace_day d 1) (- (1)) (replace_day_1_valid d Hv))
    as [Hok _].
  destruct Hok as (d' & E & Hv' & Ho'); [lia |].
  rewrite E. simpl.
  assert (d' = previous_month_last d) by (apply toordinal_inj; auto; lia).
  subst d'. rewrite previous_month_first_last. reflexivity.
Qed.

(** In January of the first year there is no month before. *)
Lemma get_month_range_overflow d :
  valid_date d -> year d = MINYEAR -> month d = 1 ->
  get_month_range d = Raise OverflowError.
Proof.
  intros Hv Hy Hm. unfold get_month_range, sub_days.
  destruct (add_days_spec (replace_day d 1) (- (1)) (replace_day_1_valid d Hv))
    as [_ Hbad].
  rewrite Hbad; [reflexivity |].
  destruct d as [y m d]. simpl in Hy, Hm. subst y m.
  vm_compute. intros [H _]. discriminate.
Qed.

Lemma era5_delta_days : ERA5_DELTA_DAYS = 61 /\ 12 * ERA5_DELTA_DAYS = 2 * 366.
Proof. split; reflexivity. Qed.

Lemma toordinal_after_first_year d :
  valid_date d -> MINYEAR < year d -> 366 <= toordinal d.
Proof.
  destruct d as [y m d]. unfold valid_date, MINYEAR, toordinal, _ymd2ord. simpl.
  intros (Hy & Hm & Hd) Hy2.
  pose proof (day_of_year_bound y m d Hm Hd) as [Hdoy _].
  assert (365 <= _days_before_year y) by (unfold _days_before_year; divmod).
  lia.
Qed.

Lemma toordinal_first_january d :
  valid_date d -> year d = MINYEAR -> month d = 1 -> toordinal d <= 31.
Proof.
  destruct d as [y m d]. unfold valid_date, MINYEAR, toordinal, _ymd2ord. simpl.
  intros (Hy & Hm & Hd) -> ->.
  change (_days_in_month 1 1) with 31 in Hd.
  change (_days_before_year 1) with 0. change (_days_before_month 1 1) with 0.
  lia.
Qed.


(** A date read from [datetime.date] arithmetic prints as ten characters,
    [YYYY-MM-DD]. *)
Lemma isoformat_fixed d :
  valid_date d ->
  isoformat d
  = (Str.fixed_digits 4 (year d) ++ "-" ++ Str.fixed_digits 2 (month d) ++ "-"
     ++ Str.fixed_digits 2 (day d))%string.
Proof.
  destruct d as [y m d]. unfold valid_date, MINYEAR, MAXYEAR, isoformat. simpl.
  intros (Hy & Hm & Hd). pose proof (days_in_month_bounds y m Hm).
  rewrite !zero_pad_fixed;
    [reflexivity | | | | | |];
    try (change (10 ^ Z.of_nat 2) with 100; lia);
    try (change (10 ^ Z.of_nat 4) with 10000; lia); auto with arith.
Qed.

Section Window.

Variables ExecTypes_ERA5T_DAILY ExecTypes_ERA5T_MONTHLY : string.

Local Notation "'window'" :=
  (get_previous_month_dates ExecTypes_ERA5T_DAILY ExecTypes_ERA5T_MONTHLY).

(** C7. In mode [ERA5T_DAILY] the window is the single day six days before
    [today]: first and last day are the date whose ordinal is six less.  For
    2024-03-10 that day is 2024-03-04. *)
Theorem daily_window (today : date) :
  valid_date today -> 6 < toordinal today ->
  (exists anchor w,
     window ExecTypes_ERA5T_DAILY today = Ok w
     /\ MonthDates.first_day w = anchor /\ MonthDates.last_day w = anchor
     /\ valid_date anchor /\ toordinal anchor = toordinal today - 6)
  /\ (exists w,
        window ExecTypes_ERA5T_DAILY (mkdate 2024 3 10) = Ok w
        /\ MonthDates.first_day w = mkdate 2024 3 4
        /\ MonthDates.last_day w = mkdate 2024 3 4).
Proof.
  intros Hv H6. unfold get_previous_month_dates.
  rewrite String.eqb_refl. split.
  - pose proof (toordinal_bounds today Hv) as Hb.
    destruct (add_days_spec today (- (6)) Hv) as [Hok _].
    destruct Hok as (anchor & E & Hva & Hoa); [lia |].
    unfold sub_days. rewrite E. cbn [rbind fst snd].
    exists anchor. eexists. split; [reflexivity |].
    cbn [MonthDates.first_day MonthDates.last_day].
    split; [reflexivity |]. split; [reflexivity |]. split; [exact Hva | lia].
  - eexists. split; [vm_compute; reflexivity |]. split; reflexivity.
Qed.

(** C6. In mode [ERA5T_MONTHLY] the window is the calendar month before the
    month of [today]: the last day is the day before the first of [today]'s
    month, the first day is the first of that day's month.  For 2024-03-15
    it is 2024-02-01 to 2024-02-29. *)
Theorem monthly_window (today : date) :
  valid_date today ->
  ExecTypes_ERA5T_MONTHLY <> ExecTypes_ERA5T_DAILY ->
  ~ (year today = MINYEAR /\ month today = 1) ->
  (exists w,
     window ExecTypes_ERA5T_MONTHLY today = Ok w
     /\ MonthDates.first_day w = previous_month_first today
     /\ MonthDates.last_day w = previous_month_last today
     /\ valid_date (MonthDates.last_day w)
     /\ toordinal (MonthDates.last_day w) = toordinal (replace_day today 1) - 1
     /\ MonthDates.first_day w = replace_day (MonthDates.last_day w) 1)
  /\ (exists w,
        window ExecTypes_ERA5T_MONTHLY (mkdate 2024 3 15) = Ok w
        /\ MonthDates.first_day w = mkdate 2024 2 1
        /\ MonthDates.last_day w = mkdate 2024 2 29).
Proof.
  intros Hv Hmode Hne. unfold get_previous_month_dates.
  apply String.eqb_neq in Hmode. rewrite Hmode, String.eqb_refl. split.
  - rewrite (get_month_range_spec today Hv Hne). cbn [rbind fst snd].
    destruct (previous_month_last_valid today Hv Hne) as [Hvl Hol].
    eexists. split; [reflexivity |].
    cbn [MonthDates.first_day MonthDates.last_day].
    split; [reflexivity |]. split; [reflexivity |]. split; [exact Hvl |].
    split; [exact Hol |]. symmetry. apply previous_month_first_last.
  - eexists. split; [vm_compute; reflexivity |]. split; reflexivity.
Qed.

(** C1, as the code has it. In mode [ERA5], and in every mode other than
    [ERA5T_DAILY] and [ERA5T_MONTHLY], the anchor is the date 61 days before
    [today] and the window is the calendar month before the month of the
    anchor.  For 2024-03-10 the anchor is 2024-01-09 and the window is
    2023-12-01 to 2023-12-31. *)
Theorem era5_window (mode : string) (today : date) :
  valid_date today ->
  mode <> ExecTypes_ERA5T_DAILY -> mode <> ExecTypes_ERA5T_MONTHLY ->
  MINYEAR < year today ->
  (exists anchor w,
     sub_days today ERA5_DELTA_DAYS = Ok anchor
     /\ valid_date anchor /\ toordinal anchor = toordinal today - 61
     /\ window mode today = Ok w
     /\ MonthDates.first_day w = previous_month_first anchor
     /\ MonthDates.last_day w = previous_month_last anchor)
  /\ (exists w,
        sub_days (mkdate 2024 3 10) ERA5_DELTA_DAYS = Ok (mkdate 2024 1 9)
        /\ window mode (mkdate 2024 3 10) = Ok w
        /\ MonthDates.first_day w = mkdate 2023 12 1
        /\ MonthDates.last_day w = mkdate 2023 12 31).
Proof.
  intros Hv Hd Hm Hy. unfold get_previous_month_dates.
  apply String.eqb_neq in Hd, Hm. rewrite Hd, Hm. split.
  - pose proof (toordinal_bounds today Hv) as Hb.
    pose proof (toordinal_after_first_year today Hv Hy) as H366.
    destruct era5_delta_days as [E61 _].
    destruct (add_days_spec today (- ERA5_DELTA_DAYS) Hv) as [Hok _].
    destruct Hok as (anchor & E & Hva & Hoa); [rewrite E61; lia |].
    rewrite E61 in Hoa.
    assert (Hne : ~ (year anchor = MINYEAR /\ month anchor = 1)).
    { intros [H1 H2]. pose proof (toordinal_first_january anchor Hva H1 H2). lia. }
    unfold sub_days. rewrite E. cbn [rbind fst snd].
    rewrite (get_month_range_spec anchor Hva Hne). cbn [rbind fst snd].
    exists anchor. eexists.
    cbn [MonthDates.first_day MonthDates.last_day].
    split; [reflexivity |]. split; [exact Hva |]. split; [lia |].
    split; [reflexivity |]. split; reflexivity.
  - eexists. split; [vm_compute; reflexivity |].
    split; [vm_compute; reflexivity |]. split; reflexivity.
Qed.

Lemma add_days_ok_valid d days d' :
  valid_date d -> add_days d days = Ok d' ->
  valid_date d' /\ toordinal d' = toordinal d + days.
Proof.
  intros Hv E. destruct (add_days_spec d days Hv) as [Hok Hbad].
  destruct (Z_lt_dec 0 (toordinal d + days)) as [H0 | H0];
    [destruct (Z_le_dec (toordinal d + days) _MAXORDINAL) as [H1 | H1] |].
  - destruct Hok as (d'' & E' & Hv' & Ho'); [lia |].
    rewrite E in E'. injection E' as ->. auto.
  - rewrite Hbad in E by lia. discriminate.
  - rewrite Hbad in E by lia. discriminate.
Qed.

Lemma get_month_range_valid d f l :
  valid_date d -> get_month_range d = Ok (f, l) -> valid_date f /\ valid_date l.
Proof.
  intros Hv E.
  destruct (Z.eq_dec (year d) MINYEAR) as [Hy | Hy];
    [destruct (Z.eq_dec (month d) 1) as [Hm | Hm] |].
  - rewrite (get_month_range_overflow d Hv Hy Hm) in E. discriminate.
  - assert (Hne : ~ (year d = MINYEAR /\ month d = 1)) by tauto.
    rewrite (get_month_range_spec d Hv Hne) in E. injection E as <- <-.
    destruct (previous_month_last_valid d Hv Hne) as [Hvl _].
    rewrite <- previous_month_first_last.
    split; [apply replace_day_1_valid |]; exact Hvl.
  - assert (Hne : ~ (year d = MINYEAR /\ month d = 1)) by tauto.
    rewrite (get_month_range_spec d Hv Hne) in E. injection E as <- <-.
    destruct (previous_month_last_valid d Hv Hne) as [Hvl _].
    rewrite <- previous_month_first_last.
    split; [apply replace_day_1_valid |]; exact Hvl.
Qed.

Lemma zero_pad_year_month d :
  valid_date d ->
  Str.zero_pad 4 (year d) = Str.fixed_digits 4 (year d)
  /\ Str.zero_pad 2 (month d) = Str.fixed_digits 2 (month d).
Proof.
  destruct d as [y m d]. intros (Hy & Hm & Hd).
  unfold MINYEAR, MAXYEAR in Hy. cbn [year month day] in *.
  split; apply zero_pad_fixed; auto with arith.
  - change (10 ^ Z.of_nat 4) with 10000. lia.
  - change (10 ^ Z.of_nat 2) with 100. lia.
Qed.

(** Characters [0:4] and [5:7] of the ten characters of [str(d)]. *)
Lemma isoformat_slices d :
  valid_date d ->
  Str.slice 0 4 (isoformat d) = Str.fixed_digits 4 (year d)
  /\ Str.slice 5 7 (isoformat d) = Str.fixed_digits 2 (month d).
Proof.
  intros Hv. rewrite (isoformat_fixed d Hv). unfold Str.slice. split.
  - change (4 - 0)%nat with 4%nat.
    rewrite <- (length_fixed_digits 4 (year d)) at 1. apply substring_prefix.
  - change (7 - 5)%nat with 2%nat.
    rewrite <- (append_assoc (Str.fixed_digits 4 (year d)) "-").
    replace 5%nat
      with (String.length (Str.fixed_digits 4 (year d) ++ "-") + 0)%nat
      by (rewrite length_append, length_fixed_digits; reflexivity).
    rewrite substring_skip.
    rewrite <- (length_fixed_digits 2 (month d)) at 1. apply substring_prefix.
Qed.

(** The year and month strings of every window the module computes. *)
Lemma window_sl_year_month (mode : string) (today : date) (w : MonthDates.t) :
  valid_date today -> window mode today = Ok w ->
  valid_date (MonthDates.first_day w) /\ valid_date (MonthDates.last_day w)
  /\ MonthDates.sl_year w = Str.fixed_digits 4 (year (MonthDates.first_day w))
  /\ MonthDates.sl_month w = Str.fixed_digits 2 (month (MonthDates.first_day w)).
Proof.
  intros Hv E. unfold get_previous_month_dates in E.
  assert (Hr : exists f l,
             valid_date f /\ valid_date l
             /\ w = MonthDates.mk f l (Str.slice 0 4 (isoformat f))
                      (Str.slice 5 7 (isoformat f))).
  { destruct (String.eqb mode ExecTypes_ERA5T_DAILY).
    - unfold sub_days in E. destruct (add_days today (- (6))) as [a |] eqn:Ea;
        [| discriminate].
      destruct (add_days_ok_valid _ _ _ Hv Ea) as [Hva _].
      cbn [rbind fst snd] in E. injection E as <-. exists a, a. auto.
    - destruct (String.eqb mode ExecTypes_ERA5T_MONTHLY).
      + destruct (get_month_range today) as [[f l] |] eqn:Er; [| discriminate].
        destruct (get_month_range_valid _ _ _ Hv Er) as [Hf Hl].
        cbn [rbind fst snd] in E. injection E as <-. exists f, l. auto.
      + unfold sub_days in E.
        destruct (add_days today (- ERA5_DELTA_DAYS)) as [a |] eqn:Ea;
          [| discriminate].
        destruct (add_days_ok_valid _ _ _ Hv Ea) as [Hva _].
        cbn [rbind] in E.
        destruct (get_month_range a) as [[f l] |] eqn:Er; [| discriminate].
        destruct (get_month_range_valid _ _ _ Hva Er) as [Hf Hl].
        cbn [rbind fst snd] in E. injection E as <-. exists f, l. auto. }
  destruct Hr as (f & l & Hf & Hl & ->).
  cbn [MonthDates.first_day MonthDates.last_day MonthDates.sl_year
       MonthDates.sl_month].
  destruct (isoformat_slices f Hf) as [E1 E2].
  rewrite E1, E2. auto.
Qed.

(** The strings [get_previous_month_dates] returns are the slices of
    [str(first_day)]. *)
Lemma window_slices (mode : string) (today : date) (w : MonthDates.t) :
  window mode today = Ok w ->
  MonthDates.sl_year w = Str.slice 0 4 (isoformat (MonthDates.first_day w))
  /\ MonthDates.sl_month w
     = Str.slice 5 7 (isoformat (MonthDates.first_day w)).
Proof.
  unfold get_previous_month_dates. intros E.
  match type of E with
  | rbind ?r _ = _ => destruct r as [range |]; [| discriminate]
  end.
  cbn [rbind] in E. injection E as <-. split; reflexivity.
Qed.

(** C9. The strings [sl_year] and [sl_month] that
    [get_previous_month_dates] returns with a window are characters [0:4]
    and [5:7] of [str(first_day)], and they are the year of [first_day]
    written with four digits and its month written with two, zeros in
    front; as are these slices for every date. *)
Theorem sl_year_month_slices :
  (forall (mode : string) (today : date) (w : MonthDates.t),
     valid_date today -> window mode today = Ok w ->
     valid_date (MonthDates.first_day w)
     /\ MonthDates.sl_year w
        = Str.slice 0 4 (isoformat (MonthDates.first_day w))
     /\ MonthDates.sl_month w
        = Str.slice 5 7 (isoformat (MonthDates.first_day w))
     /\ MonthDates.sl_year w = Str.zero_pad 4 (year (MonthDates.first_day w))
     /\ MonthDates.sl_month w
        = Str.zero_pad 2 (month (MonthDates.first_day w))
     /\ MonthDates.sl_year w
        = Str.fixed_digits 4 (year (MonthDates.first_day w))
     /\ MonthDates.sl_month w
        = Str.fixed_digits 2 (month (MonthDates.first_day w)))
  /\ (forall first_day : date,
        valid_date first_day ->
        Str.slice 0 4 (isoformat first_day) = Str.zero_pad 4 (year first_day)
        /\ Str.slice 5 7 (isoformat first_day)
           = Str.zero_pad 2 (month first_day)
        /\ Str.zero_pad 4 (year first_day)
           = Str.fixed_digits 4 (year first_day)
        /\ Str.zero_pad 2 (month first_day)
           = Str.fixed_digits 2 (month first_day)).
Proof.
  split.
  - intros mode today w Hv E.
    destruct (window_sl_year_month mode today w Hv E) as (Hf & _ & F4 & F2).
    destruct (window_slices mode today w E) as [S4 S2].
    destruct (zero_pad_year_month _ Hf) as [E4 E2].
    rewrite E4, E2. auto 8.
  - intros first_day Hv.
    destruct (zero_pad_year_month first_day Hv) as [E4 E2].
    destruct (isoformat_slices first_day Hv) as [S4 S2].
    rewrite E4, E2. auto.
Qed.

End Window.

End WindowFacts.

(** For today 2024-03-10 the window of mode [ERA5] is December 2023, not the
    month of the anchor 2024-01-09. *)
Lemma era5_window_not_anchor_month :
  Datetime.sub_days (mkdate 2024 3 10) ERA5_DELTA_DAYS = Ok (mkdate 2024 1 9)
  /\ ~ (exists w,
          get_previous_month_dates Sample.ERA5T_DAILY Sample.ERA5T_MONTHLY
            Sample.ERA5 (mkdate 2024 3 10) = Ok w
          /\ MonthDates.first_day w = Calendar.month_first (mkdate 2024 1 9)
          /\ MonthDates.last_day w = Calendar.month_last (mkdate 2024 1 9)).
Proof.
  split; [vm_compute; reflexivity |].
  intros (w & E & H1 & H2). vm_compute in E. injection E as <-.
  vm_compute in H1. discriminate H1.
Qed.

Lemma daily_window_witness :
  Datetime.valid_date (mkdate 2024 3 10)
  /\ exists w,
       get_previous_month_dates Sample.ERA5T_DAILY Sample.ERA5T_MONTHLY
         Sample.ERA5T_DAILY (mkdate 2024 3 10) = Ok w
       /\ MonthDates.first_day w = mkdate 2024 3 4
       /\ MonthDates.last_day w = mkdate 2024 3 4.
Proof.
  assert (Hv : Datetime.valid_date (mkdate 2024 3 10))
    by (apply valid_dateb_true; reflexivity).
  split; [exact Hv |].
  apply (daily_window Sample.ERA5T_DAILY Sample.ERA5T_MONTHLY (mkdate 2024 3 10));
    [exact Hv | reflexivity].
Defined.

Lemma monthly_window_witness :
  exists w,
    get_previous_month_dates Sample.ERA5T_DAILY Sample.ERA5T_MONTHLY
      Sample.ERA5T_MONTHLY (mkdate 2024 3 15) = Ok w
    /\ MonthDates.first_day w = mkdate 2024 2 1
    /\ MonthDates.last_day w = mkdate 2024 2 29.
Proof.
  apply (monthly_window Sample.ERA5T_DAILY Sample.ERA5T_MONTHLY (mkdate 2024 3 15));
    [apply valid_dateb_true; reflexivity | discriminate
    | intros [H _]; discriminate H].
Defined.

Lemma era5_window_witness :
  exists w,
    Datetime.sub_days (mkdate 2024 3 10) ERA5_DELTA_DAYS = Ok (mkdate 2024 1 9)
    /\ get_previous_month_dates Sample.ERA5T_DAILY Sample.ERA5T_MONTHLY
         Sample.ERA5 (mkdate 2024 3 10) = Ok w
    /\ MonthDates.first_day w = mkdate 2023 12 1
    /\ MonthDates.last_day w = mkdate 2023 12 31.
Proof.
  apply (era5_window Sample.ERA5T_DAILY Sample.ERA5T_MONTHLY Sample.ERA5
           (mkdate 2024 3 10));
    [apply valid_dateb_true; reflexivity | discriminate | discriminate
    | reflexivity].
Defined.

Lemma sl_year_month_slices_witness :
  (exists w,
     get_previous_month_dates Sample.ERA5T_DAILY Sample.ERA5T_MONTHLY Sample.ERA5
       Sample.today = Ok w
     /\ MonthDates.first_day w = mkdate 2023 12 1
     /\ MonthDates.sl_year w = "2023" /\ MonthDates.sl_month w = "12")
  /\ Str.slice 0 4 (Datetime.isoformat (mkdate 987 6 5)) = "0987"
  /\ Str.slice 5 7 (Datetime.isoformat (mkdate 987 6 5)) = "06".
Proof.
  split.
  - destruct (get_previous_month_dates Sample.ERA5T_DAILY Sample.ERA5T_MONTHLY
                Sample.ERA5 Sample.today) as [w |] eqn:E;
      [| vm_compute in E; discriminate].
    destruct (proj1 (sl_year_month_slices Sample.ERA5T_DAILY
                       Sample.ERA5T_MONTHLY) Sample.ERA5 Sample.today w)
      as (_ & _ & _ & E4 & E2 & _);
      [apply valid_dateb_true; reflexivity | exact E |].
    exists w. split; [reflexivity |].
    rewrite E4, E2. vm_compute in E. injection E as <-.
    repeat split; vm_compute; reflexivity.
  - destruct (proj2 (sl_year_month_slices Sample.ERA5T_DAILY
                       Sample.ERA5T_MONTHLY) (mkdate 987 6 5))
      as (E1 & E2 & _); [apply valid_dateb_true; reflexivity |].
    rewrite E1, E2. split; reflexivity.
Defined.

(* ================================================================== *)
(** * Facts about [split] and [strip] *)
(* ================================================================== *)

Section SplitFacts.
Import Str.

Lemma prefix_app (sep r : string) : prefix sep (sep ++ r) = true.
Proof.
  induction sep as [| c sep IH]; [destruct r; reflexivity |].
  cbn [append prefix]. destruct (ascii_dec c c) as [_ | Hc]; [exact IH | congruence].
Qed.

Lemma prefix_cons_neq c d sep s : c <> d -> prefix (String c sep) (String d s) = false.
Proof.
  intros H. cbn [prefix]. destruct (ascii_dec c d); [contradiction | reflexivity].
Qed.

Lemma is_nl_spec c : is_nl c = true <-> c = ascii_of_nat 10.
Proof. unfold is_nl. apply Ascii.eqb_eq. Qed.

Lemma split_go_nil sep skip : split_go sep skip "" = ("", []).
Proof. reflexivity. Qed.

Lemma split_go_cons sep c s :
  split_go sep 0 (String c s)
  = if prefix sep (String c s)
    then ("", fst (split_go sep (length sep - 1) s) :: snd (split_go sep (length sep - 1) s))
    else (String c (fst (split_go sep 0 s)), snd (split_go sep 0 s)).
Proof. reflexivity. Qed.

(** The characters of a separator just matched are passed over. *)
Lemma split_go_skip sep a r : split_go sep (length a) (a ++ r) = split_go sep 0 r.
Proof.
  induction a as [| c a IH]; [destruct r; reflexivity | exact IH].
Qed.

(** A separator at the front ends the piece being read. *)
Lemma split_go_match c sep r :
  split_go (String c sep) 0 (String c sep ++ r)
  = ("", fst (split_go (String c sep) 0 r) :: snd (split_go (String c sep) 0 r)).
Proof.
  change (String c sep ++ r) with (String c (sep ++ r)).
  rewrite split_go_cons.
  change (String c (sep ++ r)) with (String c sep ++ r). rewrite prefix_app.
  change (length (String c sep) - 1) with (length sep - 0).
  rewrite Nat.sub_0_r, split_go_skip. reflexivity.
Qed.

Local Notation "'NN'" := (String (ascii_of_nat 10) (String (ascii_of_nat 10) "")).

Lemma NL_NL : NL ++ NL = NN.
Proof. reflexivity. Qed.

(** A block whose line breaks stand alone is cut off whole at the blank
    line after it. *)
Lemma split_go_block b r :
  isolated_nl b = true ->
  split_go NN 0 (b ++ NN ++ r) = (b, fst (split_go NN 0 r) :: snd (split_go NN 0 r)).
Proof.
  induction b as [| c b IH]; intros Hb.
  - apply split_go_match.
  - cbn [isolated_nl] in Hb. apply andb_true_iff in Hb. destruct Hb as [Hc Hb].
    change (String c b ++ NN ++ r) with (String c (b ++ NN ++ r)).
    rewrite split_go_cons.
    replace (prefix NN (String c (b ++ NN ++ r))) with false.
    + rewrite (IH Hb). reflexivity.
    + symmetry. destruct (is_nl c) eqn:Ec.
      * apply is_nl_spec in Ec. subst c.
        destruct b as [| d b]; [discriminate |].
        apply negb_true_iff in Hc.
        cbn [append prefix].
        destruct (ascii_dec (ascii_of_nat 10) (ascii_of_nat 10)); [| congruence].
        destruct (ascii_dec (ascii_of_nat 10) d) as [<- | ]; [| reflexivity].
        unfold is_nl in Hc. rewrite Ascii.eqb_refl in Hc. discriminate.
      * apply prefix_cons_neq. intros <-.
        unfold is_nl in Ec. rewrite Ascii.eqb_refl in Ec. discriminate.
Qed.

(** ** One-character separators *)

Lemma count_char_app c a b : count_char c (a ++ b) = count_char c a + count_char c b.
Proof. induction a as [| d a IH]; simpl; [reflexivity | rewrite IH; lia]. Qed.

Lemma prefix_single c d s : prefix (String c "") (String d s) = Ascii.eqb c d.
Proof.
  cbn [prefix]. destruct (ascii_dec c d) as [-> | H].
  - rewrite Ascii.eqb_refl. destruct s; reflexivity.
  - symmetry. apply Ascii.eqb_neq. exact H.
Qed.

Lemma split_go_single_cons c d s :
  split_go (String c "") 0 (String d s)
  = if Ascii.eqb c d
    then ("", fst (split_go (String c "") 0 s) :: snd (split_go (String c "") 0 s))
    else (String d (fst (split_go (String c "") 0 s)), snd (split_go (String c "") 0 s)).
Proof. rewrite split_go_cons, prefix_single. reflexivity. Qed.

Lemma split_single_length c s :
  List.length (split (String c "") s) = S (count_char c s).
Proof.
  unfold split. induction s as [| d s IH]; [reflexivity |].
  rewrite split_go_single_cons. cbn [count_char].
  destruct (Ascii.eqb c d); cbn [fst snd List.length] in *; lia.
Qed.

Lemma split_go_single_none c a :
  count_char c a = 0 -> split_go (String c "") 0 a = (a, []).
Proof.
  induction a as [| d a IH]; intros H; [reflexivity |].
  rewrite split_go_single_cons. cbn [count_char] in H.
  destruct (Ascii.eqb c d); [discriminate |].
  rewrite IH by exact H. reflexivity.
Qed.

Lemma split_go_single_cut c a r :
  count_char c a = 0 ->
  split_go (String c "") 0 (a ++ String c r)
  = (a, fst (split_go (String c "") 0 r) :: snd (split_go (String c "") 0 r)).
Proof.
  induction a as [| d a IH]; intros H.
  - change ("" ++ String c r) with (String c r).
    rewrite split_go_single_cons, Ascii.eqb_refl. reflexivity.
  - change (String d a ++ String c r) with (String d (a ++ String c r)).
    rewrite split_go_single_cons. cbn [count_char] in H.
    destruct (Ascii.eqb c d); [discriminate |].
    rewrite IH by exact H. reflexivity.
Qed.

(** ** [strip] *)

Lemma rstrip_no_space s :
  all_chars (fun c => negb (is_space c)) s = true -> rstrip s = s.
Proof.
  induction s as [| c s IH]; intros H; [reflexivity |].
  cbn [all_chars] in H. apply andb_true_iff in H. destruct H as [Hc Hs].
  cbn [rstrip]. rewrite (IH Hs). apply negb_true_iff in Hc. rewrite Hc.
  destruct s; reflexivity.
Qed.

Lemma strip_no_space s :
  all_chars (fun c => negb (is_space c)) s = true -> strip s = s.
Proof.
  intros H. unfold strip.
  replace (lstrip s) with s; [apply rstrip_no_space; exact H |].
  destruct s as [| c s]; [reflexivity |].
  cbn [all_chars] in H. apply andb_true_iff in H. destruct H as [Hc _].
  apply negb_true_iff in Hc. cbn [lstrip]. rewrite Hc. reflexivity.
Qed.

End SplitFacts.

(* ================================================================== *)
(** * Facts about dictionaries and [configparser] *)
(* ================================================================== *)

Section DictFacts.
Context {V : Type}.
Implicit Types (l : list (string * V)) (k : string) (v : V).

Lemma dict_mem_app k l l' : Dict.mem k (l ++ l')%list = Dict.mem k l || Dict.mem k l'.
Proof. unfold Dict.mem, Dict.keys. rewrite map_app, existsb_app. reflexivity. Qed.

Lemma dict_mem_cons k k' v l :
  Dict.mem k ((k', v) :: l) = String.eqb k k' || Dict.mem k l.
Proof. reflexivity. Qed.

Lemma dict_get_mem k l v : Dict.get k l = Some v -> Dict.mem k l = true.
Proof.
  induction l as [| [k' v'] l IH]; [discriminate |].
  cbn [Dict.get]. rewrite dict_mem_cons.
  destruct (String.eqb k k'); [reflexivity | exact IH].
Qed.

Lemma dict_mem_get k l : Dict.mem k l = true -> exists v, Dict.get k l = Some v.
Proof.
  induction l as [| [k' v'] l IH]; [discriminate |].
  rewrite dict_mem_cons. cbn [Dict.get].
  destruct (String.eqb k k'); [intros _; eauto | exact IH].
Qed.

Lemma dict_get_app_l k l l' v :
  Dict.get k l = Some v -> Dict.get k (l ++ l')%list = Some v.
Proof.
  induction l as [| [k' v'] l IH]; [discriminate |].
  cbn [Dict.get app]. destruct (String.eqb k k'); [auto | exact IH].
Qed.

Lemma dict_get_app_r k l l' :
  Dict.mem k l = false -> Dict.get k (l ++ l')%list = Dict.get k l'.
Proof.
  induction l as [| [k' v'] l IH]; [reflexivity |].
  rewrite dict_mem_cons. cbn [Dict.get app].
  destruct (String.eqb k k'); [discriminate | exact IH].
Qed.

Lemma dict_get_set_same k v l : Dict.get k (Dict.set k v l) = Some v.
Proof.
  induction l as [| [k' v'] l IH]; cbn [Dict.set Dict.get].
  - rewrite String.eqb_refl. reflexivity.
  - destruct (String.eqb k k') eqn:E; cbn [Dict.get].
    + rewrite String.eqb_refl. reflexivity.
    + rewrite E. exact IH.
Qed.

Lemma dict_get_set_other k k' v l :
  k' <> k -> Dict.get k' (Dict.set k v l) = Dict.get k' l.
Proof.
  intros Hne. apply String.eqb_neq in Hne.
  induction l as [| [k0 v0] l IH]; cbn [Dict.set Dict.get].
  - rewrite Hne. reflexivity.
  - destruct (String.eqb k k0) eqn:E; cbn [Dict.get].
    + apply String.eqb_eq in E. subst k0. rewrite Hne. reflexivity.
    + rewrite IH. reflexivity.
Qed.

Lemma dict_keys_set k v v0 l :
  Dict.get k l = Some v0 -> Dict.keys (Dict.set k v l) = Dict.keys l.
Proof.
  induction l as [| [k' v'] l IH]; [discriminate |].
  cbn [Dict.get Dict.set]. destruct (String.eqb k k') eqn:E.
  - intros _. apply String.eqb_eq in E. subst k'. reflexivity.
  - intros H. unfold Dict.keys in *. cbn [map fst]. rewrite (IH H). reflexivity.
Qed.

(** Setting the entry that was added last. *)
Lemma dict_set_app_new k v v' l :
  Dict.mem k l = false -> Dict.set k v' (l ++ [(k, v)])%list = (l ++ [(k, v')])%list.
Proof.
  induction l as [| [k' v0] l IH].
  - intros _. cbn [app Dict.set]. rewrite String.eqb_refl. reflexivity.
  - rewrite dict_mem_cons. cbn [app Dict.set].
    destruct (String.eqb k k'); [discriminate |].
    intros H. rewrite (IH H). reflexivity.
Qed.

Lemma dict_del_absent k l : Dict.mem k l = false -> Dict.del k l = l.
Proof.
  induction l as [| [k' v'] l IH]; [reflexivity |].
  rewrite dict_mem_cons. unfold Dict.del in *. cbn [filter fst].
  destruct (String.eqb k k'); [discriminate |].
  intros H. cbn [negb]. rewrite (IH H). reflexivity.
Qed.

Lemma dict_del_app k l l' : Dict.del k (l ++ l')%list = (Dict.del k l ++ Dict.del k l')%list.
Proof. unfold Dict.del. apply filter_app. Qed.

Lemma dict_mem_del k k' l :
  Dict.mem k' (Dict.del k l) = negb (String.eqb k k') && Dict.mem k' l.
Proof.
  induction l as [| [k0 v0] l IH].
  - cbn. rewrite andb_false_r. reflexivity.
  - unfold Dict.del in *. cbn [filter fst].
    destruct (String.eqb k k0) eqn:E; cbn [negb].
    + rewrite IH, dict_mem_cons. apply String.eqb_eq in E. subst k0.
      destruct (String.eqb k k') eqn:E'; [reflexivity |].
      rewrite String.eqb_sym, E'. reflexivity.
    + rewrite !dict_mem_cons, IH.
      destruct (String.eqb k k') eqn:E'; [| reflexivity].
      apply String.eqb_eq in E'. subst k'. rewrite E. reflexivity.
Qed.

End DictFacts.

Section ConfigFacts.
Import Str.

Lemma add_section_inv c s c' :
  Configparser.add_section c s = Ok c' ->
  s <> Configparser.DEFAULTSECT /\ Configparser.has_section c s = false
  /\ c' = mkConfig (_defaults c) (_sections c ++ [(s, [])]).
Proof.
  unfold Configparser.add_section.
  destruct (String.eqb s Configparser.DEFAULTSECT) eqn:E; [discriminate |].
  destruct (Configparser.has_section c s); [discriminate |].
  intros H. injection H as <-. apply String.eqb_neq in E. auto.
Qed.

Lemma add_section_ok c s :
  s <> Configparser.DEFAULTSECT -> Configparser.has_section c s = false ->
  Configparser.add_section c s = Ok (mkConfig (_defaults c) (_sections c ++ [(s, [])])).
Proof.
  intros H1 H2. unfold Configparser.add_section.
  apply String.eqb_neq in H1. rewrite H1, H2. reflexivity.
Qed.

(** A section that is there cannot be added again. *)
Lemma add_section_duplicate c s :
  Configparser.has_section c s = true ->
  Configparser.add_section c s
  = Raise (if String.eqb s Configparser.DEFAULTSECT then ValueError
           else DuplicateSectionError s).
Proof.
  intros H. unfold Configparser.add_section. rewrite H.
  destruct (String.eqb s Configparser.DEFAULTSECT); reflexivity.
Qed.

Lemma set_last_section d secs name opts opt v :
  Dict.mem name secs = false ->
  Configparser.set (mkConfig d (secs ++ [(name, opts)])) name opt v
  = Ok (if String.eqb name "" || String.eqb name Configparser.DEFAULTSECT
        then mkConfig (Dict.set (Configparser.optionxform opt) v d)
               (secs ++ [(name, opts)])
        else mkConfig d
               (secs ++ [(name, Dict.set (Configparser.optionxform opt) v opts)])).
Proof.
  intros H. unfold Configparser.set. cbn [_defaults _sections].
  destruct (String.eqb name "" || String.eqb name Configparser.DEFAULTSECT);
    [reflexivity |].
  rewrite dict_get_app_r by exact H. cbn [Dict.get]. rewrite String.eqb_refl.
  rewrite dict_set_app_new by exact H. reflexivity.
Qed.

(** What a credential block that was appended looked like, and what it
    added. *)
Lemma add_credential_section_inv c section c' :
  add_credential_section c section = Ok c' ->
  block_section_name section <> Configparser.DEFAULTSECT
  /\ Configparser.has_section c (block_section_name section) = false
  /\ exists l1 l2 k1 v1 k2 v2,
       nth_error (split NL section) 1 = Some l1 /\ split "=" l1 = [k1; v1]
       /\ nth_error (split NL section) 2 = Some l2 /\ split "=" l2 = [k2; v2]
       /\ c' = if String.eqb (block_section_name section) ""
               then mkConfig
                      (Dict.set (Configparser.optionxform (strip k2)) (strip v2)
                         (Dict.set (Configparser.optionxform (strip k1)) (strip v1)
                            (_defaults c)))
                      (_sections c ++ [(block_section_name section, [])])
               else mkConfig (_defaults c)
                      (_sections c
                       ++ [(block_section_name section,
                            Dict.set (Configparser.optionxform (strip k2)) (strip v2)
                              [(Configparser.optionxform (strip k1), strip v1)])]).
Proof.
  unfold add_credential_section. fold (block_section_name section).
  set (name := block_section_name section).
  destruct (Configparser.add_section c name) as [c1 |] eqn:Eadd; [| discriminate].
  apply add_section_inv in Eadd. destruct Eadd as (Hd & Hs & ->).
  cbn [rbind].
  destruct (nth_error (split NL section) 1) as [l1 |]; [| discriminate].
  cbn [rbind].
  destruct (split "=" l1) as [| k1 [| v1 [| ? ?]]] eqn:E1; try discriminate.
  rewrite set_last_section by exact Hs.
  assert (Hdn : String.eqb name Configparser.DEFAULTSECT = false)
    by (apply String.eqb_neq; exact Hd).
  rewrite Hdn, orb_false_r. cbn [rbind].
  destruct (nth_error (split NL section) 2) as [l2 |]; [| destruct (String.eqb name ""); discriminate].
  destruct (String.eqb name "") eqn:En; cbn [rbind].
  - destruct (split "=" l2) as [| k2 [| v2 [| ? ?]]] eqn:E2; try discriminate.
    rewrite set_last_section by exact Hs. rewrite En. cbn [orb].
    intros H. injection H as <-.
    split; [exact Hd |]. split; [exact Hs |].
    exists l1, l2, k1, v1, k2, v2.
    split; [reflexivity |]. split; [exact E1 |]. split; [reflexivity |].
    split; [exact E2 | reflexivity].
  - destruct (split "=" l2) as [| k2 [| v2 [| ? ?]]] eqn:E2; try discriminate.
    rewrite set_last_section by exact Hs. rewrite En, Hdn. cbn [orb].
    intros H. injection H as <-.
    split; [exact Hd |]. split; [exact Hs |].
    exists l1, l2, k1, v1, k2, v2.
    split; [reflexivity |]. split; [exact E1 |]. split; [reflexivity |].
    split; [exact E2 | reflexivity].
Qed.

(** Appending a block leaves the sections that were there as they were. *)
Lemma add_credential_section_sections c section c' :
  add_credential_section c section = Ok c' ->
  exists opts,
    _sections c' = (_sections c ++ [(block_section_name section, opts)])%list
    /\ Dict.mem (block_section_name section) (_sections c) = false
    /\ (block_section_name section <> "" -> _defaults c' = _defaults c).
Proof.
  intros H. apply add_credential_section_inv in H.
  destruct H as (_ & Hs & l1 & l2 & k1 & v1 & k2 & v2 & _ & _ & _ & _ & ->).
  destruct (String.eqb (block_section_name section) "") eqn:E;
    eexists; (split; [reflexivity |]); (split; [exact Hs |]); intros Hn.
  - apply String.eqb_eq in E. contradiction.
  - reflexivity.
Qed.

End ConfigFacts.

(* ================================================================== *)
(** * Rewriting a configuration file *)
(* ================================================================== *)


(** Every turn of a loop that ends well ends well. *)
Lemma fold_result_each {A S} (body : S -> A -> result S) xs s s' x :
  fold_result body xs s = Ok s' -> In x xs ->
  exists s1 s2, body s1 x = Ok s2.
Proof.
  revert s. induction xs as [| y xs IH]; intros s H Hin; [contradiction |].
  cbn [fold_result rbind] in H. destruct (body s y) as [s1 |] eqn:E; [| discriminate].
  destruct Hin as [-> | Hin]; [eauto | eapply IH; eauto].
Qed.

Lemma set_has_section c section option value c' x :
  Configparser.set c section option value = Ok c' ->
  Configparser.has_section c' x = Configparser.has_section c x.
Proof.
  unfold Configparser.set, Configparser.has_section, Dict.mem.
  destruct (_ || _).
  - intros H. injection H as <-. reflexivity.
  - destruct (Dict.get section (_sections c)) as [sd |] eqn:E; [| discriminate].
    intros H. injection H as <-. cbn [_sections].
    rewrite (dict_keys_set _ _ _ _ E). reflexivity.
Qed.

Lemma set_target_path_has_section c temp_path c' x :
  set_target_path c temp_path = Ok c' ->
  Configparser.has_section c' x = Configparser.has_section c x.
Proof.
  unfold set_target_path. destruct temp_path as [[| a p] |];
    try (intros H; injection H as <-; reflexivity).
  destruct (Configparser.get c "parameters" "target_path"); [| discriminate].
  cbn [rbind]. apply set_has_section.
Qed.

Lemma set_selection_has_section c field_name config_args c' x :
  set_selection c field_name config_args = Ok c' ->
  Configparser.has_section c' x = Configparser.has_section c x.
Proof.
  unfold set_selection. destruct (ConfigArgs.year_wise_date config_args).
  - destruct (Configparser.set c "selection" "year" _) as [c1 |] eqn:E1; [| discriminate].
    cbn [rbind].
    destruct (Configparser.set c1 "selection" "month" _) as [c2 |] eqn:E2; [| discriminate].
    cbn [rbind]. intros E3.
    rewrite (set_has_section _ _ _ _ _ _ E3), (set_has_section _ _ _ _ _ _ E2).
    apply (set_has_section _ _ _ _ _ _ E1).
  - apply set_has_section.
Qed.

Lemma add_credential_section_has_section c section c' x :
  add_credential_section c section = Ok c' ->
  Configparser.has_section c x = true -> Configparser.has_section c' x = true.
Proof.
  intros H Hx. apply add_credential_section_sections in H.
  destruct H as (opts & E & _). unfold Configparser.has_section in *.
  rewrite E, dict_mem_app, Hx. reflexivity.
Qed.

Lemma add_credential_sections_has_section blocks c c' x :
  fold_result add_credential_section blocks c = Ok c' ->
  Configparser.has_section c x = true -> Configparser.has_section c' x = true.
Proof.
  revert c. induction blocks as [| b blocks IH]; intros c H Hx.
  - injection H as <-. exact Hx.
  - cbn [fold_result rbind] in H.
    destruct (add_credential_section c b) as [c1 |] eqn:E; [| discriminate].
    apply (IH c1 H). eapply add_credential_section_has_section; eauto.
Qed.


Lemma add_credential_section_duplicate c section :
  Configparser.has_section c (block_section_name section) = true ->
  block_section_name section <> Configparser.DEFAULTSECT ->
  add_credential_section c section
  = Raise (DuplicateSectionError (block_section_name section)).
Proof.
  intros Hx Hd. unfold add_credential_section.
  fold (block_section_name section).
  rewrite (add_section_duplicate _ _ Hx).
  apply String.eqb_neq in Hd. rewrite Hd. reflexivity.
Qed.


Lemma dict_set_set {V} k (v1 v2 : V) l :
  Dict.set k v2 (Dict.set k v1 l) = Dict.set k v2 l.
Proof.
  induction l as [| [k' v'] l IH]; cbn [Dict.set].
  - rewrite String.eqb_refl. reflexivity.
  - destruct (String.eqb k k') eqn:E; cbn [Dict.set].
    + rewrite String.eqb_refl. reflexivity.
    + rewrite E, IH. reflexivity.
Qed.

Lemma set_section_inv c section option value c' :
  Configparser.set c section option value = Ok c' ->
  section <> "" -> section <> Configparser.DEFAULTSECT ->
  exists sectdict,
    Dict.get section (_sections c) = Some sectdict
    /\ c' = mkConfig (_defaults c)
              (Dict.set section
                 (Dict.set (Configparser.optionxform option) value sectdict)
                 (_sections c)).
Proof.
  intros H H1 H2. unfold Configparser.set in H.
  apply String.eqb_neq in H1, H2. rewrite H1, H2 in H. cbn [orb] in H.
  destruct (Dict.get section (_sections c)) as [sd |]; [| discriminate].
  injection H as <-. eauto.
Qed.

(** [config.get] finds the value a section holds itself. *)
Lemma get_own_value c section option sectdict v :
  Dict.get section (_sections c) = Some sectdict ->
  Dict.get (Configparser.optionxform option) sectdict = Some v ->
  Configparser.get c section option = Ok v.
Proof. intros H1 H2. unfold Configparser.get. rewrite H1, H2. reflexivity. Qed.

Lemma set_target_path_other_section c temp_path c' x :
  set_target_path c temp_path = Ok c' -> x <> "parameters" ->
  Dict.get x (_sections c') = Dict.get x (_sections c).
Proof.
  unfold set_target_path. destruct temp_path as [[| a p] |];
    try (intros H; injection H as <-; reflexivity).
  destruct (Configparser.get c "parameters" "target_path"); [| discriminate].
  cbn [rbind]. intros H Hx.
  apply set_section_inv in H; [| discriminate | discriminate].
  destruct H as (sd & _ & ->). cbn [_sections].
  apply dict_get_set_other. exact Hx.
Qed.

(** The selection section after the date step of [new_config_file]. *)
Lemma set_selection_inv c field_name config_args c' :
  set_selection c field_name config_args = Ok c' ->
  exists sel0,
    Dict.get "selection" (_sections c) = Some sel0
    /\ Dict.get "selection" (_sections c')
       = Some (if ConfigArgs.year_wise_date config_args
               then Dict.set "day" "all"
                      (Dict.set "month" (ConfigArgs.sl_month config_args)
                         (Dict.set "year" (ConfigArgs.sl_year config_args) sel0))
               else Dict.set (Configparser.optionxform field_name)
                      (Datetime.isoformat (ConfigArgs.first_day config_args)
                       ++ "/to/"
                       ++ Datetime.isoformat (ConfigArgs.last_day config_args))
                      sel0).
Proof.
  unfold set_selection. destruct (ConfigArgs.year_wise_date config_args).
  - destruct (Configparser.set c "selection" "year" _) as [c1 |] eqn:E1; [| discriminate].
    cbn [rbind].
    destruct (Configparser.set c1 "selection" "month" _) as [c2 |] eqn:E2; [| discriminate].
    cbn [rbind]. intros E3.
    apply set_section_inv in E1; [| discriminate | discriminate].
    destruct E1 as (sel0 & H0 & ->).
    apply set_section_inv in E2; [| discriminate | discriminate].
    destruct E2 as (sel1 & H1 & ->).
    apply set_section_inv in E3; [| discriminate | discriminate].
    destruct E3 as (sel2 & H2 & ->).
    cbn [_sections _defaults] in *.
    rewrite dict_get_set_same in H1. injection H1 as <-.
    rewrite dict_get_set_same in H2. injection H2 as <-.
    exists sel0. split; [exact H0 |]. rewrite dict_get_set_same. reflexivity.
  - intros E. apply set_section_inv in E; [| discriminate | discriminate].
    destruct E as (sel0 & H0 & ->). exists sel0. split; [exact H0 |].
    cbn [_sections]. rewrite dict_get_set_same. reflexivity.
Qed.

Lemma add_credential_sections_get blocks c c' x sectdict :
  fold_result add_credential_section blocks c = Ok c' ->
  Dict.get x (_sections c) = Some sectdict ->
  Dict.get x (_sections c') = Some sectdict.
Proof.
  revert c. induction blocks as [| b blocks IH]; intros c H Hx.
  - injection H as <-. exact Hx.
  - cbn [fold_result rbind] in H.
    destruct (add_credential_section c b) as [c1 |] eqn:E; [| discriminate].
    apply (IH c1 H). apply add_credential_section_sections in E.
    destruct E as (opts & E & _). rewrite E. apply dict_get_app_l. exact Hx.
Qed.

Section FileFacts.

Variable parse_config : string -> result ConfigParser.

Lemma read_config_fs config_file fs :
  snd (read_config parse_config config_file fs) = fs.
Proof. unfold read_config. destruct (Dict.get config_file fs); reflexivity. Qed.

(** [new_config_file] reads, changes the configuration in memory and
    writes it back at the end; an exception leaves the file store as it
    was. *)
Lemma new_config_file_run config_file field_name additional_content config_args
  temp_path fs :
  new_config_file parse_config config_file field_name additional_content
    config_args temp_path fs
  = match fst (read_config parse_config config_file fs) with
    | Ok config0 =>
        match mutate_config config0 field_name additional_content config_args
                temp_path with
        | Ok config => (Ok tt, Dict.set config_file (Configparser.write config) fs)
        | Raise e => (Raise e, fs)
        end
    | Raise e => (Raise e, fs)
    end.
Proof.
  unfold new_config_file, bind, lift, write_file.
  pose proof (read_config_fs config_file fs) as Hfs.
  destruct (read_config parse_config config_file fs) as [[c0 | e] fs0];
    cbn [fst snd] in *; subst fs0; [| reflexivity].
  destruct (mutate_config c0 _ _ _ _); reflexivity.
Qed.


(** C4, as the code has it. A file that [update_config_file] rewrites gets,
    when its path as [glob] returns it contains [lnsp], [zs] or [sfc], in
    the name of the file or in the name of a directory, the options [year],
    [month] and [day = all] in its selection section and no other option of
    that section is touched, the date-range field included; any other file
    gets the option [field_name] with the value [<first_day>/to/<last_day>],
    both dates as [YYYY-MM-DD]. *)
Theorem selection_fields_written files_to_update field_name additional_content
  config_args temp_path filename fs fs' :
  existsb (fun chunk => Str.contains chunk filename) files_to_update = true ->
  Datetime.valid_date (ConfigArgs.first_day config_args) ->
  Datetime.valid_date (ConfigArgs.last_day config_args) ->
  update_one_file parse_config files_to_update field_name additional_content
    config_args temp_path filename fs = (Ok tt, fs') ->
  exists config0 config sel0 sel,
    read_config parse_config filename fs = (Ok config0, fs)
    /\ Dict.get filename fs' = Some (Configparser.write config)
    /\ Dict.get "selection" (_sections config0) = Some sel0
    /\ Dict.get "selection" (_sections config) = Some sel
    /\ if Str.contains "lnsp" filename || Str.contains "zs" filename
          || Str.contains "sfc" filename
       then
         Configparser.get config "selection" "year"
         = Ok (ConfigArgs.sl_year config_args)
         /\ Configparser.get config "selection" "month"
            = Ok (ConfigArgs.sl_month config_args)
         /\ Configparser.get config "selection" "day" = Ok "all"
         /\ (forall k, k <> "year" -> k <> "month" -> k <> "day" ->
                       Dict.get k sel = Dict.get k sel0)
       else
         Configparser.get config "selection" field_name
         = Ok (Datetime.isoformat (ConfigArgs.first_day config_args) ++ "/to/"
               ++ Datetime.isoformat (ConfigArgs.last_day config_args))
         /\ Datetime.isoformat (ConfigArgs.first_day config_args)
            = Str.fixed_digits 4 (year (ConfigArgs.first_day config_args)) ++ "-"
              ++ Str.fixed_digits 2 (month (ConfigArgs.first_day config_args))
              ++ "-" ++ Str.fixed_digits 2 (day (ConfigArgs.first_day config_args))
         /\ Datetime.isoformat (ConfigArgs.last_day config_args)
            = Str.fixed_digits 4 (year (ConfigArgs.last_day config_args)) ++ "-"
              ++ Str.fixed_digits 2 (month (ConfigArgs.last_day config_args))
              ++ "-" ++ Str.fixed_digits 2 (day (ConfigArgs.last_day config_args))
         /\ (forall k, k <> Configparser.optionxform field_name ->
                       Dict.get k sel = Dict.get k sel0).
Proof.
  intros Hel Hvf Hvl Hrun. unfold update_one_file in Hrun. rewrite Hel in Hrun.
  cbn [ConfigArgs.first_day ConfigArgs.last_day ConfigArgs.sl_year
       ConfigArgs.sl_month] in Hrun.
  rewrite new_config_file_run in Hrun.
  pose proof (read_config_fs filename fs) as Hfs.
  destruct (read_config parse_config filename fs) as [[config0 | e] fs0];
    cbn [fst snd] in *; subst fs0; [| discriminate].
  destruct (mutate_config config0 _ _ _ _) as [config |] eqn:Em; [| discriminate].
  injection Hrun as <-.
  unfold mutate_config in Em.
  destruct (set_target_path config0 temp_path) as [c1 |] eqn:E1; [| discriminate].
  cbn [rbind] in Em.
  destruct (set_selection c1 field_name _) as [c2 |] eqn:E2; [| discriminate].
  cbn [rbind] in Em. unfold add_credential_sections in Em.
  apply set_selection_inv in E2. destruct E2 as (sel0 & H0 & H2).
  rewrite (set_target_path_other_section _ _ _ "selection" E1) in H0
    by discriminate.
  pose proof (add_credential_sections_get _ _ _ _ _ Em H2) as Hsel.
  exists config0, config, sel0. eexists.
  split; [reflexivity |]. split; [apply dict_get_set_same |].
  split; [exact H0 |]. split; [exact Hsel |].
  destruct (Str.contains "lnsp" filename || Str.contains "zs" filename
            || Str.contains "sfc" filename);
    cbn [ConfigArgs.year_wise_date ConfigArgs.first_day ConfigArgs.last_day
         ConfigArgs.sl_year ConfigArgs.sl_month] in *.
  - split; [| split; [| split]].
    + apply (get_own_value _ _ _ _ _ Hsel).
      change (Configparser.optionxform "year") with "year".
      rewrite !dict_get_set_other by discriminate. apply dict_get_set_same.
    + apply (get_own_value _ _ _ _ _ Hsel).
      change (Configparser.optionxform "month") with "month".
      rewrite dict_get_set_other by discriminate. apply dict_get_set_same.
    + apply (get_own_value _ _ _ _ _ Hsel).
      change (Configparser.optionxform "day") with "day".
      apply dict_get_set_same.
    + intros k Hy Hm Hd. rewrite !dict_get_set_other by assumption. reflexivity.
  - split; [| split; [| split]].
    + apply (get_own_value _ _ _ _ _ Hsel). apply dict_get_set_same.
    + apply isoformat_fixed. exact Hvf.
    + apply isoformat_fixed. exact Hvl.
    + intros k Hk. apply dict_get_set_other. exact Hk.
Qed.

(** [new_config_file] writes no file but [config_file]. *)
Lemma new_config_file_frame config_file field_name additional_content config_args
  temp_path fs path :
  path <> config_file ->
  Dict.get path
    (snd (new_config_file parse_config config_file field_name additional_content
            config_args temp_path fs))
  = Dict.get path fs.
Proof.
  intros Hne. rewrite new_config_file_run.
  destruct (fst (read_config parse_config config_file fs)); [| reflexivity].
  destruct (mutate_config _ _ _ _ _); [| reflexivity].
  cbn [snd]. apply dict_get_set_other. exact Hne.
Qed.

Lemma update_one_file_frame files_to_update field_name additional_content
  config_args temp_path filename fs path :
  existsb (fun chunk => Str.contains chunk path) files_to_update = false ->
  Dict.get path
    (snd (update_one_file parse_config files_to_update field_name
            additional_content config_args temp_path filename fs))
  = Dict.get path fs.
Proof.
  intros Hp. unfold update_one_file.
  destruct (existsb (fun chunk => Str.contains chunk filename) files_to_update)
    eqn:Ef; [| reflexivity].
  apply new_config_file_frame. intros ->. rewrite Hp in Ef. discriminate.
Qed.

Lemma for_each_frame {A} (body : A -> M unit) xs path :
  (forall x fs, Dict.get path (snd (body x fs)) = Dict.get path fs) ->
  forall fs, Dict.get path (snd (for_each xs body fs)) = Dict.get path fs.
Proof.
  intros Hbody. induction xs as [| x xs IH]; intros fs; [reflexivity |].
  cbn [for_each]. unfold bind. specialize (Hbody x fs).
  destruct (body x fs) as [[[] | e] fs1]; cbn [snd] in *.
  - rewrite IH. exact Hbody.
  - exact Hbody.
Qed.

End FileFacts.

Section DirectoryFacts.

Variables ExecTypes_ERA5 ExecTypes_ERA5T_DAILY ExecTypes_ERA5T_MONTHLY : string.
Variable parse_config : string -> result ConfigParser.
Variable glob : FS -> string -> list string.
Variable get_secret : string -> result json.

Local Notation "'FILES'" :=
  (FILES_TO_UPDATE ExecTypes_ERA5 ExecTypes_ERA5T_DAILY ExecTypes_ERA5T_MONTHLY).

(** The table [FILES_TO_UPDATE], read at the three modes. *)
Lemma FILES_TO_UPDATE_table :
  ExecTypes_ERA5 <> ExecTypes_ERA5T_DAILY ->
  ExecTypes_ERA5 <> ExecTypes_ERA5T_MONTHLY ->
  ExecTypes_ERA5T_DAILY <> ExecTypes_ERA5T_MONTHLY ->
  Dict.get ExecTypes_ERA5 FILES
  = Some ["dve"; "o3q"; "qrqs"; "tw"; "pl"; "sl"; "lnsp"; "zs"; "sfc"]
  /\ Dict.get ExecTypes_ERA5T_DAILY FILES
     = Some ["dve"; "o3q"; "qrqs"; "tw"; "pl"; "sl"]
  /\ Dict.get ExecTypes_ERA5T_MONTHLY FILES = Some ["lnsp"; "zs"; "sfc"].
Proof.
  intros H1 H2 H3. unfold FILES_TO_UPDATE, Dict.of_items.
  cbn [fold_left fst snd Dict.set].
  assert (E1 : String.eqb ExecTypes_ERA5T_DAILY ExecTypes_ERA5 = false)
    by (apply String.eqb_neq; congruence).
  assert (E2 : String.eqb ExecTypes_ERA5T_MONTHLY ExecTypes_ERA5 = false)
    by (apply String.eqb_neq; congruence).
  assert (E3 : String.eqb ExecTypes_ERA5T_MONTHLY ExecTypes_ERA5T_DAILY = false)
    by (apply String.eqb_neq; congruence).
  assert (E4 : String.eqb ExecTypes_ERA5 ExecTypes_ERA5T_DAILY = false)
    by (apply String.eqb_neq; congruence).
  assert (E5 : String.eqb ExecTypes_ERA5 ExecTypes_ERA5T_MONTHLY = false)
    by (apply String.eqb_neq; congruence).
  assert (E6 : String.eqb ExecTypes_ERA5T_DAILY ExecTypes_ERA5T_MONTHLY = false)
    by (apply String.eqb_neq; congruence).
  rewrite E1. cbn [Dict.set]. rewrite E2. cbn [Dict.set]. rewrite E3.
  cbn [Dict.set Dict.get]. rewrite !String.eqb_refl, E1, E2, E3.
  auto.
Qed.

(** C3, as the code has it. A file whose path as [glob] returns it, the
    names of the directories included, contains none of the fragments
    configured for the mode has, after [update_config_file], the text it
    had before; a path that held no file still holds none. *)
Theorem unmatched_files_untouched directory field_name mode temp_path today
  environ fs path :
  (forall files_to_update,
     Dict.get mode FILES = Some files_to_update ->
     existsb (fun chunk => Str.contains chunk path) files_to_update = false) ->
  Dict.get path
    (snd (update_config_file ExecTypes_ERA5 ExecTypes_ERA5T_DAILY
            ExecTypes_ERA5T_MONTHLY parse_config glob get_secret directory
            field_name mode temp_path today environ fs))
  = Dict.get path fs.
Proof.
  intros Hpath. unfold update_config_file, bind, lift, get_fs.
  destruct (get_previous_month_dates _ _ mode today) as [dates_data |];
    [| reflexivity].
  destruct (Dict.get mode FILES) as [files_to_update |] eqn:Ef; [| reflexivity].
  destruct (generate_additional_content get_secret environ) as [text |];
    [| reflexivity].
  apply for_each_frame. intros filename fs1.
  apply update_one_file_frame. apply Hpath. reflexivity.
Qed.

End DirectoryFacts.

(** The fragments are looked for in the whole path [glob] returns: below a
    directory named [sl] a file is rewritten though [notes.cfg] itself holds
    no fragment. *)
Lemma fragment_in_directory_counts :
  existsb (fun chunk => Str.contains chunk "notes.cfg")
    ["dve"; "o3q"; "qrqs"; "tw"; "pl"; "sl"; "lnsp"; "zs"; "sfc"] = false
  /\ Dict.get "sl/era5/notes.cfg"
       (snd (update_config_file Sample.ERA5 Sample.ERA5T_DAILY
               Sample.ERA5T_MONTHLY Sample.parse_config Sample.glob
               Sample.get_secret "sl" "date" Sample.ERA5 None Sample.today
               Sample.environ Sample.sl_files))
     <> Dict.get "sl/era5/notes.cfg" Sample.sl_files.
Proof. split; [reflexivity | vm_compute; discriminate]. Qed.

(** The three fragments are looked for in the whole path as well: below a
    directory named [zs] the file [era5_pl_hourly.cfg], whose name holds
    none of [lnsp], [zs] and [sfc], gets [year], [month] and [day] and
    keeps the range it had. *)
Lemma directory_name_selects_the_triple :
  Str.contains "lnsp" "era5_pl_hourly.cfg" || Str.contains "zs" "era5_pl_hourly.cfg"
  || Str.contains "sfc" "era5_pl_hourly.cfg" = false
  /\ existsb (fun chunk => Str.contains chunk "era5_pl_hourly.cfg")
       ["dve"; "o3q"; "qrqs"; "tw"; "pl"; "sl"; "lnsp"; "zs"; "sfc"] = true
  /\ Sample.glob Sample.zs_files "zs/*/*.cfg" = ["zs/era5/era5_pl_hourly.cfg"]
  /\ exists fs' config,
       update_config_file Sample.ERA5 Sample.ERA5T_DAILY Sample.ERA5T_MONTHLY
         Sample.parse_config Sample.glob Sample.get_secret "zs" "date"
         Sample.ERA5 None Sample.today Sample.environ Sample.zs_files
       = (Ok tt, fs')
       /\ Dict.get "zs/era5/era5_pl_hourly.cfg" fs'
          = Some (Configparser.write config)
       /\ Configparser.get config "selection" "year" = Ok "2023"
       /\ Configparser.get config "selection" "month" = Ok "12"
       /\ Configparser.get config "selection" "day" = Ok "all"
       /\ Configparser.get config "selection" "date"
          = Ok "2020-01-01/to/2020-01-31".
Proof.
  split; [reflexivity |]. split; [reflexivity |].
  split; [vm_compute; reflexivity |].
  let r := eval vm_compute in
    (update_config_file Sample.ERA5 Sample.ERA5T_DAILY Sample.ERA5T_MONTHLY
       Sample.parse_config Sample.glob Sample.get_secret "zs" "date"
       Sample.ERA5 None Sample.today Sample.environ Sample.zs_files) in
  match r with
  | (Ok tt, ?fs') =>
      let c0 := eval vm_compute in (Sample.parse_config Sample.pl_cfg) in
      match c0 with
      | Ok ?config0 =>
          let c := eval vm_compute in
            (mutate_config config0 "date" Sample.credential_text
               (ConfigArgs.mk true (mkdate 2023 12 1) (mkdate 2023 12 31)
                  "2023" "12") None) in
          match c with
          | Ok ?config =>
              exists fs', config; repeat split; vm_compute; reflexivity
          end
      end
  end.
Qed.

Lemma unmatched_files_untouched_witness :
  Dict.get "raw/era5/notes.cfg"
    (snd (update_config_file Sample.ERA5 Sample.ERA5T_DAILY Sample.ERA5T_MONTHLY
            Sample.parse_config Sample.glob Sample.get_secret "raw" "date"
            Sample.ERA5 None Sample.today Sample.environ Sample.files))
  = Some Sample.readme.
Proof.
  rewrite (unmatched_files_untouched Sample.ERA5 Sample.ERA5T_DAILY
             Sample.ERA5T_MONTHLY Sample.parse_config Sample.glob
             Sample.get_secret "raw" "date" Sample.ERA5 None Sample.today
             Sample.environ Sample.files "raw/era5/notes.cfg").
  - reflexivity.
  - intros files_to_update H. vm_compute in H. injection H as <-. reflexivity.
Defined.


Lemma selection_fields_written_witness :
  exists config,
    Dict.get Sample.sfc_path
      (snd (update_one_file Sample.parse_config ["lnsp"; "zs"; "sfc"] "date"
              Sample.credential_text Sample.config_args None Sample.sfc_path
              Sample.files))
    = Some (Configparser.write config)
    /\ Configparser.get config "selection" "year" = Ok "2023"
    /\ Configparser.get config "selection" "month" = Ok "12"
    /\ Configparser.get config "selection" "day" = Ok "all".
Proof.
  destruct (update_one_file Sample.parse_config ["lnsp"; "zs"; "sfc"] "date"
              Sample.credential_text Sample.config_args None Sample.sfc_path
              Sample.files) as [r fs'] eqn:Erun.
  assert (Hr : r = Ok tt) by (vm_compute in Erun; congruence).
  subst r.
  destruct (selection_fields_written Sample.parse_config ["lnsp"; "zs"; "sfc"]
              "date" Sample.credential_text Sample.config_args None
              Sample.sfc_path Sample.files fs')
    as (config0 & config & sel0 & sel & _ & Hw & _ & _ & Hsel).
  - reflexivity.
  - apply valid_dateb_true. reflexivity.
  - apply valid_dateb_true. reflexivity.
  - exact Erun.
  - exists config. split; [exact Hw |].
    change (Str.contains "lnsp" Sample.sfc_path || Str.contains "zs" Sample.sfc_path
            || Str.contains "sfc" Sample.sfc_path) with true in Hsel.
    destruct Hsel as (H1 & H2 & H3 & _). auto.
Defined.

(* ================================================================== *)
(** * Credential blocks *)
(* ================================================================== *)

Section GeneratedText.

Variable get_secret : string -> result json.

Lemma credential_block_body count s :
  credential_block count s = block_body count s ++ NL ++ NL.
Proof.
  unfold credential_block, block_body. rewrite !append_assoc. reflexivity.
Qed.

(** One turn of the loop, by what it reads for the key. *)
Lemma generate_loop_cons k keys count acc :
  generate_loop get_secret count (k :: keys) acc
  = (s <- get_secret_fields get_secret k ;;
     generate_loop get_secret (S count) keys
       (acc ++ credential_block count s))%result.
Proof.
  cbn [generate_loop]. unfold get_secret_fields.
  destruct (get_secret k) as [v |]; [| reflexivity]. cbn [rbind].
  destruct (getitem v "api_url") as [u |]; [| reflexivity]. cbn [rbind].
  destruct (getitem v "api_key") as [a |]; reflexivity.
Qed.

Lemma generate_loop_spec keys count acc text :
  generate_loop get_secret count keys acc = Ok text ->
  exists secrets,
    Forall2 (fun k s => get_secret_fields get_secret k = Ok s) keys secrets
    /\ text = acc ++ blocks_text count secrets.
Proof.
  revert count acc. induction keys as [| k keys IH]; intros count acc H.
  - injection H as <-. exists []. split; [constructor |].
    symmetry. apply append_nil_r.
  - rewrite generate_loop_cons in H.
    destruct (get_secret_fields get_secret k) as [s |] eqn:Es; [| discriminate].
    cbn [rbind] in H. destruct (IH _ _ H) as (secrets & HF & ->).
    exists (s :: secrets). split; [constructor; assumption |].
    cbn [blocks_text]. apply append_assoc.
Qed.

End GeneratedText.

Section BlockFacts.
Import Str.

Local Notation "'NN'" := (String (ascii_of_nat 10) (String (ascii_of_nat 10) "")).

Lemma isolated_nl_app a b :
  all_chars (fun c => negb (is_nl c)) a = true ->
  isolated_nl (a ++ b) = isolated_nl b.
Proof.
  induction a as [| c a IH]; intros H; [reflexivity |].
  cbn [all_chars] in H. apply andb_true_iff in H. destruct H as [Hc Ha].
  cbn [append isolated_nl]. apply negb_true_iff in Hc. rewrite Hc.
  cbn [andb]. apply IH. exact Ha.
Qed.

Lemma isolated_nl_plain a :
  all_chars (fun c => negb (is_nl c)) a = true -> isolated_nl a = true.
Proof.
  intros H. rewrite <- (append_nil_r a). rewrite isolated_nl_app by exact H.
  reflexivity.
Qed.

Lemma all_chars_count p c s :
  all_chars p s = true -> p c = false -> count_char c s = 0.
Proof.
  intros Hs Hc. induction s as [| d s IH]; [reflexivity |].
  cbn [all_chars] in Hs. apply andb_true_iff in Hs. destruct Hs as [Hd Hs].
  cbn [count_char]. destruct (Ascii.eqb c d) eqn:E.
  - apply Ascii.eqb_eq in E. subst d. congruence.
  - rewrite (IH Hs). reflexivity.
Qed.

Lemma plain_no_nl s : plain s = true -> all_chars (fun c => negb (is_nl c)) s = true.
Proof.
  apply all_chars_impl. intros c H. apply andb_true_iff in H. tauto.
Qed.

Lemma plain_count_nl s : plain s = true -> count_char (ascii_of_nat 10) s = 0.
Proof. intros H. apply (all_chars_count _ _ _ H). reflexivity. Qed.

Lemma plain_count_eq s : plain s = true -> count_char "=" s = 0.
Proof. intros H. apply (all_chars_count _ _ _ H). reflexivity. Qed.

(** A digit is no line break, no blank and no [=]. *)
Lemma is_digit_facts c :
  is_digit c = true ->
  is_nl c = false /\ is_space c = false /\ Ascii.eqb "=" c = false.
Proof.
  destruct c as [[] [] [] [] [] [] [] []]; vm_compute; intros H;
    try discriminate H; repeat split; reflexivity.
Qed.

Lemma digits_plain s :
  all_chars is_digit s = true ->
  plain s = true /\ all_chars (fun c => negb (is_space c)) s = true.
Proof.
  intros H. split; revert H; apply all_chars_impl; intros c Hc;
    destruct (is_digit_facts c Hc) as (H1 & H2 & H3).
  - rewrite H1, Ascii.eqb_sym, H3. reflexivity.
  - rewrite H2. reflexivity.
Qed.

Lemma license_section_name_plain count :
  plain (license_section_name count) = true
  /\ all_chars (fun c => negb (is_space c)) (license_section_name count) = true.
Proof.
  unfold license_section_name, plain.
  destruct (digits_plain _ (of_int_all_digits count)) as [H1 H2].
  unfold plain in H1. rewrite !all_chars_app, H1, H2. split; reflexivity.
Qed.

Lemma license_section_name_inj i j :
  license_section_name i = license_section_name j -> i = j.
Proof.
  unfold license_section_name. intros H. apply of_int_inj.
  cbn [append] in H. congruence.
Qed.

Lemma license_section_name_not_special count :
  String.eqb (license_section_name count) "" = false
  /\ license_section_name count <> Configparser.DEFAULTSECT.
Proof. split; [reflexivity | discriminate]. Qed.

(** The three lines of a block whose values hold no line break. *)
Lemma split_block_lines_nl count s :
  count_char (ascii_of_nat 10) (api_url s) = 0 ->
  count_char (ascii_of_nat 10) (api_key s) = 0 ->
  split NL (block_body count s)
  = [license_section_name count; "            api_url=" ++ api_url s;
     "api_key=" ++ api_key s].
Proof.
  intros Hu Hk.
  destruct (license_section_name_plain count) as [Hn _].
  unfold split, block_body, NL.
  change ("parameters.api" ++ of_int (Z.of_nat count)
          ++ String (ascii_of_nat 10) ""
          ++ "            api_url=" ++ api_url s ++ String (ascii_of_nat 10) ""
          ++ "api_key=" ++ api_key s)
    with ("parameters.api" ++ of_int (Z.of_nat count)
          ++ String (ascii_of_nat 10)
               ("            api_url=" ++ api_url s
                ++ String (ascii_of_nat 10) ("api_key=" ++ api_key s))).
  rewrite <- append_assoc. fold (license_section_name count).
  rewrite split_go_single_cut by (apply plain_count_nl; exact Hn).
  rewrite <- (append_assoc "            api_url=").
  rewrite split_go_single_cut by (rewrite count_char_app, Hu; reflexivity).
  rewrite split_go_single_none by (rewrite count_char_app, Hk; reflexivity).
  reflexivity.
Qed.

Lemma split_block_lines count s :
  plain_secret s = true ->
  split NL (block_body count s)
  = [license_section_name count; "            api_url=" ++ api_url s;
     "api_key=" ++ api_key s].
Proof.
  intros Hs. apply andb_true_iff in Hs. destruct Hs as [Hu Hk].
  apply split_block_lines_nl; apply plain_count_nl; assumption.
Qed.

Lemma split_option_line name value :
  count_char "=" name = 0 -> count_char "=" value = 0 ->
  split "=" (name ++ "=" ++ value) = [name; value].
Proof.
  intros Hn Hv. unfold split.
  change (name ++ "=" ++ value) with (name ++ String "=" value).
  rewrite split_go_single_cut by exact Hn.
  rewrite split_go_single_none by exact Hv.
  reflexivity.
Qed.

(** Every line break of a block stands alone. *)
Lemma block_body_isolated count s :
  plain_secret s = true -> isolated_nl (block_body count s) = true.
Proof.
  intros Hs. apply andb_true_iff in Hs. destruct Hs as [Hu Hk].
  destruct (license_section_name_plain count) as [Hn _].
  unfold block_body, NL.
  rewrite <- append_assoc. fold (license_section_name count).
  rewrite isolated_nl_app by (apply plain_no_nl; exact Hn).
  change (String (ascii_of_nat 10) ""
          ++ "            api_url=" ++ api_url s ++ String (ascii_of_nat 10) ""
          ++ "api_key=" ++ api_key s)
    with (String (ascii_of_nat 10)
            (String " " ("           api_url=" ++ api_url s
                         ++ String (ascii_of_nat 10)
                              (String "a" ("pi_key=" ++ api_key s))))).
  cbn [isolated_nl]. change (is_nl (ascii_of_nat 10)) with true.
  change (is_nl " ") with false. cbn [negb andb].
  rewrite isolated_nl_app by reflexivity.
  rewrite isolated_nl_app by (apply plain_no_nl; exact Hu).
  cbn [isolated_nl]. change (is_nl (ascii_of_nat 10)) with true.
  change (is_nl "a") with false. cbn [negb andb].
  rewrite isolated_nl_app by reflexivity.
  apply isolated_nl_plain, plain_no_nl. exact Hk.
Qed.

Lemma count_zero_no_nl s :
  count_char (ascii_of_nat 10) s = 0 ->
  all_chars (fun c => negb (is_nl c)) s = true.
Proof.
  induction s as [| c s IH]; [reflexivity |].
  cbn [count_char all_chars]. unfold is_nl at 1.
  rewrite (Ascii.eqb_sym c). destruct (Ascii.eqb (ascii_of_nat 10) c).
  - discriminate.
  - intros H. cbn [negb andb]. apply IH. exact H.
Qed.

Lemma plain_of_counts s :
  count_char (ascii_of_nat 10) s = 0 -> count_char "=" s = 0 -> plain s = true.
Proof.
  unfold plain. induction s as [| c s IH]; [reflexivity |].
  cbn [count_char all_chars]. unfold is_nl at 1.
  rewrite (Ascii.eqb_sym c (ascii_of_nat 10)), (Ascii.eqb_sym c "=").
  destruct (Ascii.eqb (ascii_of_nat 10) c); [discriminate |].
  destruct (Ascii.eqb "=" c); [discriminate |].
  intros H1 H2. cbn [negb andb]. apply IH; assumption.
Qed.

(** A block whose values hold no line break has its line breaks alone. *)
Lemma block_body_isolated_lines count s :
  count_char (ascii_of_nat 10) (api_url s) = 0 ->
  count_char (ascii_of_nat 10) (api_key s) = 0 ->
  isolated_nl (block_body count s) = true.
Proof.
  intros Hu Hk. apply count_zero_no_nl in Hu, Hk.
  destruct (license_section_name_plain count) as [Hn _].
  unfold block_body, NL.
  rewrite <- append_assoc. fold (license_section_name count).
  rewrite isolated_nl_app by (apply plain_no_nl; exact Hn).
  change (String (ascii_of_nat 10) ""
          ++ "            api_url=" ++ api_url s ++ String (ascii_of_nat 10) ""
          ++ "api_key=" ++ api_key s)
    with (String (ascii_of_nat 10)
            (String " " ("           api_url=" ++ api_url s
                         ++ String (ascii_of_nat 10)
                              (String "a" ("pi_key=" ++ api_key s))))).
  cbn [isolated_nl]. change (is_nl (ascii_of_nat 10)) with true.
  change (is_nl " ") with false. cbn [negb andb].
  rewrite isolated_nl_app by reflexivity.
  rewrite isolated_nl_app by exact Hu.
  cbn [isolated_nl]. change (is_nl (ascii_of_nat 10)) with true.
  change (is_nl "a") with false. cbn [negb andb].
  rewrite isolated_nl_app by reflexivity.
  apply isolated_nl_plain. exact Hk.
Qed.

(** The lines of a block: three, and one more for every line break in a
    value. *)
Lemma block_lines_length count s :
  List.length (split NL (block_body count s))
  = 3 + count_char (ascii_of_nat 10) (api_url s)
    + count_char (ascii_of_nat 10) (api_key s).
Proof.
  unfold NL at 1. rewrite split_single_length.
  unfold block_body. rewrite <- append_assoc. fold (license_section_name count).
  rewrite !count_char_app.
  rewrite (plain_count_nl _ (proj1 (license_section_name_plain count))).
  change (count_char (ascii_of_nat 10) NL) with 1.
  change (count_char (ascii_of_nat 10) "            api_url=") with 0.
  change (count_char (ascii_of_nat 10) "api_key=") with 0. lia.
Qed.

Lemma entries_from_cons count s secrets :
  entries_from count (s :: secrets) = (count, s) :: entries_from (S count) secrets.
Proof. reflexivity. Qed.

Lemma entries_from_length count secrets :
  List.length (entries_from count secrets) = List.length secrets.
Proof.
  unfold entries_from. rewrite length_combine, length_seq. apply Nat.min_id.
Qed.

(** The generated text, cut at its blank lines: the blocks, then the empty
    piece after the last blank line. *)
Lemma split_blocks_text secrets count :
  Forall (fun s => plain_secret s = true) secrets ->
  split (NL ++ NL) (blocks_text count secrets)
  = (map entry_body (entries_from count secrets) ++ [""])%list.
Proof.
  rewrite NL_NL. revert count.
  induction secrets as [| s secrets IH]; intros count H; [reflexivity |].
  inversion H as [| ? ? Hs Hrest]; subst.
  cbn [blocks_text]. rewrite credential_block_body, NL_NL, append_assoc.
  unfold split in *. rewrite split_go_block by (apply block_body_isolated; exact Hs).
  cbn [fst snd]. rewrite (IH (S count) Hrest).
  rewrite entries_from_cons. reflexivity.
Qed.

Lemma split_blocks_text_lines secrets count :
  Forall (fun s => count_char (ascii_of_nat 10) (api_url s) = 0
                   /\ count_char (ascii_of_nat 10) (api_key s) = 0) secrets ->
  split (NL ++ NL) (blocks_text count secrets)
  = (map entry_body (entries_from count secrets) ++ [""])%list.
Proof.
  rewrite NL_NL. revert count.
  induction secrets as [| s secrets IH]; intros count H; [reflexivity |].
  inversion H as [| ? ? [Hu Hk] Hrest]; subst.
  cbn [blocks_text]. rewrite credential_block_body, NL_NL, append_assoc.
  unfold split in *.
  rewrite split_go_block by (apply block_body_isolated_lines; assumption).
  cbn [fst snd]. rewrite (IH (S count) Hrest).
  rewrite entries_from_cons. reflexivity.
Qed.

(** A block made from a plain secret is appended as a section of its own. *)
Lemma add_credential_section_block c count s :
  plain_secret s = true ->
  Configparser.has_section c (license_section_name count) = false ->
  add_credential_section c (block_body count s)
  = Ok (mkConfig (_defaults c) (_sections c ++ [credential_section (count, s)])).
Proof.
  intros Hs Hnew. pose proof Hs as Hs'.
  apply andb_true_iff in Hs'. destruct Hs' as [Hu Hk].
  destruct (license_section_name_plain count) as [_ Hsp].
  destruct (license_section_name_not_special count) as [He Hd].
  unfold add_credential_section. rewrite (split_block_lines count s Hs).
  cbn [nth nth_error]. rewrite (strip_no_space _ Hsp).
  rewrite (add_section_ok _ _ Hd Hnew). cbn [rbind].
  change ("            api_url=" ++ api_url s)
    with ("            api_url" ++ "=" ++ api_url s).
  rewrite (split_option_line "            api_url" _ eq_refl (plain_count_eq _ Hu)).
  rewrite set_last_section by exact Hnew.
  apply String.eqb_neq in Hd. rewrite He, Hd. cbn [orb rbind].
  change ("api_key=" ++ api_key s) with ("api_key" ++ "=" ++ api_key s).
  rewrite (split_option_line "api_key" _ eq_refl (plain_count_eq _ Hk)).
  rewrite set_last_section by exact Hnew. rewrite He, Hd. cbn [orb].
  reflexivity.
Qed.

Lemma add_credential_sections_blocks secrets count c :
  Forall (fun s => plain_secret s = true) secrets ->
  (forall i, count <= i < count + List.length secrets ->
             Configparser.has_section c (license_section_name i) = false) ->
  fold_result add_credential_section (map entry_body (entries_from count secrets)) c
  = Ok (mkConfig (_defaults c)
          (_sections c ++ map credential_section (entries_from count secrets))).
Proof.
  revert count c. induction secrets as [| s secrets IH]; intros count c H Hnew.
  - cbn. rewrite app_nil_r. destruct c; reflexivity.
  - inversion H as [| ? ? Hs Hrest]; subst.
    rewrite entries_from_cons. cbn [map fold_result].
    unfold entry_body at 1. cbn [fst snd].
    rewrite (add_credential_section_block c count s Hs)
      by (apply Hnew; cbn [List.length]; lia).
    cbn [rbind]. rewrite (IH (S count)); [| exact Hrest |].
    + cbn [_defaults _sections]. rewrite <- app_assoc. reflexivity.
    + intros i Hi. unfold Configparser.has_section. cbn [_sections].
      rewrite dict_mem_app. unfold Configparser.has_section in Hnew.
      rewrite Hnew by (cbn [List.length]; lia). cbn [orb].
      unfold credential_section. cbn [fst snd]. rewrite dict_mem_cons.
      cbn [Dict.mem Dict.keys map existsb]. rewrite orb_false_r.
      apply String.eqb_neq. intros E. apply license_section_name_inj in E. lia.
Qed.

End BlockFacts.

Section CredentialText.

Variable get_secret : string -> result json.

Lemma nth_error_entries secrets i secret :
  nth_error secrets i = Some secret ->
  nth_error (map entry_body (entries_from 0 secrets) ++ [""])%list i
  = Some (block_body i secret).
Proof.
  intros Hi.
  assert (Hlt : i < List.length secrets) by (apply nth_error_Some; congruence).
  rewrite nth_error_app1 by (rewrite length_map, entries_from_length; exact Hlt).
  rewrite nth_error_map. unfold entries_from.
  rewrite (nth_error_nth' _ (0, secret))
    by (rewrite length_combine, length_seq; lia).
  rewrite combine_nth by apply length_seq.
  rewrite seq_nth by exact Hlt.
  rewrite (nth_error_nth _ _ secret Hi). reflexivity.
Qed.

Lemma credential_section_names secrets count :
  map fst (map credential_section (entries_from count secrets))
  = map license_section_name (seq count (List.length secrets)).
Proof.
  revert count. induction secrets as [| s secrets IH]; intros count;
    [reflexivity |].
  rewrite entries_from_cons. cbn [map List.length seq fst credential_section].
  now rewrite IH.
Qed.

(** C5, as the code has it. The text generated for the [N] matching
    variables is the [N] blocks of their secrets one after the other, and
    a block has three lines and one more for every line break in its
    values.  When no value holds a line break, the text cut at its blank
    lines gives the [N] blocks and one empty last piece, and block [i] has
    the lines [parameters.api<i>], [api_url=...] (behind twelve blanks)
    and [api_key=...].  When moreover no value holds [=], the text
    appended to a configuration that has none of the sections
    [parameters.api0] to [parameters.api<N-1>] adds exactly these [N]
    sections, after the sections that were there. *)
Theorem credential_text_blocks environ additional_content :
  generate_additional_content get_secret environ = Ok additional_content ->
  exists secrets,
    Forall2 (fun secret_key secret =>
               get_secret_fields get_secret secret_key = Ok secret)
      (get_api_keys environ) secrets
    /\ List.length secrets = List.length (get_api_keys environ)
    /\ additional_content = blocks_text 0 secrets
    /\ (forall i secret,
          nth_error secrets i = Some secret ->
          List.length (Str.split NL (block_body i secret))
          = 3 + Str.count_char (ascii_of_nat 10) (api_url secret)
            + Str.count_char (ascii_of_nat 10) (api_key secret))
    /\ (Forall (fun secret =>
                  Str.count_char (ascii_of_nat 10) (api_url secret) = 0
                  /\ Str.count_char (ascii_of_nat 10) (api_key secret) = 0)
          secrets ->
        Str.split (NL ++ NL) additional_content
        = (map entry_body (entries_from 0 secrets) ++ [""])%list
        /\ List.length (Str.split (NL ++ NL) additional_content)
           = List.length (get_api_keys environ) + 1
        /\ last (Str.split (NL ++ NL) additional_content) "-" = ""
        /\ (forall i secret,
              nth_error secrets i = Some secret ->
              nth_error (Str.split (NL ++ NL) additional_content) i
              = Some (block_body i secret)
              /\ Str.split NL (block_body i secret)
                 = [license_section_name i;
                    "            api_url=" ++ api_url secret;
                    "api_key=" ++ api_key secret])
        /\ (forall config,
              Forall (fun secret =>
                        Str.count_char "=" (api_url secret) = 0
                        /\ Str.count_char "=" (api_key secret) = 0) secrets ->
              (forall i, i < List.length (get_api_keys environ) ->
                 Configparser.has_section config (license_section_name i)
                 = false) ->
              exists config',
                add_credential_sections config additional_content = Ok config'
                /\ _defaults config' = _defaults config
                /\ Configparser.sections config'
                   = (Configparser.sections config
                      ++ map license_section_name
                           (seq 0 (List.length (get_api_keys environ))))%list
                /\ List.length (Configparser.sections config')
                   = List.length (Configparser.sections config)
                     + List.length (get_api_keys environ))).
Proof.
  intros Hgen. unfold generate_additional_content in Hgen.
  destruct (generate_loop_spec get_secret _ _ _ _ Hgen) as (secrets & HF & ->).
  change ("" ++ blocks_text 0 secrets) with (blocks_text 0 secrets).
  assert (Hlen : List.length secrets = List.length (get_api_keys environ))
    by (symmetry; eapply Forall2_length; eauto).
  exists secrets. split; [exact HF |]. split; [exact Hlen |].
  split; [reflexivity |].
  split; [intros i secret _; apply block_lines_length |].
  intros Hnl. pose proof (split_blocks_text_lines secrets 0 Hnl) as Hsplit.
  split; [exact Hsplit |]. rewrite Hsplit.
  split; [rewrite length_app, length_map, entries_from_length; cbn; lia |].
  split; [apply last_last |]. split.
  - intros i secret Hi. split; [now apply nth_error_entries |].
    assert (Hin : In secret secrets) by (eapply nth_error_In; eauto).
    rewrite Forall_forall in Hnl. destruct (Hnl secret Hin) as [Hu Hk].
    now apply split_block_lines_nl.
  - intros config Heq Hnew. unfold add_credential_sections.
    rewrite Hsplit, removelast_last.
    assert (Hall : Forall (fun s => plain_secret s = true) secrets).
    { rewrite Forall_forall in *. intros secret Hin.
      destruct (Hnl secret Hin) as [Hu Hk]. destruct (Heq secret Hin) as [Eu Ek].
      unfold plain_secret. now rewrite !plain_of_counts. }
    rewrite (add_credential_sections_blocks secrets 0 config Hall)
      by (intros i Hi; apply Hnew; lia).
    eexists. split; [reflexivity |]. cbn [_defaults].
    split; [reflexivity |].
    unfold Configparser.sections, Dict.keys. cbn [_sections].
    rewrite map_app, credential_section_names, Hlen.
    split; [reflexivity |].
    rewrite length_app, !length_map, length_seq. reflexivity.
Qed.

End CredentialText.

(** The three ways a secret or a file keeps the text from being appended
    as [N] sections.  A key that ends in [==]: the text has its two pieces
    and its block has its three lines, and appending it raises
    [ValueError].  A key with a line break after it: the last piece of the
    text is not empty and the block has four lines.  A file that has the
    section [parameters.api0]:
    appending raises [DuplicateSectionError]. *)
Lemma credential_text_not_always_appended :
  (List.length (get_api_keys Sample.padded_environ) = 1
   /\ generate_additional_content Sample.get_secret Sample.padded_environ
      = Ok Sample.padded_text
   /\ List.length (Str.split (NL ++ NL) Sample.padded_text) = 2
   /\ last (Str.split (NL ++ NL) Sample.padded_text) "-" = ""
   /\ List.length (Str.split NL (block_body 0 Sample.padded_secret)) = 3
   /\ add_credential_sections Configparser.empty Sample.padded_text
      = Raise ValueError
   /\ new_config_file Sample.parse_config Sample.pl_path "date"
        Sample.padded_text Sample.config_args None Sample.files
      = (Raise ValueError, Sample.files))
  /\ (List.length (get_api_keys Sample.newline_environ) = 1
      /\ generate_additional_content Sample.get_secret Sample.newline_environ
         = Ok Sample.newline_text
      /\ last (Str.split (NL ++ NL) Sample.newline_text) "-" = NL
      /\ List.length (Str.split NL (block_body 0 Sample.newline_secret)) = 4)
  /\ (List.length (get_api_keys Sample.environ) = 2
      /\ generate_additional_content Sample.get_secret Sample.environ
         = Ok Sample.credential_text
      /\ add_credential_sections
           (mkConfig [] [("parameters.api0", [("api_key", "old")])])
           Sample.credential_text
         = Raise (DuplicateSectionError "parameters.api0")).
Proof. vm_compute. repeat split; reflexivity. Qed.

Lemma credential_text_blocks_witness :
  List.length (Str.split (NL ++ NL) Sample.credential_text)
  = List.length (get_api_keys Sample.environ) + 1
  /\ last (Str.split (NL ++ NL) Sample.credential_text) "-" = ""
  /\ exists config',
       add_credential_sections Configparser.empty Sample.credential_text
       = Ok config'
       /\ Configparser.sections config' = ["parameters.api0"; "parameters.api1"].
Proof.
  destruct (credential_text_blocks Sample.get_secret Sample.environ
              Sample.credential_text)
    as (secrets & HF & _ & Htext & _ & H).
  - vm_compute. reflexivity.
  - assert (Hs : secrets = [Sample.secret0; Sample.secret1]).
    { change (get_api_keys Sample.environ)
        with ["projects/p/secrets/cds0"; "projects/p/secrets/cds1"] in HF.
      inversion HF as [| k0 s0 l0 l0' H0 HF0]; subst.
      inversion HF0 as [| k1 s1 l1 l1' H1 HF1]; subst.
      inversion HF1; subst.
      vm_compute in H0, H1. injection H0 as <-. injection H1 as <-.
      reflexivity. }
    subst secrets.
    destruct H as (_ & Hlen & Hlast & _ & Happ);
      [repeat constructor |].
    split; [exact Hlen |]. split; [exact Hlast |].
    destruct (Happ Configparser.empty) as (config' & Hadd & _ & Hsec & _);
      [repeat constructor | intros i _; reflexivity |].
    exists config'. split; [exact Hadd | exact Hsec].
Defined.

(* ================================================================== *)
(** * Injecting and stripping *)
(* ================================================================== *)

Section RoundTrip.

Lemma fold_del_app {V} names (l l' : list (string * V)) :
  fold_left (fun d k => Dict.del k d) names (l ++ l')%list
  = (fold_left (fun d k => Dict.del k d) names l
     ++ fold_left (fun d k => Dict.del k d) names l')%list.
Proof.
  revert l l'. induction names as [| k names IH]; intros l l'; [reflexivity |].
  cbn [fold_left]. rewrite dict_del_app. apply IH.
Qed.

Lemma fold_del_absent {V} names (l : list (string * V)) :
  (forall k, In k names -> Dict.mem k l = false) ->
  fold_left (fun d k => Dict.del k d) names l = l.
Proof.
  induction names as [| k names IH]; intros H; [reflexivity |].
  cbn [fold_left]. rewrite dict_del_absent by (apply H; left; reflexivity).
  apply IH. intros k' Hk'. apply H. right. exact Hk'.
Qed.

Lemma fold_del_all {V} names (l : list (string * V)) :
  (forall k, In k (Dict.keys l) -> In k names) ->
  fold_left (fun d k => Dict.del k d) names l = [].
Proof.
  revert l. induction names as [| k names IH]; intros l H.
  - destruct l as [| [k v] l]; [reflexivity |].
    destruct (H k); left; reflexivity.
  - cbn [fold_left]. apply IH. intros k' Hk'.
    unfold Dict.keys, Dict.del in Hk'. apply in_map_iff in Hk'.
    destruct Hk' as ([k0 v0] & <- & Hin). apply filter_In in Hin.
    destruct Hin as [Hin Hne]. cbn [fst] in *.
    apply negb_true_iff, String.eqb_neq in Hne.
    destruct (H k0) as [-> | Hk0]; [| contradiction | exact Hk0].
    apply in_map_iff. exists (k0, v0). auto.
Qed.

Lemma remove_sections_fold numbers c :
  fold_left (fun config license_number =>
               Configparser.remove_section config
                 (license_section_name license_number)) numbers c
  = mkConfig (_defaults c)
      (fold_left (fun d k => Dict.del k d) (map license_section_name numbers)
         (_sections c)).
Proof.
  revert c. induction numbers as [| i numbers IH]; intros c.
  - destruct c; reflexivity.
  - cbn [fold_left map]. rewrite IH. reflexivity.
Qed.

(** What the loop over the blocks added, when no block had an empty name. *)
Lemma add_credential_sections_added blocks c c' :
  fold_result add_credential_section blocks c = Ok c' ->
  (forall b, In b blocks -> block_section_name b <> "") ->
  _defaults c' = _defaults c
  /\ (forall b, In b blocks ->
                Dict.mem (block_section_name b) (_sections c) = false)
  /\ exists added,
       _sections c' = (_sections c ++ added)%list
       /\ Dict.keys added = map block_section_name blocks.
Proof.
  revert c. induction blocks as [| b blocks IH]; intros c H Hne.
  - injection H as <-. split; [reflexivity |]. split; [intros b [] |].
    exists []. split; [symmetry; apply app_nil_r | reflexivity].
  - cbn [fold_result rbind] in H.
    destruct (add_credential_section c b) as [c1 |] eqn:E; [| discriminate].
    apply add_credential_section_sections in E.
    destruct E as (opts & Es & Hnew & Hd).
    destruct (IH c1 H) as (Hd' & Hmem & added & Ea & Ek);
      [intros b' Hb'; apply Hne; right; exact Hb' |].
    split; [rewrite Hd'; apply Hd, Hne; left; reflexivity |].
    split.
    + intros b' [<- | Hb']; [exact Hnew |].
      specialize (Hmem b' Hb'). rewrite Es, dict_mem_app in Hmem.
      apply orb_false_iff in Hmem. tauto.
    + exists ((block_section_name b, opts) :: added).
      rewrite Ea, Es, <- app_assoc. split; [reflexivity |].
      unfold Dict.keys in *. cbn [map fst]. rewrite Ek. reflexivity.
Qed.

(** Removing the sections a loop of [add_credential_section] added gives
    back the configuration the loop started from. *)
Lemma add_then_remove_sections blocks numbers c c' :
  fold_result add_credential_section blocks c = Ok c' ->
  map block_section_name blocks = map license_section_name numbers ->
  fold_left (fun config license_number =>
               Configparser.remove_section config
                 (license_section_name license_number)) numbers c' = c
  /\ (forall i, In i numbers ->
        Configparser.has_section c (license_section_name i) = false).
Proof.
  intros Hadd Hnames.
  assert (Hne : forall b, In b blocks -> block_section_name b <> "").
  { intros b Hb E.
    assert (Hin : In (block_section_name b) (map license_section_name numbers))
      by (rewrite <- Hnames; apply in_map; exact Hb).
    apply in_map_iff in Hin. destruct Hin as (i & Ei & _).
    rewrite E in Ei. discriminate Ei. }
  destruct (add_credential_sections_added blocks c c' Hadd Hne)
    as (Hd & Hmem & added & Ea & Ek).
  split.
  - rewrite remove_sections_fold, Ea, Hd.
    rewrite fold_del_app, fold_del_absent, fold_del_all.
    + rewrite app_nil_r. destruct c; reflexivity.
    + intros k Hk. rewrite Ek, Hnames in Hk. exact Hk.
    + intros k Hk. rewrite <- Hnames in Hk. apply in_map_iff in Hk.
      destruct Hk as (b & <- & Hb). apply Hmem. exact Hb.
  - intros i Hi.
    assert (Hin : In (license_section_name i) (map block_section_name blocks))
      by (rewrite Hnames; apply in_map; exact Hi).
    apply in_map_iff in Hin. destruct Hin as (b & Eb & Hb).
    rewrite <- Eb. apply Hmem. exact Hb.
Qed.

End RoundTrip.

(* ================================================================== *)
(** * Further facts on the two directions *)
(* ================================================================== *)

(** A list with more than two pieces cannot be unpacked into two names. *)
Lemma split_many_pieces line :
  Str.count_char "=" line <> 1 ->
  forall A (k : string -> string -> result A),
    match Str.split "=" line with
    | [a; b] => k a b
    | _ => Raise ValueError
    end = Raise ValueError.
Proof.
  intros Hc A k. pose proof (split_single_length "=" line) as L.
  destruct (Str.split "=" line) as [| a [| b [| c l]]]; try reflexivity.
  cbn [List.length] in L. congruence.
Qed.

(** Every secret with an [=] in one of its values stops the loop with
    [ValueError]. *)
Lemma equals_in_secret_raises c count s :
  Str.count_char (ascii_of_nat 10) (api_url s) = 0 ->
  Str.count_char (ascii_of_nat 10) (api_key s) = 0 ->
  Configparser.has_section c (license_section_name count) = false ->
  Str.count_char "=" (api_url s) + Str.count_char "=" (api_key s) <> 0 ->
  add_credential_section c (block_body count s) = Raise ValueError.
Proof.
  intros Hu Hk Hnew Heq.
  destruct (license_section_name_plain count) as [_ Hsp].
  destruct (license_section_name_not_special count) as [He Hd].
  unfold add_credential_section. rewrite (split_block_lines_nl count s Hu Hk).
  cbn [nth nth_error]. rewrite (strip_no_space _ Hsp).
  rewrite (add_section_ok _ _ Hd Hnew). cbn [rbind].
  destruct (Nat.eq_dec (Str.count_char "=" (api_url s)) 0) as [Hu0 | Hu0].
  - change ("            api_url=" ++ api_url s)
      with ("            api_url" ++ "=" ++ api_url s).
    rewrite (split_option_line "            api_url" _ eq_refl Hu0).
    rewrite set_last_section by exact Hnew. cbn [rbind].
    apply split_many_pieces. rewrite count_char_app.
    change (Str.count_char "=" "api_key=") with 1. lia.
  - apply split_many_pieces. rewrite count_char_app.
    change (Str.count_char "=" "            api_url=") with 1. lia.
Qed.

(** C10. The loop that appends the credential sections ends well only if in
    every block the second and the third line hold exactly one [=]; a block
    generated from a secret with an [=] in its URL or key raises
    [ValueError]; and for a key that ends in [==] [new_config_file] raises
    [ValueError] and the file is not written. *)
Theorem credential_lines_need_one_equals :
  (forall config additional_content config' section,
     add_credential_sections config additional_content = Ok config' ->
     In section (removelast (Str.split (NL ++ NL) additional_content)) ->
     exists line1 line2,
       nth_error (Str.split NL section) 1 = Some line1
       /\ nth_error (Str.split NL section) 2 = Some line2
       /\ Str.count_char "=" line1 = 1 /\ Str.count_char "=" line2 = 1)
  /\ (forall config count secret,
        Str.count_char (ascii_of_nat 10) (api_url secret) = 0 ->
        Str.count_char (ascii_of_nat 10) (api_key secret) = 0 ->
        Configparser.has_section config (license_section_name count) = false ->
        Str.count_char "=" (api_url secret)
        + Str.count_char "=" (api_key secret) <> 0 ->
        add_credential_section config (block_body count secret)
        = Raise ValueError)
  /\ (generate_additional_content Sample.get_secret Sample.padded_environ
      = Ok Sample.padded_text
      /\ Str.contains "=" (api_key Sample.padded_secret) = true
      /\ new_config_file Sample.parse_config Sample.pl_path "date"
           Sample.padded_text Sample.config_args None Sample.files
         = (Raise ValueError, Sample.files)).
Proof.
  split; [| split].
  - intros config text config' section Hok Hin.
    unfold add_credential_sections in Hok.
    destruct (fold_result_each _ _ _ _ _ Hok Hin) as (c1 & c2 & Hstep).
    apply add_credential_section_inv in Hstep.
    destruct Hstep as (_ & _ & l1 & l2 & k1 & v1 & k2 & v2 & H1 & E1 & H2 & E2 & _).
    exists l1, l2. split; [exact H1 |]. split; [exact H2 |].
    pose proof (split_single_length "=" l1) as L1.
    pose proof (split_single_length "=" l2) as L2.
    rewrite E1 in L1. rewrite E2 in L2. cbn [List.length] in L1, L2.
    split; congruence.
  - exact equals_in_secret_raises.
  - split; [vm_compute; reflexivity |].
    split; [vm_compute; reflexivity |]. vm_compute. reflexivity.
Qed.

Lemma credential_lines_need_one_equals_witness :
  (exists line1 line2,
     nth_error (Str.split NL (block_body 0 Sample.secret0)) 1 = Some line1
     /\ nth_error (Str.split NL (block_body 0 Sample.secret0)) 2 = Some line2
     /\ Str.count_char "=" line1 = 1 /\ Str.count_char "=" line2 = 1)
  /\ add_credential_section Configparser.empty
       (block_body 0 Sample.padded_secret) = Raise ValueError.
Proof.
  split.
  - let r := eval vm_compute in
      (add_credential_sections Configparser.empty Sample.credential_text) in
    match r with
    | Ok ?c =>
        apply (proj1 credential_lines_need_one_equals Configparser.empty
                 Sample.credential_text c (block_body 0 Sample.secret0))
    end.
    + vm_compute. reflexivity.
    + vm_compute. left. reflexivity.
  - apply (proj1 (proj2 credential_lines_need_one_equals)).
    + reflexivity.
    + reflexivity.
    + reflexivity.
    + vm_compute. discriminate.
Defined.

Section FileRoundTrip.

Variable parse_config : string -> result ConfigParser.

Lemma remove_license_from_config_file_run config_file_path num_licenses fs :
  remove_license_from_config_file parse_config config_file_path num_licenses fs
  = match fst (read_config parse_config config_file_path fs) with
    | Ok config =>
        (Ok tt,
         Dict.set config_file_path
           (Configparser.write (remove_license_sections config num_licenses)) fs)
    | Raise e => (Raise e, fs)
    end.
Proof.
  unfold remove_license_from_config_file, bind, write_file.
  pose proof (read_config_fs parse_config config_file_path fs) as Hfs.
  destruct (read_config parse_config config_file_path fs) as [[c | e] fs0];
    cbn [fst snd] in *; subst fs0; reflexivity.
Qed.

(** X21. On files: after [new_config_file] has injected [N] credential blocks and
    [remove_license_from_config_file] has stripped [N], the file holds the
    configuration with the date step applied and no credential section,
    provided the parser reads back what was written in between. *)
Lemma inject_then_strip_file config_file field_name additional_content
  config_args temp_path fs config0 config1 config2 config3 N :
  read_config parse_config config_file fs = (Ok config0, fs) ->
  set_target_path config0 temp_path = Ok config1 ->
  set_selection config1 field_name config_args = Ok config2 ->
  add_credential_sections config2 additional_content = Ok config3 ->
  map block_section_name (removelast (Str.split (NL ++ NL) additional_content))
  = map license_section_name (seq 0 N) ->
  parse_config (Configparser.write config3) = Ok config3 ->
  exists fs1 fs2,
    new_config_file parse_config config_file field_name additional_content
      config_args temp_path fs = (Ok tt, fs1)
    /\ remove_license_from_config_file parse_config config_file N fs1
       = (Ok tt, fs2)
    /\ Dict.get config_file fs2 = Some (Configparser.write config2)
    /\ (forall path, path <> config_file ->
                     Dict.get path fs2 = Dict.get path fs).
Proof.
  intros Hread E1 E2 E3 Hnames Hback.
  exists (Dict.set config_file (Configparser.write config3) fs).
  exists (Dict.set config_file (Configparser.write config2)
            (Dict.set config_file (Configparser.write config3) fs)).
  split; [| split; [| split]].
  - rewrite new_config_file_run, Hread. cbn [fst]. unfold mutate_config.
    rewrite E1. cbn [rbind]. rewrite E2. cbn [rbind]. rewrite E3. reflexivity.
  - rewrite remove_license_from_config_file_run. unfold read_config.
    rewrite dict_get_set_same, Hback. cbn [fst].
    unfold add_credential_sections in E3.
    destruct (add_then_remove_sections _ _ _ _ E3 Hnames) as [Hrm _].
    unfold remove_license_sections. rewrite Hrm. reflexivity.
  - apply dict_get_set_same.
  - intros path Hne. rewrite !dict_get_set_other by exact Hne. reflexivity.
Qed.

End FileRoundTrip.

(* ================================================================== *)
(** * More on the date window *)
(* ================================================================== *)

Section WindowBounds.
Import Datetime Calendar.
Open Scope Z_scope.

(** X1. [get_month_range] on every date: the first and the last day of the
    month before, and [OverflowError] in January of the first year, where
    there is none.  In January the month before is December of the year
    before. *)
Theorem get_month_range_total (d : date) :
  valid_date d ->
  (year d = MINYEAR /\ month d = 1 -> get_month_range d = Raise OverflowError)
  /\ (~ (year d = MINYEAR /\ month d = 1) ->
      exists first last,
        get_month_range d = Ok (first, last)
        /\ valid_date first /\ valid_date last
        /\ day first = 1
        /\ day last = _days_in_month (year last) (month last)
        /\ year first = year last /\ month first = month last
        /\ 12 * year last + month last + 1 = 12 * year d + month d
        /\ toordinal last + 1 = toordinal (replace_day d 1)).
Proof.
  intros Hv. split.
  - intros [Hy Hm]. apply get_month_range_overflow; assumption.
  - intros Hne. rewrite (get_month_range_spec d Hv Hne).
    destruct (previous_month_last_valid d Hv Hne) as [Hvl Hol].
    exists (previous_month_first d), (previous_month_last d).
    split; [reflexivity |].
    split; [rewrite <- previous_month_first_last; apply replace_day_1_valid; exact Hvl |].
    split; [exact Hvl |].
    assert (Hshape :
              day (previous_month_first d) = 1
              /\ day (previous_month_last d)
                 = _days_in_month (year (previous_month_last d))
                     (month (previous_month_last d))
              /\ year (previous_month_first d) = year (previous_month_last d)
              /\ month (previous_month_first d) = month (previous_month_last d)
              /\ 12 * year (previous_month_last d) + month (previous_month_last d) + 1
                 = 12 * year d + month d).
    { unfold previous_month_first, previous_month_last.
      destruct (month d =? 1) eqn:E; cbn [year month day].
      - apply Z.eqb_eq in E. repeat split; try reflexivity. lia.
      - repeat split; try reflexivity. lia. }
    destruct Hshape as (H1 & H2 & H3 & H4 & H5).
    repeat (split; [assumption |]). lia.
Qed.

Lemma toordinal_replace_day d n :
  toordinal (replace_day d n) = toordinal d - day d + n.
Proof. unfold toordinal, replace_day, _ymd2ord. cbn [year month day]. lia. Qed.

Lemma valid_date_day d : valid_date d -> 1 <= day d <= 31.
Proof.
  intros (Hy & Hm & Hd). pose proof (days_in_month_bounds (year d) (month d) Hm). lia.
Qed.

(** The range [get_month_range] returns, in days before its argument. *)
Lemma get_month_range_ordinals d first last :
  valid_date d -> get_month_range d = Ok (first, last) ->
  valid_date first /\ valid_date last
  /\ toordinal last = toordinal d - day d
  /\ toordinal first = toordinal last - day last + 1
  /\ 28 <= day last <= 31.
Proof.
  intros Hv E. destruct (get_month_range_valid _ _ _ Hv E) as [Hf Hl].
  unfold get_month_range, sub_days in E.
  destruct (add_days (replace_day d 1) (- (1))) as [l |] eqn:Ea; [| discriminate].
  cbn [rbind] in E. injection E as <- <-.
  destruct (add_days_ok_valid _ _ _ (replace_day_1_valid d Hv) Ea) as [_ Ho].
  rewrite toordinal_replace_day in Ho.
  split; [exact Hf |]. split; [exact Hl |]. split; [lia |].
  split; [rewrite toordinal_replace_day; lia |].
  assert (Hne : ~ (year d = MINYEAR /\ month d = 1)).
  { intros [Hy Hm]. unfold add_days in Ea.
    destruct d as [y m dd]. cbn [year month day] in *. subst y m.
    vm_compute in Ea. discriminate. }
  destruct (previous_month_last_valid d Hv Hne) as [Hvl Hol].
  assert (l = previous_month_last d) by (apply toordinal_inj; auto; rewrite toordinal_replace_day in Hol; lia).
  subst l. unfold previous_month_last.
  destruct Hv as (Hy & Hm & Hd).
  destruct (month d =? 1) eqn:Em; cbn [day]; [lia |].
  apply Z.eqb_neq in Em. apply days_in_month_bounds. lia.
Qed.

(** A date is in January of the first year exactly when its ordinal is at
    most 31. *)
Lemma first_january_ordinal d :
  valid_date d -> (year d = MINYEAR /\ month d = 1 <-> toordinal d <= 31).
Proof.
  intros Hv. split.
  - intros [Hy Hm]. apply toordinal_first_january; assumption.
  - intros Ho. destruct d as [y m dd]. destruct Hv as (Hy & Hm & Hd).
    unfold MINYEAR, MAXYEAR, toordinal, _ymd2ord in *. cbn [year month day] in *.
    assert (H0 : 0 <= _days_before_year y) by (unfold _days_before_year; divmod).
    assert (H1 : y = 1 \/ 365 <= _days_before_year y)
      by (unfold _days_before_year; divmod).
    assert (H2 : m = 1 \/ 31 <= _days_before_month y m).
    { unfold _days_before_month. pose proof Hm as Hm'.
      destruct (_is_leap y); each_month m Hm'; lia. }
    assert (H3 : 0 <= _days_before_month y m).
    { unfold _days_before_month. pose proof Hm as Hm'.
      destruct (_is_leap y); each_month m Hm'; lia. }
    lia.
Qed.

Lemma get_month_range_ok_iff d :
  valid_date d ->
  ((exists r, get_month_range d = Ok r) <-> 31 < toordinal d)
  /\ (forall e, get_month_range d = Raise e -> e = OverflowError).
Proof.
  intros Hv. pose proof (first_january_ordinal d Hv) as Hj.
  destruct (Z_le_dec (toordinal d) 31) as [Hle | Hgt].
  - destruct (proj2 Hj Hle) as [Hy Hm].
    rewrite (get_month_range_overflow d Hv Hy Hm). split.
    + split; [intros [r Hr]; discriminate | lia].
    + intros e He. congruence.
  - assert (Hne : ~ (year d = MINYEAR /\ month d = 1)) by tauto.
    rewrite (get_month_range_spec d Hv Hne). split.
    + split; [lia | eauto].
    + intros e He. discriminate.
Qed.

(** The month [get_month_range] returns, in days: it ends the day before
    the first day of the month of the argument. *)
Lemma month_range_days d f l :
  valid_date d -> get_month_range d = Ok (f, l) ->
  valid_date f /\ valid_date l
  /\ toordinal f <= toordinal l
  /\ f = replace_day l 1
  /\ day l = _days_in_month (year l) (month l)
  /\ toordinal l - toordinal f + 1 = day l
  /\ toordinal l = toordinal d - day d.
Proof.
  intros Hd Er.
  destruct (get_month_range_ordinals d f l Hd Er) as (Hf & Hl & H1 & H2 & H3).
  assert (Hne : ~ (year d = MINYEAR /\ month d = 1)).
  { intros [Hy Hm]. rewrite (get_month_range_overflow d Hd Hy Hm) in Er.
    discriminate. }
  pose proof Er as Er'. rewrite (get_month_range_spec d Hd Hne) in Er'.
  injection Er' as Ef El.
  assert (Hlast : day l = _days_in_month (year l) (month l)).
  { rewrite <- El. unfold previous_month_last.
    destruct (month d =? 1); reflexivity. }
  repeat (split; [assumption || lia |]).
  split; [rewrite <- Ef, <- El; symmetry; apply previous_month_first_last |].
  split; [exact Hlast |]. split; lia.
Qed.

Section Modes.

Variables ExecTypes_ERA5T_DAILY ExecTypes_ERA5T_MONTHLY : string.

Local Notation "'window'" :=
  (get_previous_month_dates ExecTypes_ERA5T_DAILY ExecTypes_ERA5T_MONTHLY).

(** X2. Every window lies before today.  In mode [ERA5T_DAILY] it is the one
    day six days back; in every other mode it is a whole calendar month,
    which ends 1 to 31 days before today in mode [ERA5T_MONTHLY] and 62 to
    92 days before today otherwise. *)
Theorem window_in_the_past (mode : string) (today : date) (w : MonthDates.t) :
  valid_date today ->
  window mode today = Ok w ->
  valid_date (MonthDates.first_day w) /\ valid_date (MonthDates.last_day w)
  /\ toordinal (MonthDates.first_day w) <= toordinal (MonthDates.last_day w)
  /\ toordinal (MonthDates.last_day w) < toordinal today
  /\ if String.eqb mode ExecTypes_ERA5T_DAILY
     then MonthDates.first_day w = MonthDates.last_day w
          /\ toordinal today - toordinal (MonthDates.last_day w) = 6
     else MonthDates.first_day w = replace_day (MonthDates.last_day w) 1
          /\ day (MonthDates.last_day w)
             = _days_in_month (year (MonthDates.last_day w))
                 (month (MonthDates.last_day w))
          /\ toordinal (MonthDates.last_day w)
             - toordinal (MonthDates.first_day w) + 1
             = day (MonthDates.last_day w)
          /\ if String.eqb mode ExecTypes_ERA5T_MONTHLY
             then 1 <= toordinal today - toordinal (MonthDates.last_day w) <= 31
             else 62 <= toordinal today - toordinal (MonthDates.last_day w) <= 92.
Proof.
  intros Hv E. unfold get_previous_month_dates in E.
  pose proof month_range_days as Hmonth.
  destruct (String.eqb mode ExecTypes_ERA5T_DAILY).
  - unfold sub_days in E. destruct (add_days today (- (6))) as [a |] eqn:Ea;
      [| discriminate].
    destruct (add_days_ok_valid _ _ _ Hv Ea) as [Hva Hoa].
    cbn [rbind fst snd] in E. injection E as <-.
    cbn [MonthDates.first_day MonthDates.last_day].
    repeat (split; [assumption || lia || reflexivity |]). lia.
  - destruct (String.eqb mode ExecTypes_ERA5T_MONTHLY).
    + destruct (get_month_range today) as [[f l] |] eqn:Er; [| discriminate].
      cbn [rbind fst snd] in E. injection E as <-.
      cbn [MonthDates.first_day MonthDates.last_day].
      destruct (Hmonth today f l Hv Er) as (Hf & Hl & H1 & H2 & H3 & H4 & H5).
      pose proof (valid_date_day today Hv).
      repeat (split; [assumption || lia |]). lia.
    + unfold sub_days in E.
      destruct (add_days today (- ERA5_DELTA_DAYS)) as [a |] eqn:Ea;
        [| discriminate].
      destruct (add_days_ok_valid _ _ _ Hv Ea) as [Hva Hoa].
      cbn [rbind] in E.
      destruct (get_month_range a) as [[f l] |] eqn:Er; [| discriminate].
      cbn [rbind fst snd] in E. injection E as <-.
      cbn [MonthDates.first_day MonthDates.last_day].
      destruct (Hmonth a f l Hva Er) as (Hf & Hl & H1 & H2 & H3 & H4 & H5).
      pose proof (valid_date_day a Hva).
      change ERA5_DELTA_DAYS with 61 in Hoa.
      repeat (split; [assumption || lia |]). lia.
Qed.

Lemma window_outcome (mode : string) (today : date) :
  valid_date today ->
  let bound := if String.eqb mode ExecTypes_ERA5T_DAILY then 6
               else if String.eqb mode ExecTypes_ERA5T_MONTHLY then 31
               else 92 in
  (bound < toordinal today /\ exists w, window mode today = Ok w)
  \/ (toordinal today <= bound /\ window mode today = Raise OverflowError).
Proof.
  intros Hv. unfold get_previous_month_dates.
  pose proof (toordinal_bounds today Hv) as Hb.
  destruct (String.eqb mode ExecTypes_ERA5T_DAILY); cbv zeta.
  - unfold sub_days. destruct (add_days_spec today (- (6)) Hv) as [Hok Hbad].
    destruct (Z_lt_dec 6 (toordinal today)) as [H6 | H6].
    + destruct Hok as (a & Ea & _); [lia |]. rewrite Ea. cbn [rbind].
      left. split; [lia | eauto].
    + rewrite Hbad by lia. right. split; [lia | reflexivity].
  - destruct (String.eqb mode ExecTypes_ERA5T_MONTHLY).
    + destruct (get_month_range_ok_iff today Hv) as [Hiff Herr].
      destruct (get_month_range today) as [[f l] | e0] eqn:Er; cbn [rbind].
      * left. split; [apply Hiff; eauto | eauto].
      * right. rewrite (Herr e0 eq_refl). split; [| reflexivity].
        destruct (Z_lt_dec 31 (toordinal today)) as [H | H]; [| lia].
        apply Hiff in H. destruct H as [r Hr]. discriminate.
    + unfold sub_days.
      destruct (add_days_spec today (- ERA5_DELTA_DAYS) Hv) as [Hok Hbad].
      change ERA5_DELTA_DAYS with 61 in *.
      destruct (Z_lt_dec 61 (toordinal today)) as [H61 | H61].
      * destruct Hok as (a & Ea & Hva & Hoa); [lia |]. rewrite Ea. cbn [rbind].
        destruct (get_month_range_ok_iff a Hva) as [Hiff Herr].
        destruct (get_month_range a) as [[f l] | e0] eqn:Er; cbn [rbind].
        -- left. split; [| eauto].
           assert (31 < toordinal a) by (apply Hiff; eauto). lia.
        -- right. rewrite (Herr e0 eq_refl). split; [| reflexivity].
           destruct (Z_lt_dec 31 (toordinal a)) as [H | H]; [| lia].
           apply Hiff in H. destruct H as [r Hr]. discriminate.
      * rewrite Hbad by lia. right. split; [lia | reflexivity].
Qed.

(** X3. The only exception [get_previous_month_dates] raises is
    [OverflowError], and it returns a window exactly when today is late
    enough in the first year: after January 6th in mode [ERA5T_DAILY], after
    January in mode [ERA5T_MONTHLY], after April 2nd (day 92) otherwise. *)
Theorem window_overflow (mode : string) (today : date) :
  valid_date today ->
  (forall e, window mode today = Raise e -> e = OverflowError)
  /\ ((exists w, window mode today = Ok w)
      <-> (if String.eqb mode ExecTypes_ERA5T_DAILY then 6
           else if String.eqb mode ExecTypes_ERA5T_MONTHLY then 31
           else 92) < toordinal today).
Proof.
  intros Hv.
  destruct (window_outcome mode today Hv) as [[Hlate [w Hw]] | [Hearly Hraise]].
  - rewrite Hw. split; [intros e He; discriminate |].
    split; [intros _; exact Hlate | eauto].
  - rewrite Hraise. split; [intros e He; congruence |].
    split; [intros [w Hw]; discriminate | cbv zeta in Hearly; lia].
Qed.

End Modes.

End WindowBounds.

Lemma get_month_range_total_witness :
  get_month_range (mkdate 1 1 20) = Raise OverflowError
  /\ exists first last,
       get_month_range (mkdate 2024 1 15) = Ok (first, last)
       /\ (year last = 2023 /\ month last = 12 /\ day last = 31)%Z.
Proof.
  split.
  - apply (proj1 (get_month_range_total (mkdate 1 1 20)
                    ltac:(apply valid_dateb_true; reflexivity))).
    split; reflexivity.
  - destruct (proj2 (get_month_range_total (mkdate 2024 1 15)
                       ltac:(apply valid_dateb_true; reflexivity)))
      as (first & last & E & _ & Hl & _ & _ & _ & _ & H12 & _).
    + intros [H _]. discriminate H.
    + exists first, last. split; [exact E |].
      vm_compute in E. injection E as <- <-. repeat split; reflexivity.
Defined.

Lemma window_in_the_past_witness :
  exists w,
    get_previous_month_dates Sample.ERA5T_DAILY Sample.ERA5T_MONTHLY Sample.ERA5
      Sample.today = Ok w
    /\ (62 <= Datetime.toordinal Sample.today
              - Datetime.toordinal (MonthDates.last_day w) <= 92)%Z.
Proof.
  eexists. split; [vm_compute; reflexivity |].
  apply (window_in_the_past Sample.ERA5T_DAILY Sample.ERA5T_MONTHLY Sample.ERA5
           Sample.today);
    [apply valid_dateb_true; reflexivity | vm_compute; reflexivity].
Defined.

Lemma window_overflow_witness :
  exists w,
    get_previous_month_dates Sample.ERA5T_DAILY Sample.ERA5T_MONTHLY Sample.ERA5
      Sample.today = Ok w.
Proof.
  apply (proj2 (window_overflow Sample.ERA5T_DAILY Sample.ERA5T_MONTHLY
                  Sample.ERA5 Sample.today
                  ltac:(apply valid_dateb_true; reflexivity))).
  reflexivity.
Defined.

Lemma inject_then_strip_file_witness :
  exists config2 fs1 fs2,
    new_config_file Sample.parse_config Sample.pl_path "date"
      Sample.credential_text Sample.config_args None Sample.files = (Ok tt, fs1)
    /\ remove_license_from_config_file Sample.parse_config Sample.pl_path 2 fs1
       = (Ok tt, fs2)
    /\ Dict.get Sample.pl_path fs2 = Some (Configparser.write config2)
    /\ Configparser.sections config2 = ["parameters"; "selection"].
Proof.
  let r0 := eval vm_compute in (Sample.parse_config Sample.pl_cfg) in
  match r0 with
  | Ok ?c0 =>
      let r2 := eval vm_compute in
        (set_selection c0 "date" Sample.config_args) in
      match r2 with
      | Ok ?c2 =>
          let r3 := eval vm_compute in
            (add_credential_sections c2 Sample.credential_text) in
          match r3 with
          | Ok ?c3 =>
              destruct (inject_then_strip_file Sample.parse_config
                          Sample.pl_path "date" Sample.credential_text
                          Sample.config_args None Sample.files c0 c0 c2 c3 2)
                as (fs1 & fs2 & H1 & H2 & H3 & _);
              [ vm_compute; reflexivity | reflexivity | vm_compute; reflexivity
              | vm_compute; reflexivity | vm_compute; reflexivity
              | vm_compute; reflexivity
              | exists c2, fs1, fs2; repeat split; assumption || reflexivity ]
          end
      end
  end.
Defined.

(* ================================================================== *)
(** * The window, in months *)
(* ================================================================== *)

Section MonthGap.
Import Datetime Calendar.
Open Scope Z_scope.

Lemma days_before_month_ends y :
  _days_before_month y 1 = 0
  /\ _days_before_month y 12 = 334 + (if _is_leap y then 1 else 0).
Proof.
  unfold _days_before_month. destruct (_is_leap y); split; reflexivity.
Qed.

(** Months apart, in days: [j] months lie between the first days of two
    months [j] apart, each of 28 to 31 days. *)
Lemma month_gap (j : nat) :
  forall y1 m1 y2 m2,
    1 <= y1 -> 1 <= m1 <= 12 -> 1 <= m2 <= 12 ->
    12 * y2 + m2 = 12 * y1 + m1 + Z.of_nat j ->
    28 * Z.of_nat j
    <= (_days_before_year y2 + _days_before_month y2 m2)
       - (_days_before_year y1 + _days_before_month y1 m1)
    <= 31 * Z.of_nat j.
Proof.
  induction j as [| j IH]; intros y1 m1 y2 m2 Hy H1 H2 E.
  - assert (y2 = y1) by lia. assert (m2 = m1) by lia. subst. lia.
  - rewrite Nat2Z.inj_succ in *. destruct (Z.eq_dec m1 12) as [-> | Hm].
    + specialize (IH (y1 + 1) 1 y2 m2 ltac:(lia) ltac:(lia) H2 ltac:(lia)).
      pose proof (days_before_year_succ y1 Hy) as Hs.
      destruct (days_before_month_ends y1) as [_ H12].
      destruct (days_before_month_ends (y1 + 1)) as [H01 _].
      destruct (_is_leap y1); lia.
    + specialize (IH y1 (m1 + 1) y2 m2 Hy ltac:(lia) H2 ltac:(lia)).
      pose proof (days_before_month_succ y1 m1 ltac:(lia)) as Hs.
      pose proof (days_in_month_bounds y1 m1 H1). lia.
Qed.

Lemma month_gap_between d1 d2 :
  valid_date d1 -> valid_date d2 ->
  let gap := (12 * year d2 + month d2) - (12 * year d1 + month d1) in
  let days := toordinal d2 - day d2 - (toordinal d1 - day d1) in
  (0 <= gap -> 28 * gap <= days <= 31 * gap)
  /\ (gap <= 0 -> 31 * gap <= days <= 28 * gap).
Proof.
  intros (Hy1 & Hm1 & Hd1) (Hy2 & Hm2 & Hd2). cbv zeta.
  unfold MINYEAR, MAXYEAR, toordinal, _ymd2ord in *. split; intros Hg.
  - pose proof (month_gap
                  (Z.to_nat ((12 * year d2 + month d2) - (12 * year d1 + month d1)))
                  (year d1) (month d1) (year d2) (month d2)
                  ltac:(lia) Hm1 Hm2 ltac:(lia)) as H.
    rewrite Z2Nat.id in H by lia. lia.
  - pose proof (month_gap
                  (Z.to_nat ((12 * year d1 + month d1) - (12 * year d2 + month d2)))
                  (year d2) (month d2) (year d1) (month d1)
                  ltac:(lia) Hm2 Hm1 ltac:(lia)) as H.
    rewrite Z2Nat.id in H by lia. lia.
Qed.

Section Modes.

Variables ExecTypes_ERA5T_DAILY ExecTypes_ERA5T_MONTHLY : string.

Local Notation "'window'" :=
  (get_previous_month_dates ExecTypes_ERA5T_DAILY ExecTypes_ERA5T_MONTHLY).

(** X4. How many months before the month of today the window starts.  In mode
    [ERA5T_DAILY] the day of the window is in the month of today or in the
    month before; in mode [ERA5T_MONTHLY] the window is the month before;
    in every other mode it is the second, the third or the fourth month
    before the month of today, not always the third. *)
Theorem window_months_back (mode : string) (today : date) (w : MonthDates.t) :
  valid_date today ->
  window mode today = Ok w ->
  let months_back :=
    (12 * year today + month today)
    - (12 * year (MonthDates.first_day w) + month (MonthDates.first_day w)) in
  if String.eqb mode ExecTypes_ERA5T_DAILY then 0 <= months_back <= 1
  else if String.eqb mode ExecTypes_ERA5T_MONTHLY then months_back = 1
  else 2 <= months_back <= 4.
Proof.
  intros Hv E. cbv zeta. unfold get_previous_month_dates in E.
  destruct (String.eqb mode ExecTypes_ERA5T_DAILY).
  - unfold sub_days in E. destruct (add_days today (- (6))) as [a |] eqn:Ea;
      [| discriminate].
    destruct (add_days_ok_valid _ _ _ Hv Ea) as [Hva Hoa].
    cbn [rbind fst snd] in E. injection E as <-.
    cbn [MonthDates.first_day].
    destruct (month_gap_between a today Hva Hv) as [Hpos Hneg].
    pose proof (valid_date_day a Hva). pose proof (valid_date_day today Hv).
    cbv zeta in Hpos, Hneg. lia.
  - destruct (String.eqb mode ExecTypes_ERA5T_MONTHLY).
    + destruct (get_month_range today) as [[f l] |] eqn:Er; [| discriminate].
      cbn [rbind fst snd] in E. injection E as <-.
      cbn [MonthDates.first_day].
      assert (Hne : ~ (year today = MINYEAR /\ month today = 1)).
      { intros [Hy Hm]. rewrite (get_month_range_overflow today Hv Hy Hm) in Er.
        discriminate. }
      rewrite (get_month_range_spec today Hv Hne) in Er. injection Er as <- _.
      unfold previous_month_first.
      destruct (month today =? 1) eqn:Em; cbn [year month];
        [apply Z.eqb_eq in Em | apply Z.eqb_neq in Em]; lia.
    + unfold sub_days in E.
      destruct (add_days today (- ERA5_DELTA_DAYS)) as [a |] eqn:Ea;
        [| discriminate].
      destruct (add_days_ok_valid _ _ _ Hv Ea) as [Hva Hoa].
      cbn [rbind] in E.
      destruct (get_month_range a) as [[f l] |] eqn:Er; [| discriminate].
      cbn [rbind fst snd] in E. injection E as <-.
      cbn [MonthDates.first_day].
      destruct (month_range_days a f l Hva Er) as (Hf & Hl & _ & Hfl & H3 & _ & H5).
      pose proof (valid_date_day a Hva).
      pose proof (days_in_month_bounds (year l) (month l) (proj1 (proj2 Hl))).
      change ERA5_DELTA_DAYS with 61 in Hoa.
      destruct (month_gap_between l today Hl Hv) as [Hpos Hneg].
      pose proof (valid_date_day today Hv).
      cbv zeta in Hpos, Hneg.
      rewrite Hfl. unfold replace_day. cbn [year month]. lia.
Qed.

End Modes.

End MonthGap.

Lemma window_months_back_witness :
  (exists w,
     get_previous_month_dates Sample.ERA5T_DAILY Sample.ERA5T_MONTHLY Sample.ERA5
       Sample.today = Ok w
     /\ (2 <= 12 * 2024 + 3
              - (12 * year (MonthDates.first_day w)
                 + month (MonthDates.first_day w)) <= 4)%Z)
  /\ (exists w,
        get_previous_month_dates Sample.ERA5T_DAILY Sample.ERA5T_MONTHLY
          Sample.ERA5 (mkdate 2023 8 31) = Ok w
        /\ MonthDates.first_day w = mkdate 2023 6 1)
  /\ (exists w,
        get_previous_month_dates Sample.ERA5T_DAILY Sample.ERA5T_MONTHLY
          Sample.ERA5 (mkdate 2023 3 1) = Ok w
        /\ MonthDates.first_day w = mkdate 2022 11 1).
Proof.
  split; [| split].
  - eexists. split; [vm_compute; reflexivity |].
    apply (window_months_back Sample.ERA5T_DAILY Sample.ERA5T_MONTHLY Sample.ERA5
             Sample.today);
      [apply valid_dateb_true; reflexivity | vm_compute; reflexivity].
  - eexists. split; vm_compute; reflexivity.
  - eexists. split; vm_compute; reflexivity.
Defined.

(* ================================================================== *)
(** * The credential text and the secret manager *)
(* ================================================================== *)

Section SecretFacts.

Variable get_secret : string -> result json.

Local Notation "'fields'" := (get_secret_fields get_secret).

Lemma generate_loop_ok keys secrets count acc :
  Forall2 (fun k s => fields k = Ok s) keys secrets ->
  generate_loop get_secret count keys acc = Ok (acc ++ blocks_text count secrets).
Proof.
  intros H. revert count acc.
  induction H as [| k s keys secrets Hk _ IH]; intros count acc.
  - cbn. now rewrite append_nil_r.
  - rewrite generate_loop_cons, Hk. cbn [rbind blocks_text]. rewrite IH.
    now rewrite append_assoc.
Qed.

Lemma generate_loop_raise before secret_key after e count acc :
  Forall (fun k => exists s, fields k = Ok s) before ->
  fields secret_key = Raise e ->
  generate_loop get_secret count (before ++ secret_key :: after)%list acc = Raise e.
Proof.
  intros H He. revert count acc.
  induction H as [| k before [s Hk] _ IH]; intros count acc.
  - cbn [app]. now rewrite generate_loop_cons, He.
  - cbn [app]. rewrite generate_loop_cons, Hk. cbn [rbind]. apply IH.
Qed.

Lemma first_failing_key keys :
  Forall (fun k => exists s, fields k = Ok s) keys
  \/ exists before secret_key after e,
       keys = (before ++ secret_key :: after)%list
       /\ Forall (fun k => exists s, fields k = Ok s) before
       /\ fields secret_key = Raise e.
Proof.
  induction keys as [| k keys IH]; [left; constructor |].
  destruct (fields k) as [s | e] eqn:Ek.
  - destruct IH as [IH | (before & sk & after & e & -> & Hb & He)].
    + left. constructor; eauto.
    + right. exists (k :: before), sk, after, e. repeat split; eauto.
  - right. exists [], k, keys, e. repeat split; auto.
Qed.

Lemma resolved_secrets keys :
  Forall (fun k => exists s, fields k = Ok s) keys ->
  exists secrets, Forall2 (fun k s => fields k = Ok s) keys secrets.
Proof.
  induction 1 as [| k keys [s Hk] _ [secrets IH]].
  - exists []. constructor.
  - exists (s :: secrets). now constructor.
Qed.

(** X6. [generate_additional_content] catches nothing.  What a turn of its
    loop reads for a key is: what [get_secret] raises; else [TypeError]
    when the value returned is no object; else [KeyError] for [api_url],
    then for [api_key], when the object lacks the member; else the two
    members.  The function returns a text exactly when every matching
    variable gives its two members, and that text is one block for each,
    numbered from 0 in the order of the environment; otherwise it raises
    what the first failing variable raises, and the variables after it are
    not looked up. *)
Theorem secret_failure_propagates (environ : list (string * string)) :
  (forall secret_key,
     get_secret_fields get_secret secret_key
     = match get_secret secret_key with
       | Raise e => Raise e
       | Ok JNotObject => Raise TypeError
       | Ok (JObject members) =>
           match Dict.get "api_url" members, Dict.get "api_key" members with
           | None, _ => Raise (KeyError "api_url")
           | Some _, None => Raise (KeyError "api_key")
           | Some api_url, Some api_key => Ok (mkSecret api_url api_key)
           end
       end)
  /\ (forall secrets,
        Forall2 (fun secret_key secret =>
                   get_secret_fields get_secret secret_key = Ok secret)
          (get_api_keys environ) secrets ->
        generate_additional_content get_secret environ
        = Ok (blocks_text 0 secrets))
  /\ (forall before secret_key after e,
        get_api_keys environ = (before ++ secret_key :: after)%list ->
        Forall (fun k => exists secret,
                           get_secret_fields get_secret k = Ok secret) before ->
        get_secret_fields get_secret secret_key = Raise e ->
        generate_additional_content get_secret environ = Raise e)
  /\ ((exists additional_content,
         generate_additional_content get_secret environ = Ok additional_content)
      <-> Forall (fun k => exists secret,
                             get_secret_fields get_secret k = Ok secret)
            (get_api_keys environ)).
Proof.
  unfold generate_additional_content. split; [| split; [| split]].
  - intros secret_key. unfold get_secret_fields, getitem.
    destruct (get_secret secret_key) as [[members |] |]; try reflexivity.
    cbn [rbind]. destruct (Dict.get "api_url" members); [| reflexivity].
    cbn [rbind]. destruct (Dict.get "api_key" members); reflexivity.
  - intros secrets H. now rewrite (generate_loop_ok _ _ 0 "" H).
  - intros before sk after e -> Hb He. now apply generate_loop_raise.
  - split.
    + intros [text Ht].
      destruct (first_failing_key (get_api_keys environ))
        as [H | (before & sk & after & e & E & Hb & He)]; [exact H |].
      rewrite E, (generate_loop_raise _ _ _ _ 0 "" Hb He) in Ht. discriminate.
    + intros H. destruct (resolved_secrets _ H) as [secrets Hs].
      rewrite (generate_loop_ok _ _ 0 "" Hs). eauto.
Qed.

End SecretFacts.

Lemma secret_failure_propagates_witness :
  generate_additional_content Sample.get_secret Sample.environ
  = Ok (blocks_text 0 [Sample.secret0; Sample.secret1])
  /\ generate_additional_content Sample.get_secret
       [("API_KEY_1", "projects/p/secrets/cds0"); ("API_KEY_2", "lost");
        ("API_KEY_3", "projects/p/secrets/cds1")]
     = Raise (SecretError "lost")
  /\ generate_additional_content Sample.get_secret
       [("API_KEY_1", "projects/p/secrets/cds0");
        ("API_KEY_2", "projects/p/secrets/no_key")]
     = Raise (KeyError "api_key")
  /\ generate_additional_content Sample.get_secret
       [("API_KEY_1", "projects/p/secrets/array")]
     = Raise TypeError.
Proof.
  split; [| split; [| split]].
  - apply (proj1 (proj2 (secret_failure_propagates Sample.get_secret
                           Sample.environ))).
    repeat constructor.
  - apply (proj1 (proj2 (proj2 (secret_failure_propagates Sample.get_secret
                                  [("API_KEY_1", "projects/p/secrets/cds0");
                                   ("API_KEY_2", "lost");
                                   ("API_KEY_3", "projects/p/secrets/cds1")])))
             ["projects/p/secrets/cds0"] "lost" ["projects/p/secrets/cds1"]).
    + reflexivity.
    + constructor; [| constructor]. exists Sample.secret0. reflexivity.
    + reflexivity.
  - apply (proj1 (proj2 (proj2 (secret_failure_propagates Sample.get_secret
                                  [("API_KEY_1", "projects/p/secrets/cds0");
                                   ("API_KEY_2", "projects/p/secrets/no_key")])))
             ["projects/p/secrets/cds0"] "projects/p/secrets/no_key" []).
    + reflexivity.
    + constructor; [| constructor]. exists Sample.secret0. reflexivity.
    + reflexivity.
  - apply (proj1 (proj2 (proj2 (secret_failure_propagates Sample.get_secret
                                  [("API_KEY_1", "projects/p/secrets/array")])))
             [] "projects/p/secrets/array" []).
    + reflexivity.
    + constructor.
    + reflexivity.
Defined.

(* ================================================================== *)
(** * Runs of [update_config_file] *)
(* ================================================================== *)

Section DictMore.

Context {V : Type}.

Lemma dict_get_set (k k' : string) (v : V) l :
  Dict.get k (Dict.set k' v l) = if String.eqb k k' then Some v else Dict.get k l.
Proof.
  destruct (String.eqb k k') eqn:E.
  - apply String.eqb_eq in E. subst. apply dict_get_set_same.
  - apply String.eqb_neq in E. now apply dict_get_set_other.
Qed.

Lemma dict_get_of_items_fold (k : string) (items acc : list (string * V)) :
  Dict.get k (fold_left (fun d kv => Dict.set (fst kv) (snd kv) d) items acc)
  = match Dict.get k (rev items) with
    | Some v => Some v
    | None => Dict.get k acc
    end.
Proof.
  revert acc. induction items as [| [k' v] items IH]; intros acc; [reflexivity |].
  cbn [fold_left fst snd rev]. rewrite IH, dict_get_set.
  destruct (Dict.get k (rev items)) as [v0 |] eqn:E.
  - now rewrite (dict_get_app_l _ _ _ _ E).
  - rewrite dict_get_app_r.
    + cbn [Dict.get]. destruct (String.eqb k k'); reflexivity.
    + destruct (Dict.mem k (rev items)) eqn:Em; [| reflexivity].
      apply dict_mem_get in Em as [v1 Hv1]. congruence.
Qed.

Lemma dict_get_none_mem (k : string) (l : list (string * V)) :
  Dict.get k l = None -> Dict.mem k l = false.
Proof.
  intros H. destruct (Dict.mem k l) eqn:E; [| reflexivity].
  apply dict_mem_get in E as [v Hv]. congruence.
Qed.

Lemma dict_mem_false_get (k : string) (l : list (string * V)) :
  Dict.mem k l = false -> Dict.get k l = None.
Proof.
  intros H. destruct (Dict.get k l) as [v |] eqn:E; [| reflexivity].
  apply dict_get_mem in E. congruence.
Qed.

End DictMore.

Section SelectionRequired.

Lemma set_no_section c section option value :
  String.eqb section "" = false ->
  String.eqb section Configparser.DEFAULTSECT = false ->
  Configparser.has_section c section = false ->
  Configparser.set c section option value = Raise (NoSectionError section).
Proof.
  intros H1 H2 H. unfold Configparser.set. rewrite H1, H2. cbn [orb].
  now rewrite (dict_mem_false_get _ _ H).
Qed.

Lemma set_selection_no_section c field_name config_args :
  Configparser.has_section c "selection" = false ->
  set_selection c field_name config_args = Raise (NoSectionError "selection").
Proof.
  intros H. unfold set_selection.
  destruct (ConfigArgs.year_wise_date config_args);
    rewrite (set_no_section c "selection") by (reflexivity || exact H);
    reflexivity.
Qed.

Lemma mutate_config_no_selection c field_name additional_content config_args
  temp_path :
  Configparser.has_section c "selection" = false ->
  exists e,
    mutate_config c field_name additional_content config_args temp_path = Raise e
    /\ (temp_path = None \/ temp_path = Some "" -> e = NoSectionError "selection").
Proof.
  intros H. unfold mutate_config.
  destruct (set_target_path c temp_path) as [c1 | e1] eqn:E1.
  - rewrite <- (set_target_path_has_section _ _ _ "selection" E1) in H.
    cbn [rbind]. rewrite (set_selection_no_section _ _ _ H). cbn [rbind].
    eexists. split; [reflexivity | intros _; reflexivity].
  - cbn [rbind]. exists e1. split; [reflexivity |].
    intros [-> | ->]; discriminate.
Qed.

End SelectionRequired.

Section RunFacts.

Variables ExecTypes_ERA5 ExecTypes_ERA5T_DAILY ExecTypes_ERA5T_MONTHLY : string.
Variable parse_config : string -> result ConfigParser.
Variable glob : FS -> string -> list string.
Variable get_secret : string -> result json.

Local Notation "'FILES'" :=
  (FILES_TO_UPDATE ExecTypes_ERA5 ExecTypes_ERA5T_DAILY ExecTypes_ERA5T_MONTHLY).
Local Notation "'run'" :=
  (update_config_file ExecTypes_ERA5 ExecTypes_ERA5T_DAILY
     ExecTypes_ERA5T_MONTHLY parse_config glob get_secret).
Local Notation "'window'" :=
  (get_previous_month_dates ExecTypes_ERA5T_DAILY ExecTypes_ERA5T_MONTHLY).


Lemma new_config_file_keys config_file field_name additional_content config_args
  temp_path fs :
  Dict.keys
    (snd (new_config_file parse_config config_file field_name additional_content
            config_args temp_path fs))
  = Dict.keys fs.
Proof.
  rewrite new_config_file_run. unfold read_config.
  destruct (Dict.get config_file fs) as [text |] eqn:Eg; cbn [fst].
  - destruct (parse_config text) as [config0 |]; [| reflexivity].
    destruct (mutate_config _ _ _ _ _); [| reflexivity].
    cbn [snd]. now apply dict_keys_set with text.
  - destruct (mutate_config_no_selection Configparser.empty field_name
                additional_content config_args temp_path eq_refl)
      as (e & -> & _).
    reflexivity.
Qed.

Lemma for_each_keys {A} (body : A -> M unit) xs :
  (forall x fs, Dict.keys (snd (body x fs)) = Dict.keys fs) ->
  forall fs, Dict.keys (snd (for_each xs body fs)) = Dict.keys fs.
Proof.
  intros Hbody. induction xs as [| x xs IH]; intros fs; [reflexivity |].
  cbn [for_each]. unfold bind. specialize (Hbody x fs).
  destruct (body x fs) as [[[] | e] fs1]; cbn [snd] in *.
  - rewrite IH. exact Hbody.
  - exact Hbody.
Qed.

(** X13. A run of [update_config_file] neither creates nor deletes a file,
    whatever [glob] reports and whether the run ends or raises: the paths
    of the file store, and their order, are the same after it. *)
Theorem update_keeps_the_paths directory field_name mode temp_path today
  environ fs :
  Dict.keys (snd (run directory field_name mode temp_path today environ fs))
  = Dict.keys fs.
Proof.
  unfold update_config_file, bind, lift, get_fs.
  destruct (get_previous_month_dates _ _ mode today) as [dates_data |];
    [| reflexivity].
  destruct (Dict.get mode FILES) as [files_to_update |]; [| reflexivity].
  destruct (generate_additional_content get_secret environ) as [text |];
    [| reflexivity].
  apply for_each_keys. intros filename fs1. unfold update_one_file.
  destruct (existsb _ files_to_update); [| reflexivity].
  apply new_config_file_keys.
Qed.

Lemma FILES_TO_UPDATE_lookup mode :
  Dict.get mode FILES
  = if String.eqb mode ExecTypes_ERA5T_MONTHLY then Some ["lnsp"; "zs"; "sfc"]
    else if String.eqb mode ExecTypes_ERA5T_DAILY
         then Some ["dve"; "o3q"; "qrqs"; "tw"; "pl"; "sl"]
    else if String.eqb mode ExecTypes_ERA5
         then Some ["dve"; "o3q"; "qrqs"; "tw"; "pl"; "sl"; "lnsp"; "zs"; "sfc"]
    else None.
Proof.
  unfold FILES_TO_UPDATE, Dict.of_items. rewrite dict_get_of_items_fold.
  cbn [rev app Dict.get].
  destruct (String.eqb mode ExecTypes_ERA5T_MONTHLY); [reflexivity |].
  destruct (String.eqb mode ExecTypes_ERA5T_DAILY); [reflexivity |].
  destruct (String.eqb mode ExecTypes_ERA5); reflexivity.
Qed.

(** X14. A mode that is no value of [ExecTypes] is rejected with
    [KeyError(mode)] by the look-up in [FILES_TO_UPDATE], but only after
    the window has been computed as for mode [ERA5]: up to April 2nd of
    year 1 the run raises [OverflowError] instead.  No file is changed. *)
Theorem unknown_mode_rejected directory field_name mode temp_path today
  environ fs :
  Datetime.valid_date today ->
  mode <> ExecTypes_ERA5 -> mode <> ExecTypes_ERA5T_DAILY ->
  mode <> ExecTypes_ERA5T_MONTHLY ->
  run directory field_name mode temp_path today environ fs
  = (Raise (if (92 <? Datetime.toordinal today)%Z then KeyError mode
            else OverflowError), fs).
Proof.
  intros Hv H5 Hd Hm.
  apply String.eqb_neq in H5, Hd, Hm.
  pose proof (window_outcome ExecTypes_ERA5T_DAILY ExecTypes_ERA5T_MONTHLY mode
                today Hv) as Hw.
  rewrite Hd, Hm in Hw. cbv zeta in Hw.
  unfold update_config_file, bind, lift.
  destruct Hw as [[Hlate [w ->]] | [Hearly ->]].
  - rewrite FILES_TO_UPDATE_lookup, Hm, Hd, H5.
    apply Z.ltb_lt in Hlate. now rewrite Hlate.
  - apply Z.ltb_ge in Hearly. now rewrite Hearly.
Qed.

(** X15. When the lookup or the reading of the two members fails for one of
    the keys, a run in one of the three modes raises that failure and
    changes no file: the credential text is built before the first file is
    read. *)
Theorem secret_failure_aborts_run directory field_name mode temp_path today
  environ fs before secret_key after e :
  Datetime.valid_date today -> (92 < Datetime.toordinal today)%Z ->
  mode = ExecTypes_ERA5 \/ mode = ExecTypes_ERA5T_DAILY
  \/ mode = ExecTypes_ERA5T_MONTHLY ->
  get_api_keys environ = (before ++ secret_key :: after)%list ->
  Forall (fun k => exists secret, get_secret_fields get_secret k = Ok secret)
    before ->
  get_secret_fields get_secret secret_key = Raise e ->
  run directory field_name mode temp_path today environ fs = (Raise e, fs).
Proof.
  intros Hv Hlate Hmode Hkeys Hb He.
  pose proof (window_outcome ExecTypes_ERA5T_DAILY ExecTypes_ERA5T_MONTHLY mode
                today Hv) as Hw.
  cbv zeta in Hw.
  destruct Hw as [[_ [w Hw]] | [Hearly _]].
  2:{ destruct (String.eqb mode ExecTypes_ERA5T_DAILY);
        [| destruct (String.eqb mode ExecTypes_ERA5T_MONTHLY)]; lia. }
  unfold update_config_file, bind, lift, get_fs. rewrite Hw.
  assert (Hf : exists files, Dict.get mode FILES = Some files).
  { rewrite FILES_TO_UPDATE_lookup.
    destruct (String.eqb mode ExecTypes_ERA5T_MONTHLY) eqn:E1; [eauto |].
    destruct (String.eqb mode ExecTypes_ERA5T_DAILY) eqn:E2; [eauto |].
    destruct (String.eqb mode ExecTypes_ERA5) eqn:E3; [eauto |].
    apply String.eqb_neq in E1, E2, E3. tauto. }
  destruct Hf as [files ->].
  unfold generate_additional_content. rewrite Hkeys.
  now rewrite (generate_loop_raise get_secret _ _ _ _ 0 "" Hb He).
Qed.

End RunFacts.

(* ================================================================== *)
(** * What [new_config_file] changes in a configuration *)
(* ================================================================== *)

Section MutationFacts.

Lemma split_go_absent c sep s :
  Str.contains (String c sep) s = false ->
  Str.split_go (String c sep) 0 s = (s, []).
Proof.
  induction s as [| d s IH]; intros H; [reflexivity |].
  cbn [Str.contains] in H. apply orb_false_iff in H as [Hp Hc].
  rewrite split_go_cons, Hp, (IH Hc). reflexivity.
Qed.

Lemma replace_absent c old new s :
  Str.contains (String c old) s = false -> Str.replace (String c old) new s = s.
Proof.
  intros H. unfold Str.replace, Str.split. now rewrite (split_go_absent _ _ _ H).
Qed.

Lemma replace_at_start c old new r :
  Str.replace (String c old) new (String c old ++ r)
  = new ++ Str.replace (String c old) new r.
Proof.
  unfold Str.replace, Str.split. rewrite split_go_match. reflexivity.
Qed.

Lemma set_keeps_the_rest c section option value c' :
  Configparser.set c section option value = Ok c' ->
  section <> "" -> section <> Configparser.DEFAULTSECT ->
  _defaults c' = _defaults c
  /\ Configparser.sections c' = Configparser.sections c
  /\ (forall x, x <> section ->
        Dict.get x (_sections c') = Dict.get x (_sections c))
  /\ exists sectdict,
       Dict.get section (_sections c) = Some sectdict
       /\ Dict.get section (_sections c')
          = Some (Dict.set (Configparser.optionxform option) value sectdict).
Proof.
  intros H H1 H2.
  destruct (set_section_inv _ _ _ _ _ H H1 H2) as (sectdict & Hg & ->).
  cbn [_defaults _sections]. unfold Configparser.sections. cbn [_sections].
  split; [reflexivity |]. split; [now apply dict_keys_set with sectdict |].
  split; [intros x Hx; now apply dict_get_set_other |].
  exists sectdict. split; [exact Hg | apply dict_get_set_same].
Qed.

Lemma set_target_path_keeps c temp_path c' :
  set_target_path c temp_path = Ok c' ->
  _defaults c' = _defaults c
  /\ Configparser.sections c' = Configparser.sections c.
Proof.
  unfold set_target_path. destruct temp_path as [[| a p] |];
    try (intros H; injection H as <-; split; reflexivity).
  destruct (Configparser.get c "parameters" "target_path"); [| discriminate].
  cbn [rbind]. intros H.
  destruct (set_keeps_the_rest _ _ _ _ _ H) as (Hd & Hs & _);
    [discriminate | discriminate |]. split; assumption.
Qed.

Lemma set_selection_keeps c field_name config_args c' :
  set_selection c field_name config_args = Ok c' ->
  _defaults c' = _defaults c
  /\ Configparser.sections c' = Configparser.sections c
  /\ (forall x, x <> "selection" ->
        Dict.get x (_sections c') = Dict.get x (_sections c)).
Proof.
  assert (Hone : forall c option value c',
             Configparser.set c "selection" option value = Ok c' ->
             _defaults c' = _defaults c
             /\ Configparser.sections c' = Configparser.sections c
             /\ (forall x, x <> "selection" ->
                   Dict.get x (_sections c') = Dict.get x (_sections c))).
  { intros c0 o v c0' H.
    destruct (set_keeps_the_rest _ _ _ _ _ H) as (Hd & Hs & Hx & _);
      [discriminate | discriminate |]. auto. }
  unfold set_selection. destruct (ConfigArgs.year_wise_date config_args).
  - destruct (Configparser.set c "selection" "year" _) as [c1 |] eqn:E1;
      [| discriminate]. cbn [rbind].
    destruct (Configparser.set c1 "selection" "month" _) as [c2 |] eqn:E2;
      [| discriminate]. cbn [rbind]. intros E3.
    destruct (Hone _ _ _ _ E1) as (Hd1 & Hs1 & Hx1).
    destruct (Hone _ _ _ _ E2) as (Hd2 & Hs2 & Hx2).
    destruct (Hone _ _ _ _ E3) as (Hd3 & Hs3 & Hx3).
    split; [congruence |]. split; [congruence |].
    intros x Hx. now rewrite Hx3, Hx2, Hx1.
  - apply Hone.
Qed.

(** X10. The configuration [new_config_file] writes keeps the [DEFAULT] values
    and every section of the file in place: the sections after the change
    are the ones read, in their order, followed by one section per
    credential block; and a section other than [parameters] and
    [selection] keeps its options as they were. *)
Theorem sections_are_kept config field_name additional_content config_args
  temp_path config' :
  mutate_config config field_name additional_content config_args temp_path
  = Ok config' ->
  (forall section,
     In section (removelast (Str.split (NL ++ NL) additional_content)) ->
     block_section_name section <> "") ->
  _defaults config' = _defaults config
  /\ Configparser.sections config'
     = (Configparser.sections config
        ++ map block_section_name
             (removelast (Str.split (NL ++ NL) additional_content)))%list
  /\ (forall section options,
        section <> "parameters" -> section <> "selection" ->
        Dict.get section (_sections config) = Some options ->
        Dict.get section (_sections config') = Some options).
Proof.
  unfold mutate_config. intros H Hnames.
  destruct (set_target_path config temp_path) as [c1 |] eqn:E1; [| discriminate].
  cbn [rbind] in H.
  destruct (set_selection c1 field_name config_args) as [c2 |] eqn:E2;
    [| discriminate].
  cbn [rbind] in H. unfold add_credential_sections in H.
  destruct (set_target_path_keeps _ _ _ E1) as (Hd1 & Hs1).
  destruct (set_selection_keeps _ _ _ _ E2) as (Hd2 & Hs2 & Hx2).
  destruct (add_credential_sections_added _ _ _ H Hnames)
    as (Hd3 & _ & added & Hsec & Hkeys).
  split; [congruence |]. split.
  - unfold Configparser.sections in *. rewrite Hsec. unfold Dict.keys in *.
    rewrite map_app, Hkeys. congruence.
  - intros section options Hp Hs Hg.
    apply (add_credential_sections_get _ _ _ _ _ H).
    rewrite Hx2 by exact Hs.
    rewrite (set_target_path_other_section _ _ _ _ E1) by exact Hp. exact Hg.
Qed.

(** X11. With a [temp_path], the value [config.get] finds for [target_path] in
    [parameters] (the section's own or the [DEFAULT] one) is stored in the
    section with every occurrence of the bucket prefix replaced: a value
    that starts with the prefix starts with [temp_path] instead, a value
    without the prefix is stored as it is.  The other options of
    [parameters] keep their values. *)
Theorem target_path_redirected config temp_path config' :
  temp_path <> "" ->
  set_target_path config (Some temp_path) = Ok config' ->
  exists target_path options options',
    Configparser.get config "parameters" "target_path" = Ok target_path
    /\ Configparser.get config' "parameters" "target_path"
       = Ok (Str.replace "gs://gcp-public-data-arco-era5/raw" temp_path
               target_path)
    /\ (forall rest,
          target_path = "gs://gcp-public-data-arco-era5/raw" ++ rest ->
          Str.replace "gs://gcp-public-data-arco-era5/raw" temp_path target_path
          = temp_path
            ++ Str.replace "gs://gcp-public-data-arco-era5/raw" temp_path rest)
    /\ (Str.contains "gs://gcp-public-data-arco-era5/raw" target_path = false ->
        Str.replace "gs://gcp-public-data-arco-era5/raw" temp_path target_path
        = target_path)
    /\ Dict.get "parameters" (_sections config) = Some options
    /\ Dict.get "parameters" (_sections config') = Some options'
    /\ (forall option, option <> "target_path" ->
          Dict.get option options' = Dict.get option options).
Proof.
  intros Hne H. unfold set_target_path in H.
  destruct temp_path as [| a p]; [contradiction |].
  destruct (Configparser.get config "parameters" "target_path")
    as [target_path |] eqn:Eg; [| discriminate].
  cbn [rbind] in H.
  destruct (set_keeps_the_rest _ _ _ _ _ H) as (_ & _ & _ & options & Ho & Ho');
    [discriminate | discriminate |].
  change (Configparser.optionxform "target_path") with "target_path" in Ho'.
  exists target_path, options. eexists.
  split; [reflexivity |]. split; [| split; [| split; [| split; [| split]]]].
  - apply (get_own_value _ _ _ _ _ Ho').
    change (Configparser.optionxform "target_path") with "target_path".
    apply dict_get_set_same.
  - intros rest ->. apply replace_at_start.
  - apply replace_absent.
  - exact Ho.
  - exact Ho'.
  - intros option Hopt. now apply dict_get_set_other.
Qed.

End MutationFacts.

(* ================================================================== *)
(** * Injecting into a file and stripping it *)
(* ================================================================== *)

Section FileInjection.

Variable parse_config : string -> result ConfigParser.

Lemma set_target_path_parameters config temp_path config' options :
  set_target_path config temp_path = Ok config' ->
  Dict.get "parameters" (_sections config) = Some options ->
  exists options',
    Dict.get "parameters" (_sections config') = Some options'
    /\ forall option, option <> "target_path" ->
         Dict.get option options' = Dict.get option options.
Proof.
  unfold set_target_path. destruct temp_path as [[| a p] |];
    try (intros H Hg; injection H as <-; exists options; split; auto).
  destruct (Configparser.get config "parameters" "target_path"); [| discriminate].
  cbn [rbind]. intros H Hg.
  destruct (set_keeps_the_rest _ _ _ _ _ H) as (_ & _ & _ & options0 & Ho & Ho');
    [discriminate | discriminate |].
  rewrite Hg in Ho. injection Ho as <-.
  eexists. split; [exact Ho' |].
  intros option Hopt. apply dict_get_set_other.
  change (Configparser.optionxform "target_path") with "target_path".
  exact Hopt.
Qed.

Lemma set_selection_options config field_name config_args config' :
  set_selection config field_name config_args = Ok config' ->
  exists sel sel',
    Dict.get "selection" (_sections config) = Some sel
    /\ Dict.get "selection" (_sections config') = Some sel'
    /\ forall option,
         option <> "year" -> option <> "month" -> option <> "day" ->
         option <> Configparser.optionxform field_name ->
         Dict.get option sel' = Dict.get option sel.
Proof.
  intros H. apply set_selection_inv in H as (sel & Hs & Hs').
  exists sel. eexists. split; [exact Hs |]. split; [exact Hs' |].
  intros option Hy Hm Hd Hf.
  destruct (ConfigArgs.year_wise_date config_args).
  - rewrite !dict_get_set_other by assumption. reflexivity.
  - apply dict_get_set_other. exact Hf.
Qed.

(** C2, as the code has it. [new_config_file] injects the blocks
    [parameters.api0] to [parameters.api<N-1>] into a file and
    [remove_license_from_config_file] strips it with the count [N].  When
    the file written in between is read back as the configuration that
    was written, the file then holds the configuration [new_config_file]
    had made before it appended the blocks: it has none of the sections
    [parameters.api<i>], [i < N], and it has the [DEFAULT] values, the
    sections and their order as the file had them before, and their
    options but for [target_path] in [parameters] and the date fields in
    [selection], which [new_config_file] sets.  No other file is
    changed. *)
Theorem inject_then_strip config_file field_name additional_content
  config_args temp_path fs config0 config1 config2 config3 N :
  read_config parse_config config_file fs = (Ok config0, fs) ->
  set_target_path config0 temp_path = Ok config1 ->
  set_selection config1 field_name config_args = Ok config2 ->
  add_credential_sections config2 additional_content = Ok config3 ->
  map block_section_name (removelast (Str.split (NL ++ NL) additional_content))
  = map license_section_name (seq 0 N) ->
  parse_config (Configparser.write config3) = Ok config3 ->
  exists fs1 fs2,
    new_config_file parse_config config_file field_name additional_content
      config_args temp_path fs = (Ok tt, fs1)
    /\ Dict.get config_file fs1 = Some (Configparser.write config3)
    /\ Configparser.sections config3
       = (Configparser.sections config0
          ++ map license_section_name (seq 0 N))%list
    /\ remove_license_from_config_file parse_config config_file N fs1
       = (Ok tt, fs2)
    /\ Dict.get config_file fs2 = Some (Configparser.write config2)
    /\ (forall i, i < N ->
          Configparser.has_section config2 (license_section_name i) = false)
    /\ _defaults config2 = _defaults config0
    /\ Configparser.sections config2 = Configparser.sections config0
    /\ (forall section options,
          section <> "parameters" -> section <> "selection" ->
          Dict.get section (_sections config0) = Some options ->
          Dict.get section (_sections config2) = Some options)
    /\ (forall options0,
          Dict.get "parameters" (_sections config0) = Some options0 ->
          exists options2,
            Dict.get "parameters" (_sections config2) = Some options2
            /\ forall option, option <> "target_path" ->
                 Dict.get option options2 = Dict.get option options0)
    /\ (exists sel0 sel2,
          Dict.get "selection" (_sections config0) = Some sel0
          /\ Dict.get "selection" (_sections config2) = Some sel2
          /\ forall option,
               option <> "year" -> option <> "month" -> option <> "day" ->
               option <> Configparser.optionxform field_name ->
               Dict.get option sel2 = Dict.get option sel0)
    /\ (forall path, path <> config_file ->
                     Dict.get path fs2 = Dict.get path fs).
Proof.
  intros Hread E1 E2 E3 Hnames Hback.
  exists (Dict.set config_file (Configparser.write config3) fs).
  exists (Dict.set config_file (Configparser.write config2)
            (Dict.set config_file (Configparser.write config3) fs)).
  unfold add_credential_sections in E3.
  destruct (add_then_remove_sections _ _ _ _ E3 Hnames) as [Hrm Hfree].
  destruct (set_target_path_keeps _ _ _ E1) as [Hd1 Hs1].
  destruct (set_selection_keeps _ _ _ _ E2) as (Hd2 & Hs2 & Hx2).
  assert (Hne : forall b,
            In b (removelast (Str.split (NL ++ NL) additional_content)) ->
            block_section_name b <> "").
  { intros b Hb E. apply (in_map block_section_name) in Hb.
    rewrite Hnames, E in Hb. apply in_map_iff in Hb as (i & Hi & _).
    pose proof (proj1 (license_section_name_not_special i)) as Hs.
    rewrite Hi in Hs. discriminate. }
  destruct (add_credential_sections_added _ _ _ E3 Hne)
    as (_ & _ & added & Hsec & Hkeys).
  split; [| split; [| split; [| split; [| split; [| split; [| split;
    [| split; [| split; [| split; [| split]]]]]]]]]].
  - rewrite new_config_file_run, Hread. cbn [fst].
    unfold mutate_config, add_credential_sections.
    rewrite E1. cbn [rbind]. rewrite E2. cbn [rbind]. rewrite E3. reflexivity.
  - apply dict_get_set_same.
  - unfold Configparser.sections, Dict.keys in *.
    rewrite Hsec, map_app, Hkeys, Hnames. congruence.
  - rewrite remove_license_from_config_file_run. unfold read_config.
    rewrite dict_get_set_same, Hback. cbn [fst].
    unfold remove_license_sections. rewrite Hrm. reflexivity.
  - apply dict_get_set_same.
  - intros i Hi. apply Hfree. apply in_seq. lia.
  - congruence.
  - congruence.
  - intros section options Hp Hs Hg. rewrite Hx2 by exact Hs.
    rewrite (set_target_path_other_section _ _ _ _ E1) by exact Hp. exact Hg.
  - intros options0 Hg.
    destruct (set_target_path_parameters _ _ _ _ E1 Hg) as (options1 & Hg1 & Hsame).
    exists options1. split; [| exact Hsame].
    rewrite Hx2 by discriminate. exact Hg1.
  - destruct (set_selection_options _ _ _ _ E2) as (sel1 & sel2 & Hg1 & Hg2 & Hsame).
    exists sel1, sel2. split; [| split; [exact Hg2 | exact Hsame]].
    rewrite <- (set_target_path_other_section _ _ _ "selection" E1)
      by discriminate.
    exact Hg1.
  - intros path Hp. rewrite !dict_get_set_other by exact Hp. reflexivity.
Qed.

End FileInjection.

(** Two runs on the file [pl_path].  With the two sample secrets the file
    is injected and stripped, and it then holds the range of the window
    where it held the range it came with: [new_config_file] sets the date
    fields as well.  With a key that has a carriage return inside,
    [new_config_file] appends the block and writes the value as it is; a
    stream in text mode reads the carriage return as a line break, so the
    rest of the value is a line that cannot be parsed;
    [remove_license_from_config_file] raises [ParsingError] before it
    writes, and the section [parameters.api0] stays in the file. *)
Lemma round_trip_not_the_identity :
  (exists config0 config2 fs1 fs2,
     Dict.get Sample.pl_path Sample.files = Some Sample.pl_cfg
     /\ Sample.parse_config Sample.pl_cfg = Ok config0
     /\ new_config_file Sample.parse_config Sample.pl_path "date"
          Sample.credential_text Sample.config_args None Sample.files
        = (Ok tt, fs1)
     /\ remove_license_from_config_file Sample.parse_config Sample.pl_path 2
          fs1 = (Ok tt, fs2)
     /\ Dict.get Sample.pl_path fs2 = Some (Configparser.write config2)
     /\ Sample.parse_config (Configparser.write config2) = Ok config2
     /\ Configparser.get config0 "selection" "date"
        = Ok "2020-01-01/to/2020-01-31"
     /\ Configparser.get config2 "selection" "date"
        = Ok "2023-12-01/to/2023-12-31")
  /\ (List.length (get_api_keys Sample.carriage_environ) = 1
      /\ generate_additional_content Sample.get_secret Sample.carriage_environ
         = Ok Sample.carriage_text
      /\ exists fs1 text,
           new_config_file Sample.parse_config Sample.pl_path "date"
             Sample.carriage_text Sample.config_args None Sample.files
           = (Ok tt, fs1)
           /\ remove_license_from_config_file Sample.parse_config
                Sample.pl_path 1 fs1 = (Raise ParsingError, fs1)
           /\ Dict.get Sample.pl_path fs1 = Some text
           /\ Str.contains ("[parameters.api0]" ++ NL) text = true).
Proof.
  split.
  - let r0 := eval vm_compute in (Sample.parse_config Sample.pl_cfg) in
    match r0 with
    | Ok ?c0 =>
        let r2 := eval vm_compute in
          (set_selection c0 "date" Sample.config_args) in
        match r2 with
        | Ok ?c2 =>
            let r := eval vm_compute in
              (new_config_file Sample.parse_config Sample.pl_path "date"
                 Sample.credential_text Sample.config_args None Sample.files) in
            match r with
            | (Ok tt, ?fs1) =>
                let r' := eval vm_compute in
                  (remove_license_from_config_file Sample.parse_config
                     Sample.pl_path 2 fs1) in
                match r' with
                | (Ok tt, ?fs2) =>
                    exists c0, c2, fs1, fs2; repeat split; vm_compute; reflexivity
                end
            end
        end
    end.
  - split; [reflexivity |]. split; [vm_compute; reflexivity |].
    let r := eval vm_compute in
      (new_config_file Sample.parse_config Sample.pl_path "date"
         Sample.carriage_text Sample.config_args None Sample.files) in
    match r with
    | (Ok tt, ?fs1) =>
        let t := eval vm_compute in (Dict.get Sample.pl_path fs1) in
        match t with
        | Some ?text =>
            exists fs1, text; repeat split; vm_compute; reflexivity
        end
    end.
Qed.

Lemma inject_then_strip_witness :
  exists config2 fs1 fs2,
    new_config_file Sample.parse_config Sample.pl_path "date"
      Sample.credential_text Sample.config_args None Sample.files = (Ok tt, fs1)
    /\ remove_license_from_config_file Sample.parse_config Sample.pl_path 2 fs1
       = (Ok tt, fs2)
    /\ Dict.get Sample.pl_path fs2 = Some (Configparser.write config2)
    /\ Configparser.sections config2 = ["parameters"; "selection"]
    /\ Configparser.has_section config2 "parameters.api0" = false
    /\ Configparser.has_section config2 "parameters.api1" = false.
Proof.
  let r0 := eval vm_compute in (Sample.parse_config Sample.pl_cfg) in
  match r0 with
  | Ok ?c0 =>
      let r2 := eval vm_compute in
        (set_selection c0 "date" Sample.config_args) in
      match r2 with
      | Ok ?c2 =>
          let r3 := eval vm_compute in
            (add_credential_sections c2 Sample.credential_text) in
          match r3 with
          | Ok ?c3 =>
              destruct (inject_then_strip Sample.parse_config
                          Sample.pl_path "date" Sample.credential_text
                          Sample.config_args None Sample.files c0 c0 c2 c3 2)
                as (fs1 & fs2 & H1 & _ & _ & H2 & H3 & Hfree & _);
              [ vm_compute; reflexivity | reflexivity | vm_compute; reflexivity
              | vm_compute; reflexivity | vm_compute; reflexivity
              | vm_compute; reflexivity
              | exists c2, fs1, fs2;
                split; [exact H1 |]; split; [exact H2 |]; split; [exact H3 |];
                split; [reflexivity |];
                split; [apply (Hfree 0); lia | apply (Hfree 1); lia] ]
          end
      end
  end.
Defined.

(* ================================================================== *)
(** * A run that ends: what every eligible file holds *)
(* ================================================================== *)

Section RunResult.

Variables ExecTypes_ERA5 ExecTypes_ERA5T_DAILY ExecTypes_ERA5T_MONTHLY : string.
Variable parse_config : string -> result ConfigParser.
Variable glob : FS -> string -> list string.
Variable get_secret : string -> result json.

Local Notation "'FILES'" :=
  (FILES_TO_UPDATE ExecTypes_ERA5 ExecTypes_ERA5T_DAILY ExecTypes_ERA5T_MONTHLY).
Local Notation "'run'" :=
  (update_config_file ExecTypes_ERA5 ExecTypes_ERA5T_DAILY
     ExecTypes_ERA5T_MONTHLY parse_config glob get_secret).
Local Notation "'window'" :=
  (get_previous_month_dates ExecTypes_ERA5T_DAILY ExecTypes_ERA5T_MONTHLY).

(** The selection fields of a configuration, for the window [dates]. *)
Local Notation "'holds_window'" :=
  (fun (field_name filename : string) (dates : MonthDates.t)
       (config : ConfigParser) =>
     if Str.contains "lnsp" filename || Str.contains "zs" filename
        || Str.contains "sfc" filename
     then Configparser.get config "selection" "year"
          = Ok (MonthDates.sl_year dates)
          /\ Configparser.get config "selection" "month"
             = Ok (MonthDates.sl_month dates)
          /\ Configparser.get config "selection" "day" = Ok "all"
     else Configparser.get config "selection" field_name
          = Ok (Datetime.isoformat (MonthDates.first_day dates) ++ "/to/"
                ++ Datetime.isoformat (MonthDates.last_day dates))).

Lemma mutate_config_selection config field_name additional_content config_args
  temp_path config' :
  mutate_config config field_name additional_content config_args temp_path
  = Ok config' ->
  if ConfigArgs.year_wise_date config_args
  then Configparser.get config' "selection" "year"
       = Ok (ConfigArgs.sl_year config_args)
       /\ Configparser.get config' "selection" "month"
          = Ok (ConfigArgs.sl_month config_args)
       /\ Configparser.get config' "selection" "day" = Ok "all"
  else Configparser.get config' "selection" field_name
       = Ok (Datetime.isoformat (ConfigArgs.first_day config_args) ++ "/to/"
             ++ Datetime.isoformat (ConfigArgs.last_day config_args)).
Proof.
  unfold mutate_config. intros H.
  destruct (set_target_path config temp_path) as [c1 |]; [| discriminate].
  cbn [rbind] in H.
  destruct (set_selection c1 field_name config_args) as [c2 |] eqn:E2;
    [| discriminate].
  cbn [rbind] in H. unfold add_credential_sections in H.
  apply set_selection_inv in E2. destruct E2 as (sel0 & _ & H2).
  pose proof (add_credential_sections_get _ _ _ _ _ H H2) as Hsel.
  destruct (ConfigArgs.year_wise_date config_args).
  - split; [| split]; apply (get_own_value _ _ _ _ _ Hsel).
    + change (Configparser.optionxform "year") with "year".
      rewrite !dict_get_set_other by discriminate. apply dict_get_set_same.
    + change (Configparser.optionxform "month") with "month".
      rewrite dict_get_set_other by discriminate. apply dict_get_set_same.
    + change (Configparser.optionxform "day") with "day".
      apply dict_get_set_same.
  - apply (get_own_value _ _ _ _ _ Hsel). apply dict_get_set_same.
Qed.

Lemma update_one_file_written files_to_update field_name additional_content
  dates temp_path filename fs fs' :
  update_one_file parse_config files_to_update field_name additional_content
    (ConfigArgs.mk false (MonthDates.first_day dates)
       (MonthDates.last_day dates) (MonthDates.sl_year dates)
       (MonthDates.sl_month dates)) temp_path filename fs = (Ok tt, fs') ->
  existsb (fun chunk => Str.contains chunk filename) files_to_update = true ->
  exists config,
    Dict.get filename fs' = Some (Configparser.write config)
    /\ holds_window field_name filename dates config.
Proof.
  intros Hrun Hel. unfold update_one_file in Hrun. rewrite Hel in Hrun.
  cbn [ConfigArgs.first_day ConfigArgs.last_day ConfigArgs.sl_year
       ConfigArgs.sl_month] in Hrun.
  rewrite new_config_file_run in Hrun.
  destruct (fst (read_config parse_config filename fs)) as [config0 |];
    [| discriminate].
  destruct (mutate_config config0 _ _ _ _) as [config |] eqn:Em; [| discriminate].
  injection Hrun as <-. exists config. split; [apply dict_get_set_same |].
  apply mutate_config_selection in Em.
  destruct (Str.contains "lnsp" filename || Str.contains "zs" filename
            || Str.contains "sfc" filename); exact Em.
Qed.

Lemma update_one_file_other files_to_update field_name additional_content
  config_args temp_path filename fs path :
  path <> filename ->
  Dict.get path
    (snd (update_one_file parse_config files_to_update field_name
            additional_content config_args temp_path filename fs))
  = Dict.get path fs.
Proof.
  intros Hp. unfold update_one_file.
  destruct (existsb _ files_to_update); [| reflexivity].
  now apply new_config_file_frame.
Qed.

Lemma for_each_written files_to_update field_name additional_content dates
  temp_path filename xs :
  existsb (fun chunk => Str.contains chunk filename) files_to_update = true ->
  forall fs fs',
    for_each xs
      (update_one_file parse_config files_to_update field_name
         additional_content
         (ConfigArgs.mk false (MonthDates.first_day dates)
            (MonthDates.last_day dates) (MonthDates.sl_year dates)
            (MonthDates.sl_month dates)) temp_path) fs = (Ok tt, fs') ->
    In filename xs
    \/ (exists config,
          Dict.get filename fs = Some (Configparser.write config)
          /\ holds_window field_name filename dates config) ->
    exists config,
      Dict.get filename fs' = Some (Configparser.write config)
      /\ holds_window field_name filename dates config.
Proof.
  intros Hel. induction xs as [| x xs IH]; intros fs fs' Hrun Hin.
  - cbn in Hrun. injection Hrun as <-. destruct Hin as [[] | H]. exact H.
  - cbn [for_each] in Hrun. unfold bind in Hrun.
    destruct (update_one_file _ _ _ _ _ _ x fs) as [[[] | e] fs1] eqn:Ex;
      [| discriminate].
    apply (IH fs1 fs' Hrun).
    destruct (string_dec x filename) as [-> | Hne].
    + right. apply (update_one_file_written _ _ _ _ _ _ _ _ Ex Hel).
    + destruct Hin as [[E | Hin] | (config & Hg & Hw)];
        [contradiction | left; exact Hin |].
      right. exists config. split; [| exact Hw]. rewrite <- Hg.
      assert (Hp : filename <> x) by congruence.
      pose proof (update_one_file_other files_to_update field_name
                    additional_content
                    (ConfigArgs.mk false (MonthDates.first_day dates)
                       (MonthDates.last_day dates) (MonthDates.sl_year dates)
                       (MonthDates.sl_month dates)) temp_path x fs filename Hp)
        as Hfr.
      rewrite Ex in Hfr. exact Hfr.
Qed.

(** X16. When a run of [update_config_file] ends without raising, every path
    [glob] reported that contains a fragment of the mode is a file that
    holds the configuration written for it, and that configuration has
    the selection fields of the window of the run: [year], [month] and
    [day] for a path with [lnsp], [zs] or [sfc] in it, the range under
    [field_name] for the others. *)
Theorem run_sets_every_eligible_file directory field_name mode temp_path today
  environ fs fs' dates files_to_update filename :
  run directory field_name mode temp_path today environ fs = (Ok tt, fs') ->
  window mode today = Ok dates ->
  Dict.get mode FILES = Some files_to_update ->
  In filename (if String.eqb mode ExecTypes_ERA5
               then glob fs (directory ++ "/*/*.cfg")
               else glob fs (directory ++ "/" ++ mode ++ "/*.cfg")) ->
  existsb (fun chunk => Str.contains chunk filename) files_to_update = true ->
  exists config,
    Dict.get filename fs' = Some (Configparser.write config)
    /\ if Str.contains "lnsp" filename || Str.contains "zs" filename
          || Str.contains "sfc" filename
       then Configparser.get config "selection" "year"
            = Ok (MonthDates.sl_year dates)
            /\ Configparser.get config "selection" "month"
               = Ok (MonthDates.sl_month dates)
            /\ Configparser.get config "selection" "day" = Ok "all"
       else Configparser.get config "selection" field_name
            = Ok (Datetime.isoformat (MonthDates.first_day dates) ++ "/to/"
                  ++ Datetime.isoformat (MonthDates.last_day dates)).
Proof.
  intros Hrun Hw Hf Hin Hel.
  unfold update_config_file, bind, lift, get_fs in Hrun.
  rewrite Hw, Hf in Hrun.
  destruct (generate_additional_content get_secret environ) as [text |];
    [| discriminate].
  apply (for_each_written _ _ _ _ _ _ _ Hel _ _ Hrun). left. exact Hin.
Qed.

End RunResult.

(* ================================================================== *)
(** * Stripping the credential sections *)
(* ================================================================== *)

Section StripFacts.

Lemma filter_filter {A} (p q : A -> bool) l :
  filter p (filter q l) = filter (fun x => q x && p x) l.
Proof.
  induction l as [| x l IH]; [reflexivity |].
  cbn [filter]. destruct (q x); cbn [filter andb]; [| exact IH].
  destruct (p x); now rewrite IH.
Qed.

Lemma filter_all {A} (p : A -> bool) l :
  (forall x, In x l -> p x = true) -> filter p l = l.
Proof.
  induction l as [| x l IH]; intros H; [reflexivity |].
  cbn [filter]. rewrite (H x (or_introl eq_refl)), IH; [reflexivity |].
  intros y Hy. apply H. now right.
Qed.

Lemma filter_none {A} (p : A -> bool) l :
  (forall x, In x l -> p x = false) -> filter p l = [].
Proof.
  induction l as [| x l IH]; intros H; [reflexivity |].
  cbn [filter]. rewrite (H x (or_introl eq_refl)). apply IH.
  intros y Hy. apply H. now right.
Qed.

(** Deleting a list of keys keeps the items with another key. *)
Lemma fold_del_filter {V} names (l : list (string * V)) :
  fold_left (fun d k => Dict.del k d) names l
  = filter (fun kv => negb (existsb (fun k => String.eqb k (fst kv)) names)) l.
Proof.
  revert l. induction names as [| k names IH]; intros l.
  - cbn. symmetry. apply filter_all. reflexivity.
  - cbn [fold_left existsb]. rewrite IH. unfold Dict.del.
    rewrite filter_filter. apply filter_ext. intros kv.
    now rewrite negb_orb.
Qed.

Lemma listed_iff N k :
  existsb (fun name => String.eqb name k) (map license_section_name (seq 0 N))
  = true
  <-> exists i, i < N /\ license_section_name i = k.
Proof.
  rewrite existsb_exists. split.
  - intros (name & Hin & He). apply in_map_iff in Hin as (i & <- & Hi).
    apply in_seq in Hi. apply String.eqb_eq in He. exists i. split; [lia | exact He].
  - intros (i & Hi & <-). exists (license_section_name i). split.
    + apply in_map. apply in_seq. lia.
    + apply String.eqb_refl.
Qed.

Lemma listed_max N M k :
  existsb (fun name => String.eqb name k)
    (map license_section_name (seq 0 (Nat.max N M)))
  = existsb (fun name => String.eqb name k) (map license_section_name (seq 0 N))
    || existsb (fun name => String.eqb name k)
         (map license_section_name (seq 0 M)).
Proof.
  apply Bool.eq_iff_eq_true. rewrite orb_true_iff, !listed_iff. split.
  - intros (i & Hi & E).
    destruct (Nat.lt_ge_cases i N); [left | right]; exists i; split; auto; lia.
  - intros [(i & Hi & E) | (i & Hi & E)]; exists i; split; auto; lia.
Qed.

Lemma remove_license_sections_filter c N :
  remove_license_sections c N
  = mkConfig (_defaults c)
      (filter (fun s =>
                 negb (existsb (fun name => String.eqb name (fst s))
                         (map license_section_name (seq 0 N))))
         (_sections c)).
Proof.
  unfold remove_license_sections. rewrite remove_sections_fold.
  now rewrite fold_del_filter.
Qed.

Lemma dict_get_filter {V} (p : string -> bool) (l : list (string * V)) k :
  Dict.get k (filter (fun kv => p (fst kv)) l)
  = if p k then Dict.get k l else None.
Proof.
  induction l as [| [k' v] l IH]; [now destruct (p k) |].
  cbn [filter fst]. destruct (p k') eqn:Ek'; cbn [Dict.get].
  - destruct (String.eqb k k') eqn:E; [| exact IH].
    apply String.eqb_eq in E. subst. now rewrite Ek'.
  - rewrite IH. destruct (String.eqb k k') eqn:E; [| reflexivity].
    apply String.eqb_eq in E. subst. now rewrite Ek'.
Qed.

Lemma dict_keys_filter {V} (p : string -> bool) (l : list (string * V)) :
  Dict.keys (filter (fun kv => p (fst kv)) l) = filter p (Dict.keys l).
Proof.
  induction l as [| [k v] l IH]; [reflexivity |].
  unfold Dict.keys in *. cbn [filter fst map].
  destruct (p k); cbn [map fst]; now rewrite IH.
Qed.

(** X17. [remove_license_from_config_file] removes the sections named
    [parameters.api0] to [parameters.api<N-1>] and nothing else: the
    [DEFAULT] values, the other sections, their options and their order
    stay.  A section that is not there is passed over without an error
    ([remove_section] returns [False]), so on a file without any of them
    the configuration is unchanged. *)
Theorem strip_removes_only_credentials (config : ConfigParser) (N : nat) :
  _defaults (remove_license_sections config N) = _defaults config
  /\ Configparser.sections (remove_license_sections config N)
     = filter (fun section =>
                 negb (existsb (fun name => String.eqb name section)
                         (map license_section_name (seq 0 N))))
         (Configparser.sections config)
  /\ (forall i, i < N ->
        Configparser.has_section (remove_license_sections config N)
          (license_section_name i) = false)
  /\ (forall section,
        (forall i, i < N -> section <> license_section_name i) ->
        Dict.get section (_sections (remove_license_sections config N))
        = Dict.get section (_sections config))
  /\ ((forall i, i < N ->
         Configparser.has_section config (license_section_name i) = false) ->
      remove_license_sections config N = config).
Proof.
  rewrite remove_license_sections_filter. cbn [_defaults _sections].
  unfold Configparser.sections, Configparser.has_section. cbn [_sections].
  split; [reflexivity |]. split; [| split; [| split]].
  - apply (dict_keys_filter
             (fun section =>
                negb (existsb (fun name => String.eqb name section)
                        (map license_section_name (seq 0 N))))).
  - intros i Hi. apply dict_get_none_mem.
    rewrite (dict_get_filter
               (fun section =>
                  negb (existsb (fun name => String.eqb name section)
                          (map license_section_name (seq 0 N))))).
    replace (existsb _ _) with true; [reflexivity |].
    symmetry. apply listed_iff. eauto.
  - intros section Hs.
    rewrite (dict_get_filter
               (fun section =>
                  negb (existsb (fun name => String.eqb name section)
                          (map license_section_name (seq 0 N))))).
    destruct (existsb _ _) eqn:E; [| reflexivity].
    apply listed_iff in E as (i & Hi & <-). now destruct (Hs i Hi).
  - intros Habs. destruct config as [d secs]. cbn [_defaults _sections] in *.
    f_equal. apply filter_all. intros [k v] Hin. cbn [fst].
    destruct (existsb _ _) eqn:E; [| reflexivity].
    apply listed_iff in E as (i & Hi & <-).
    specialize (Habs i Hi). unfold Dict.mem in Habs.
    assert (Ht : existsb (String.eqb (license_section_name i)) (Dict.keys secs)
                 = true).
    { apply existsb_exists. exists (license_section_name i).
      split; [| apply String.eqb_refl].
      unfold Dict.keys. apply in_map_iff. now exists (license_section_name i, v). }
    congruence.
Qed.

(** X18. Stripping twice is stripping once with the larger count; with the
    same count the second pass changes nothing. *)
Theorem strip_twice (config : ConfigParser) (N M : nat) :
  remove_license_sections (remove_license_sections config N) M
  = remove_license_sections config (Nat.max N M)
  /\ remove_license_sections (remove_license_sections config N) N
     = remove_license_sections config N.
Proof.
  assert (H : forall M,
            remove_license_sections (remove_license_sections config N) M
            = remove_license_sections config (Nat.max N M)).
  { intros M'. rewrite !remove_license_sections_filter.
    cbn [_defaults _sections]. f_equal. rewrite filter_filter.
    apply filter_ext. intros s. now rewrite listed_max, negb_orb. }
  split; [apply H |]. now rewrite H, Nat.max_id.
Qed.

Lemma strip_added_sections {V} (added : list (string * V)) M :
  forall a n,
    Dict.keys added = map license_section_name (seq a n) ->
    filter (fun s =>
              negb (existsb (fun name => String.eqb name (fst s))
                      (map license_section_name (seq 0 M)))) added
    = skipn (M - a) added.
Proof.
  induction added as [| [k v] added IH]; intros a n Hk.
  - now rewrite skipn_nil.
  - destruct n as [| n]; [discriminate |].
    cbn [Dict.keys map seq fst] in Hk. injection Hk as Hk Hrest.
    cbn [filter fst]. rewrite (IH (S a) n Hrest).
    destruct (existsb _ _) eqn:E; cbn [negb].
    + apply listed_iff in E as (i & Hi & E). rewrite Hk in E.
      apply license_section_name_inj in E. subst i.
      replace (M - a) with (S (M - S a)) by lia. reflexivity.
    + assert (Hge : M <= a).
      { destruct (Nat.le_gt_cases M a) as [H | H]; [exact H |].
        assert (Ht : existsb (fun name => String.eqb name k)
                       (map license_section_name (seq 0 M)) = true)
          by (apply listed_iff; exists a; split; [lia | now symmetry]).
        congruence. }
      replace (M - S a) with 0 by lia. replace (M - a) with 0 by lia.
      reflexivity.
Qed.

(** X19. Stripping with a count [M] that is not the number [N] of injected
    blocks raises nothing.  With too small a count the first [M]
    credential sections go and the sections numbered [M] to [N-1] stay in
    the file; with too large a count the result is what stripping the
    file as it was before the injection gives, so sections of the file's
    own with these names go as well. *)
Theorem strip_with_another_count config additional_content config' N M :
  add_credential_sections config additional_content = Ok config' ->
  map block_section_name (removelast (Str.split (NL ++ NL) additional_content))
  = map license_section_name (seq 0 N) ->
  exists added,
    _sections config' = (_sections config ++ added)%list
    /\ Dict.keys added = map license_section_name (seq 0 N)
    /\ (M <= N ->
        remove_license_sections config' M
        = mkConfig (_defaults config) (_sections config ++ skipn M added)
        /\ forall i, M <= i < N ->
             Configparser.has_section (remove_license_sections config' M)
               (license_section_name i) = true)
    /\ (N <= M ->
        remove_license_sections config' M = remove_license_sections config M).
Proof.
  unfold add_credential_sections. intros Hadd Hnames.
  assert (Hne : forall b,
            In b (removelast (Str.split (NL ++ NL) additional_content)) ->
            block_section_name b <> "").
  { intros b Hb E. apply (in_map block_section_name) in Hb.
    rewrite Hnames, E in Hb. apply in_map_iff in Hb as (i & Hi & _).
    pose proof (proj1 (license_section_name_not_special i)) as Hs.
    rewrite Hi in Hs. discriminate. }
  destruct (add_credential_sections_added _ _ _ Hadd Hne)
    as (Hd & Habs & added & Hsec & Hkeys).
  rewrite Hnames in Hkeys. exists added.
  split; [exact Hsec |]. split; [exact Hkeys |].
  assert (Hold : forall i, i < N ->
            Dict.mem (license_section_name i) (_sections config) = false).
  { intros i Hi.
    assert (Hin : In (license_section_name i)
                    (map block_section_name
                       (removelast (Str.split (NL ++ NL) additional_content))))
      by (rewrite Hnames; apply in_map, in_seq; lia).
    apply in_map_iff in Hin as (b & <- & Hb). now apply Habs. }
  assert (Hkeep : forall K, K <= N ->
            filter (fun s =>
                      negb (existsb (fun name => String.eqb name (fst s))
                              (map license_section_name (seq 0 K))))
              (_sections config) = _sections config).
  { intros K HK. apply filter_all. intros [k v] Hin. cbn [fst].
    destruct (existsb _ _) eqn:E; [| reflexivity].
    apply listed_iff in E as (i & Hi & <-).
    assert (Hm : Dict.mem (license_section_name i) (_sections config) = false)
      by (apply Hold; lia).
    assert (Ht : Dict.mem (license_section_name i) (_sections config) = true).
    { apply existsb_exists. exists (license_section_name i).
      split; [| apply String.eqb_refl].
      unfold Dict.keys. apply in_map_iff. now exists (license_section_name i, v). }
    congruence. }
  split.
  - intros HM.
    assert (E : remove_license_sections config' M
                = mkConfig (_defaults config) (_sections config ++ skipn M added)).
    { rewrite remove_license_sections_filter, Hsec, Hd, filter_app.
      rewrite (Hkeep M HM), (strip_added_sections added M 0 N Hkeys).
      now rewrite Nat.sub_0_r. }
    split; [exact E |]. intros i Hi. rewrite E.
    unfold Configparser.has_section. cbn [_sections].
    rewrite dict_mem_app. apply orb_true_iff. right.
    unfold Dict.mem. apply existsb_exists. exists (license_section_name i).
    split; [| apply String.eqb_refl].
    unfold Dict.keys in *. rewrite <- skipn_map, Hkeys, skipn_map.
    apply in_map. rewrite skipn_seq. apply in_seq. lia.
  - intros HM. rewrite !remove_license_sections_filter, Hsec, Hd, filter_app.
    f_equal. rewrite <- app_nil_r. f_equal.
    rewrite (strip_added_sections added M 0 N Hkeys), Nat.sub_0_r.
    apply skipn_all2. unfold Dict.keys in Hkeys.
    rewrite <- (length_map fst), Hkeys, length_map, length_seq. exact HM.
Qed.

End StripFacts.

Section RerunFacts.

Lemma set_existing_section c section option value sectdict :
  Dict.get section (_sections c) = Some sectdict ->
  String.eqb section "" = false ->
  String.eqb section Configparser.DEFAULTSECT = false ->
  Configparser.set c section option value
  = Ok (mkConfig (_defaults c)
          (Dict.set section
             (Dict.set (Configparser.optionxform option) value sectdict)
             (_sections c))).
Proof.
  intros Hg H1 H2. unfold Configparser.set. now rewrite H1, H2, Hg.
Qed.

Lemma set_selection_ok c field_name config_args sel :
  Dict.get "selection" (_sections c) = Some sel ->
  exists c', set_selection c field_name config_args = Ok c'.
Proof.
  intros Hsel. unfold set_selection.
  destruct (ConfigArgs.year_wise_date config_args).
  - rewrite (set_existing_section _ _ _ _ _ Hsel) by reflexivity. cbn [rbind].
    erewrite set_existing_section;
      [| cbn [_sections]; apply dict_get_set_same | reflexivity | reflexivity].
    cbn [rbind].
    erewrite set_existing_section;
      [| cbn [_sections]; apply dict_get_set_same | reflexivity | reflexivity].
    eauto.
  - rewrite (set_existing_section _ _ _ _ _ Hsel) by reflexivity. eauto.
Qed.

Lemma set_target_path_again c temp_path c1 c' :
  set_target_path c temp_path = Ok c1 ->
  (forall x sectdict, Dict.get x (_sections c1) = Some sectdict ->
                      x = "parameters" ->
                      Dict.get x (_sections c') = Some sectdict) ->
  exists c'', set_target_path c' temp_path = Ok c''.
Proof.
  unfold set_target_path. destruct temp_path as [[| a p] |]; eauto.
  destruct (Configparser.get c "parameters" "target_path") as [v |];
    [| discriminate].
  cbn [rbind]. intros H Hkeep.
  destruct (set_keeps_the_rest _ _ _ _ _ H) as (_ & _ & _ & opts & _ & Hp);
    [discriminate | discriminate |].
  specialize (Hkeep _ _ Hp eq_refl).
  assert (Hg : Configparser.get c' "parameters" "target_path"
               = Ok (Str.replace "gs://gcp-public-data-arco-era5/raw"
                       (String a p) v)).
  { apply (get_own_value _ _ _ _ _ Hkeep). apply dict_get_set_same. }
  rewrite Hg. cbn [rbind].
  rewrite (set_existing_section _ _ _ _ _ Hkeep) by reflexivity. eauto.
Qed.

(** X12. [new_config_file] cannot be run twice on a file with the same
    credential text: the configuration it has written holds the section of
    the first block, so on the second run the date fields are set again
    and [add_section] raises [DuplicateSectionError] for that block.  The
    credentials have to be stripped between two runs. *)
Theorem second_injection_raises config field_name additional_content
  config_args temp_path config' section rest :
  mutate_config config field_name additional_content config_args temp_path
  = Ok config' ->
  removelast (Str.split (NL ++ NL) additional_content) = section :: rest ->
  mutate_config config' field_name additional_content config_args temp_path
  = Raise (DuplicateSectionError (block_section_name section)).
Proof.
  unfold mutate_config. intros H Hblocks.
  destruct (set_target_path config temp_path) as [c1 |] eqn:E1; [| discriminate].
  cbn [rbind] in H.
  destruct (set_selection c1 field_name config_args) as [c2 |] eqn:E2;
    [| discriminate].
  cbn [rbind] in H. unfold add_credential_sections in *.
  rewrite Hblocks in *. cbn [fold_result] in H.
  destruct (add_credential_section c2 section) as [c3 |] eqn:E3;
    [| discriminate].
  cbn [rbind] in H.
  destruct (add_credential_section_inv _ _ _ E3) as (Hnd & _ & _).
  destruct (add_credential_section_sections _ _ _ E3) as (opts & Hs3 & _ & _).
  assert (H3 : Configparser.has_section c3 (block_section_name section) = true).
  { unfold Configparser.has_section. rewrite Hs3, dict_mem_app.
    apply orb_true_iff. right. rewrite dict_mem_cons, String.eqb_refl.
    reflexivity. }
  pose proof (add_credential_sections_has_section _ _ _ _ H H3) as Hhas.
  destruct (set_target_path_again config temp_path c1 config' E1) as [d1 D1].
  { intros x sectdict Hg ->.
    apply (add_credential_sections_get (section :: rest) c2 config').
    - cbn [fold_result]. rewrite E3. exact H.
    - destruct (set_selection_keeps _ _ _ _ E2) as (_ & _ & Hx).
      rewrite Hx by discriminate. exact Hg. }
  rewrite D1. cbn [rbind].
  assert (Hsel : exists sel, Dict.get "selection" (_sections d1) = Some sel).
  { apply dict_mem_get.
    change (Configparser.has_section d1 "selection" = true).
    rewrite (set_target_path_has_section _ _ _ _ D1).
    apply (add_credential_sections_has_section (section :: rest) c2 config').
    - cbn [fold_result]. rewrite E3. exact H.
    - apply set_selection_inv in E2 as (sel0 & _ & Hsel).
      apply (dict_get_mem _ _ _ Hsel). }
  destruct Hsel as [sel Hsel].
  destruct (set_selection_ok d1 field_name config_args sel Hsel) as [d2 D2].
  rewrite D2. cbn [rbind fold_result].
  rewrite add_credential_section_duplicate; [reflexivity | | exact Hnd].
  rewrite (set_selection_has_section _ _ _ _ _ D2).
  rewrite (set_target_path_has_section _ _ _ _ D1). exact Hhas.
Qed.

End RerunFacts.

(* ================================================================== *)
(** * Stripping the files of a directory *)
(* ================================================================== *)

Section StripFiles.

Variable parse_config : string -> result ConfigParser.
Variable listdir : FS -> string -> result (list string).

Lemma strip_leaves_no_credentials config N i :
  i < N ->
  Configparser.has_section (remove_license_sections config N)
    (license_section_name i) = false.
Proof.
  intros Hi. rewrite remove_license_sections_filter.
  unfold Configparser.has_section. cbn [_sections]. apply dict_get_none_mem.
  rewrite (dict_get_filter
             (fun section =>
                negb (existsb (fun name => String.eqb name section)
                        (map license_section_name (seq 0 N))))).
  replace (existsb _ _) with true; [reflexivity |].
  symmetry. apply listed_iff. eauto.
Qed.

Lemma remove_licenses_from_file_other directory_path num_licenses filename fs
  path :
  (Str.endswith ".cfg" filename = true ->
   path <> os_path_join directory_path filename) ->
  Dict.get path
    (snd (remove_licenses_from_file parse_config directory_path num_licenses
            filename fs))
  = Dict.get path fs.
Proof.
  intros Hp. unfold remove_licenses_from_file.
  destruct (Str.endswith ".cfg" filename); [| reflexivity].
  rewrite remove_license_from_config_file_run.
  destruct (fst (read_config parse_config _ fs)); [| reflexivity].
  cbn [snd]. apply dict_get_set_other. now apply Hp.
Qed.

Lemma for_each_stripped directory_path num_licenses path xs :
  forall fs fs',
    for_each xs
      (remove_licenses_from_file parse_config directory_path num_licenses) fs
    = (Ok tt, fs') ->
    (exists filename,
       In filename xs /\ Str.endswith ".cfg" filename = true
       /\ path = os_path_join directory_path filename)
    \/ (exists config,
          Dict.get path fs = Some (Configparser.write config)
          /\ forall i, i < num_licenses ->
               Configparser.has_section config (license_section_name i) = false) ->
    exists config,
      Dict.get path fs' = Some (Configparser.write config)
      /\ forall i, i < num_licenses ->
           Configparser.has_section config (license_section_name i) = false.
Proof.
  induction xs as [| x xs IH]; intros fs fs' Hrun Hin.
  - cbn in Hrun. injection Hrun as <-.
    destruct Hin as [(f & [] & _) | H]. exact H.
  - cbn [for_each] in Hrun. unfold bind in Hrun.
    destruct (remove_licenses_from_file _ _ _ x fs) as [[[] | e] fs1] eqn:Ex;
      [| discriminate].
    apply (IH fs1 fs' Hrun).
    destruct (Str.endswith ".cfg" x) eqn:Ec.
    + destruct (string_dec path (os_path_join directory_path x)) as [-> | Hne].
      * right. unfold remove_licenses_from_file in Ex. rewrite Ec in Ex.
        rewrite remove_license_from_config_file_run in Ex.
        destruct (fst (read_config parse_config _ fs)) as [config |];
          [| discriminate].
        injection Ex as <-.
        exists (remove_license_sections config num_licenses).
        split; [apply dict_get_set_same |].
        intros i Hi. now apply strip_leaves_no_credentials.
      * pose proof (remove_licenses_from_file_other directory_path num_licenses
                      x fs path (fun _ => Hne)) as Hfr.
        rewrite Ex in Hfr. cbn [snd] in Hfr.
        destruct Hin as [(f & [<- | Hf] & Hc & Hp) | (config & Hg & Hno)].
        -- contradiction.
        -- left. eauto.
        -- right. exists config. split; [congruence | exact Hno].
    + pose proof (remove_licenses_from_file_other directory_path num_licenses
                    x fs path) as Hfr.
      rewrite Ex, Ec in Hfr. cbn [snd] in Hfr.
      specialize (Hfr ltac:(discriminate)).
      destruct Hin as [(f & [<- | Hf] & Hc & Hp) | (config & Hg & Hno)].
      * congruence.
      * left. eauto.
      * right. exists config. split; [congruence | exact Hno].
Qed.

Local Notation "'strip'" :=
  (remove_licenses_from_directory parse_config listdir).

(** X22. [remove_licenses_from_directory] rewrites the entries of the directory
    whose name ends in [.cfg] and no other path, with the number of
    matching environment variables as the count.  When it ends without
    raising, each of these files holds a configuration without any of the
    sections [parameters.api0] to [parameters.api<N-1>]; when the
    directory cannot be listed no file is changed. *)
Theorem strip_directory directory_path environ fs :
  (forall e, listdir fs directory_path = Raise e ->
             strip directory_path environ fs = (Raise e, fs))
  /\ (forall filenames path,
        listdir fs directory_path = Ok filenames ->
        (forall filename,
           In filename filenames -> Str.endswith ".cfg" filename = true ->
           path <> os_path_join directory_path filename) ->
        Dict.get path (snd (strip directory_path environ fs)) = Dict.get path fs)
  /\ (forall filenames filename fs',
        listdir fs directory_path = Ok filenames ->
        strip directory_path environ fs = (Ok tt, fs') ->
        In filename filenames -> Str.endswith ".cfg" filename = true ->
        exists config,
          Dict.get (os_path_join directory_path filename) fs'
          = Some (Configparser.write config)
          /\ forall i, i < List.length (get_api_keys environ) ->
               Configparser.has_section config (license_section_name i) = false).
Proof.
  unfold remove_licenses_from_directory, bind, lift, get_fs.
  split; [| split].
  - intros e ->. reflexivity.
  - intros filenames path -> Hp.
    assert (H : forall xs,
              (forall filename, In filename xs ->
                 Str.endswith ".cfg" filename = true ->
                 path <> os_path_join directory_path filename) ->
              forall fs0,
                Dict.get path
                  (snd (for_each xs
                          (remove_licenses_from_file parse_config directory_path
                             (List.length (get_api_keys environ))) fs0))
                = Dict.get path fs0).
    { induction xs as [| x xs IH]; intros Hxs fs0; [reflexivity |].
      cbn [for_each]. unfold bind.
      pose proof (remove_licenses_from_file_other directory_path
                    (List.length (get_api_keys environ)) x fs0 path
                    (Hxs x (or_introl eq_refl))) as Hfr.
      destruct (remove_licenses_from_file _ _ _ x fs0) as [[[] | e] fs1];
        cbn [snd] in *; [| exact Hfr].
      rewrite IH; [exact Hfr |]. intros f Hf. apply Hxs. now right. }
    apply H. exact Hp.
  - intros filenames filename fs' -> Hrun Hin Hc.
    apply (for_each_stripped _ _ _ _ _ _ Hrun). left. eauto.
Qed.

End StripFiles.

(* ================================================================== *)
(** * Worked examples *)
(* ================================================================== *)


Lemma unknown_mode_rejected_witness :
  update_config_file Sample.ERA5 Sample.ERA5T_DAILY Sample.ERA5T_MONTHLY
    Sample.parse_config Sample.glob Sample.get_secret "raw" "date" "era5t" None
    Sample.today Sample.environ Sample.files
  = (Raise (KeyError "era5t"), Sample.files).
Proof.
  apply (unknown_mode_rejected Sample.ERA5 Sample.ERA5T_DAILY
           Sample.ERA5T_MONTHLY Sample.parse_config Sample.glob
           Sample.get_secret "raw" "date" "era5t" None Sample.today
           Sample.environ Sample.files);
    [apply valid_dateb_true; reflexivity | discriminate | discriminate
    | discriminate].
Defined.

Lemma secret_failure_aborts_run_witness :
  update_config_file Sample.ERA5 Sample.ERA5T_DAILY Sample.ERA5T_MONTHLY
    Sample.parse_config Sample.glob Sample.get_secret "raw" "date" Sample.ERA5
    None Sample.today
    [("API_KEY_1", "projects/p/secrets/cds0"); ("API_KEY_2", "lost")]
    Sample.files
  = (Raise (SecretError "lost"), Sample.files).
Proof.
  apply (secret_failure_aborts_run Sample.ERA5 Sample.ERA5T_DAILY
           Sample.ERA5T_MONTHLY Sample.parse_config Sample.glob
           Sample.get_secret "raw" "date" Sample.ERA5 None Sample.today
           [("API_KEY_1", "projects/p/secrets/cds0"); ("API_KEY_2", "lost")]
           Sample.files ["projects/p/secrets/cds0"] "lost" []).
  - apply valid_dateb_true. reflexivity.
  - reflexivity.
  - left. reflexivity.
  - reflexivity.
  - constructor; [| constructor]. exists Sample.secret0. reflexivity.
  - reflexivity.
Defined.

Lemma sections_are_kept_witness :
  exists config config',
    Sample.parse_config Sample.pl_cfg = Ok config
    /\ mutate_config config "date" Sample.credential_text Sample.config_args
         None = Ok config'
    /\ Configparser.sections config'
       = ["parameters"; "selection"; "parameters.api0"; "parameters.api1"].
Proof.
  let r := eval vm_compute in (Sample.parse_config Sample.pl_cfg) in
  match r with
  | Ok ?c =>
      let r' := eval vm_compute in
        (mutate_config c "date" Sample.credential_text Sample.config_args None) in
      match r' with
      | Ok ?c' =>
          exists c, c'; split; [vm_compute; reflexivity |];
          split; [vm_compute; reflexivity |];
          destruct (sections_are_kept c "date" Sample.credential_text
                      Sample.config_args None c') as (_ & Hs & _);
          [vm_compute; reflexivity
          | intros section Hin;
            let l := eval vm_compute in
              (removelast (Str.split (NL ++ NL) Sample.credential_text)) in
            change (In section l) in Hin;
            destruct Hin as [<- | [<- | []]]; vm_compute; discriminate
          | rewrite Hs; vm_compute; reflexivity]
      end
  end.
Defined.

Lemma target_path_redirected_witness :
  exists config config',
    Sample.parse_config Sample.pl_cfg = Ok config
    /\ set_target_path config (Some "/tmp/era5") = Ok config'
    /\ Configparser.get config' "parameters" "target_path"
       = Ok "/tmp/era5/pl/{date}.nc".
Proof.
  let r := eval vm_compute in (Sample.parse_config Sample.pl_cfg) in
  match r with
  | Ok ?c =>
      let r' := eval vm_compute in (set_target_path c (Some "/tmp/era5")) in
      match r' with
      | Ok ?c' =>
          exists c, c'; split; [vm_compute; reflexivity |];
          split; [vm_compute; reflexivity |];
          destruct (target_path_redirected c "/tmp/era5" c')
            as (target_path & options & options' & Hg & Hg' & _);
          [discriminate | vm_compute; reflexivity |];
          rewrite Hg'; vm_compute in Hg; injection Hg as <-;
          vm_compute; reflexivity
      end
  end.
Defined.

Lemma run_sets_every_eligible_file_witness :
  exists fs' config,
    update_config_file Sample.ERA5 Sample.ERA5T_DAILY Sample.ERA5T_MONTHLY
      Sample.parse_config Sample.glob Sample.get_secret "raw" "date"
      Sample.ERA5 None Sample.today Sample.environ Sample.files = (Ok tt, fs')
    /\ Dict.get Sample.pl_path fs' = Some (Configparser.write config)
    /\ Configparser.get config "selection" "date"
       = Ok "2023-12-01/to/2023-12-31".
Proof.
  destruct (update_config_file Sample.ERA5 Sample.ERA5T_DAILY
              Sample.ERA5T_MONTHLY Sample.parse_config Sample.glob
              Sample.get_secret "raw" "date" Sample.ERA5 None Sample.today
              Sample.environ Sample.files) as [r fs'] eqn:Erun.
  assert (Hr : r = Ok tt) by (vm_compute in Erun; congruence).
  subst r.
  destruct (get_previous_month_dates Sample.ERA5T_DAILY Sample.ERA5T_MONTHLY
              Sample.ERA5 Sample.today) as [dates |] eqn:Ew;
    [| vm_compute in Ew; discriminate].
  destruct (run_sets_every_eligible_file Sample.ERA5 Sample.ERA5T_DAILY
              Sample.ERA5T_MONTHLY Sample.parse_config Sample.glob
              Sample.get_secret "raw" "date" Sample.ERA5 None Sample.today
              Sample.environ Sample.files fs' dates
              ["dve"; "o3q"; "qrqs"; "tw"; "pl"; "sl"; "lnsp"; "zs"; "sfc"]
              Sample.pl_path Erun Ew) as (config & Hg & Hsel).
  - reflexivity.
  - vm_compute. left. reflexivity.
  - reflexivity.
  - exists fs', config. split; [reflexivity |]. split; [exact Hg |].
    change (Str.contains "lnsp" Sample.pl_path || Str.contains "zs" Sample.pl_path
            || Str.contains "sfc" Sample.pl_path) with false in Hsel.
    cbv iota in Hsel. rewrite Hsel. vm_compute in Ew. injection Ew as <-.
    vm_compute. reflexivity.
Defined.

Lemma strip_with_another_count_witness :
  exists config config',
    Sample.parse_config Sample.pl_cfg = Ok config
    /\ add_credential_sections config Sample.credential_text = Ok config'
    /\ Configparser.sections (remove_license_sections config' 1)
       = ["parameters"; "selection"; "parameters.api1"]
    /\ remove_license_sections config' 5 = config.
Proof.
  let r := eval vm_compute in (Sample.parse_config Sample.pl_cfg) in
  match r with
  | Ok ?c =>
      let r' := eval vm_compute in
        (add_credential_sections c Sample.credential_text) in
      match r' with
      | Ok ?c' =>
          exists c, c'; split; [vm_compute; reflexivity |];
          split; [vm_compute; reflexivity |];
          split;
          [ destruct (strip_with_another_count c Sample.credential_text c' 2 1)
              as (added & Hs & _ & Hfew & _);
            [vm_compute; reflexivity | vm_compute; reflexivity |];
            destruct (Hfew ltac:(repeat constructor)) as [E _];
            rewrite E; vm_compute in Hs;
            inversion Hs; subst added; vm_compute; reflexivity
          | destruct (strip_with_another_count c Sample.credential_text c' 2 5)
              as (added & _ & _ & _ & Hmany);
            [vm_compute; reflexivity | vm_compute; reflexivity |];
            rewrite (Hmany ltac:(repeat constructor)); vm_compute; reflexivity ]
      end
  end.
Defined.

Lemma second_injection_raises_witness :
  exists config config',
    Sample.parse_config Sample.pl_cfg = Ok config
    /\ mutate_config config "date" Sample.credential_text Sample.config_args
         None = Ok config'
    /\ mutate_config config' "date" Sample.credential_text Sample.config_args
         None = Raise (DuplicateSectionError "parameters.api0").
Proof.
  let r := eval vm_compute in (Sample.parse_config Sample.pl_cfg) in
  match r with
  | Ok ?c =>
      let r' := eval vm_compute in
        (mutate_config c "date" Sample.credential_text Sample.config_args None) in
      match r' with
      | Ok ?c' =>
          exists c, c'; split; [vm_compute; reflexivity |];
          split; [vm_compute; reflexivity |];
          let l := eval vm_compute in
            (removelast (Str.split (NL ++ NL) Sample.credential_text)) in
          match l with
          | ?b :: ?rest =>
              rewrite (second_injection_raises c "date" Sample.credential_text
                         Sample.config_args None c' b rest);
              [vm_compute; reflexivity | vm_compute; reflexivity
              | vm_compute; reflexivity]
          end
      end
  end.
Defined.

Lemma strip_directory_witness :
  Dict.get "raw/era5/notes.txt"
    (snd (remove_licenses_from_directory Sample.parse_config Sample.listdir
            "raw/era5" Sample.environ
            (Sample.injected_files ++ [("raw/era5/notes.txt", "kept")])%list))
  = Some "kept".
Proof.
  rewrite (proj1 (proj2 (strip_directory Sample.parse_config Sample.listdir
                           "raw/era5" Sample.environ
                           (Sample.injected_files
                            ++ [("raw/era5/notes.txt", "kept")])%list))
             ["era5_pl_hourly.cfg"; "era5_ml_sfc.cfg"; "notes.cfg"; "notes.txt"]
             "raw/era5/notes.txt").
  - vm_compute. reflexivity.
  - vm_compute. reflexivity.
  - intros filename [<- | [<- | [<- | [<- | []]]]] Hc; vm_compute in Hc |- *;
      discriminate.
Defined.

(* ================================================================== *)
(** * Injection and clean-up with the same environment *)
(* ================================================================== *)

Section SameEnvironment.

Variable get_secret : string -> result json.

Lemma block_names secrets count :
  Forall (fun s => plain_secret s = true) secrets ->
  map block_section_name (map entry_body (entries_from count secrets))
  = map license_section_name (seq count (List.length secrets)).
Proof.
  revert count. induction secrets as [| s secrets IH]; intros count H;
    [reflexivity |].
  inversion H as [| ? ? Hs Hrest]; subst.
  rewrite entries_from_cons. cbn [map List.length seq].
  rewrite (IH (S count) Hrest). f_equal.
  unfold block_section_name, entry_body. cbn [fst snd].
  rewrite (split_block_lines count s Hs). cbn [nth].
  apply strip_no_space. apply license_section_name_plain.
Qed.

Lemma split_blocks_text_then secrets count tail :
  Forall (fun s => plain_secret s = true) secrets ->
  Str.split (NL ++ NL) (blocks_text count secrets ++ tail)
  = (map entry_body (entries_from count secrets)
     ++ Str.split (NL ++ NL) tail)%list.
Proof.
  rewrite NL_NL. revert count.
  induction secrets as [| s secrets IH]; intros count H; [reflexivity |].
  inversion H as [| ? ? Hs Hrest]; subst.
  cbn [blocks_text]. rewrite credential_block_body, NL_NL, !append_assoc.
  unfold Str.split in *.
  rewrite (split_go_block (block_body count s)) by (now apply block_body_isolated).
  cbn [fst snd]. rewrite (IH (S count) Hrest).
  rewrite entries_from_cons. reflexivity.
Qed.

(** X7. What [update_config_file] injects, [remove_licenses_from_directory]
    strips when the environment is the same: for secrets without [=] and
    line breaks, appending the text made by [generate_additional_content]
    adds the sections [parameters.api0] to [parameters.api<N-1>], [N] the
    number of matching variables, and stripping with the count the
    clean-up takes from the environment gives the configuration back. *)
Theorem cleanup_undoes_injection environ additional_content config config' :
  generate_additional_content get_secret environ = Ok additional_content ->
  (forall secret_key secret,
     In secret_key (get_api_keys environ) ->
     get_secret_fields get_secret secret_key = Ok secret ->
     plain_secret secret = true) ->
  add_credential_sections config additional_content = Ok config' ->
  Configparser.sections config'
  = (Configparser.sections config
     ++ map license_section_name
          (seq 0 (List.length (get_api_keys environ))))%list
  /\ remove_license_sections config' (List.length (get_api_keys environ))
     = config.
Proof.
  unfold generate_additional_content. intros Hgen Hplain Hadd.
  destruct (generate_loop_spec get_secret _ _ _ _ Hgen) as (secrets & Hres & ->).
  assert (Hall : Forall (fun s => plain_secret s = true) secrets).
  { clear Hgen Hadd. induction Hres as [| k s keys secrets Hk Hres IH];
      constructor.
    - apply (Hplain k s); [now left | exact Hk].
    - apply IH. intros k' s' Hin. apply Hplain. now right. }
  pose proof (Forall2_length Hres) as Hlen.
  unfold add_credential_sections in Hadd. cbn [append] in Hadd.
  rewrite (split_blocks_text secrets 0 Hall), removelast_last in Hadd.
  pose proof (block_names secrets 0 Hall) as Hnames. rewrite <- Hlen in Hnames.
  destruct (add_then_remove_sections _ _ _ _ Hadd Hnames) as [Hback _].
  split; [| exact Hback].
  assert (Hne : forall b, In b (map entry_body (entries_from 0 secrets)) ->
                          block_section_name b <> "").
  { intros b Hb E. apply (in_map block_section_name) in Hb.
    rewrite Hnames, E in Hb. apply in_map_iff in Hb as (i & Hi & _).
    pose proof (proj1 (license_section_name_not_special i)) as Hs.
    rewrite Hi in Hs. discriminate. }
  destruct (add_credential_sections_added _ _ _ Hadd Hne)
    as (_ & _ & added & Hsec & Hkeys).
  unfold Configparser.sections, Dict.keys in *.
  rewrite Hsec, map_app, Hkeys, Hnames. reflexivity.
Qed.

End SameEnvironment.

(** X8. [new_config_file] drops what follows the last blank line of
    [additional_content]: a block that is not ended by a blank line is not
    appended, and no error is raised for it. *)
Theorem unterminated_block_dropped config secrets tail :
  Forall (fun s => plain_secret s = true) secrets ->
  Str.contains (NL ++ NL) tail = false ->
  add_credential_sections config (blocks_text 0 secrets ++ tail)
  = add_credential_sections config (blocks_text 0 secrets).
Proof.
  intros Hall Htail. unfold add_credential_sections.
  rewrite (split_blocks_text_then secrets 0 tail Hall).
  rewrite (split_blocks_text secrets 0 Hall).
  unfold Str.split at 1.
  change (NL ++ NL) with (String (ascii_of_nat 10) NL) in Htail |- *.
  rewrite (split_go_absent _ _ _ Htail). cbn [fst snd].
  now rewrite !removelast_last.
Qed.

Lemma cleanup_undoes_injection_witness :
  exists config config',
    Sample.parse_config Sample.pl_cfg = Ok config
    /\ add_credential_sections config Sample.credential_text = Ok config'
    /\ remove_license_sections config' (List.length (get_api_keys Sample.environ))
       = config.
Proof.
  let r := eval vm_compute in (Sample.parse_config Sample.pl_cfg) in
  match r with
  | Ok ?c =>
      let r' := eval vm_compute in
        (add_credential_sections c Sample.credential_text) in
      match r' with
      | Ok ?c' =>
          exists c, c'; split; [vm_compute; reflexivity |];
          split; [vm_compute; reflexivity |];
          apply (cleanup_undoes_injection Sample.get_secret Sample.environ
                   Sample.credential_text c c')
      end
  end.
  - vm_compute. reflexivity.
  - intros secret_key secret Hin.
    change (In secret_key ["projects/p/secrets/cds0"; "projects/p/secrets/cds1"])
      in Hin.
    destruct Hin as [<- | [<- | []]]; intros E; vm_compute in E;
      injection E as <-; reflexivity.
  - vm_compute. reflexivity.
Defined.

Lemma unterminated_block_dropped_witness :
  add_credential_sections Configparser.empty
    (blocks_text 0 [Sample.secret0] ++ block_body 1 Sample.secret1)
  = add_credential_sections Configparser.empty (blocks_text 0 [Sample.secret0]).
Proof.
  apply (unterminated_block_dropped Configparser.empty [Sample.secret0]
           (block_body 1 Sample.secret1)).
  - repeat constructor.
  - vm_compute. reflexivity.
Defined.

Lemma update_keeps_the_paths_witness :
  Dict.keys
    (snd (update_config_file Sample.ERA5 Sample.ERA5T_DAILY Sample.ERA5T_MONTHLY
            Sample.parse_config Sample.glob Sample.get_secret "raw" "date"
            Sample.ERA5 None Sample.today Sample.environ Sample.files))
  = [Sample.pl_path; Sample.sfc_path; "raw/era5/notes.cfg"].
Proof.
  exact (update_keeps_the_paths Sample.ERA5 Sample.ERA5T_DAILY
           Sample.ERA5T_MONTHLY Sample.parse_config Sample.glob
           Sample.get_secret "raw" "date" Sample.ERA5 None Sample.today
           Sample.environ Sample.files).
Defined.

Lemma strip_removes_only_credentials_witness :
  remove_license_sections
    (mkConfig [("client", "cds")] [("parameters", []); ("selection", [])]) 2
  = mkConfig [("client", "cds")] [("parameters", []); ("selection", [])].
Proof.
  apply (proj2 (proj2 (proj2 (proj2 (strip_removes_only_credentials _ 2))))).
  intros i Hi. destruct i as [| [| i]]; [reflexivity | reflexivity | lia].
Defined.

Lemma strip_twice_witness :
  remove_license_sections
    (remove_license_sections
       (mkConfig [] [("parameters.api0", []); ("selection", []);
                     ("parameters.api1", [])]) 1) 2
  = mkConfig [] [("selection", [])].
Proof.
  rewrite (proj1 (strip_twice _ 1 2)). reflexivity.
Defined.
